(** * simple_router_mgr: the demo gRPC simple-router controller

    A shallow embedding of [proto/demo_grpc/simple_router_mgr.cpp]: the
    header codec, the table-entry builders, the device RPCs, the ARP engine
    and the pipeline reload, followed by the properties proved about them.

    Conventions of the embedding.
    - Fixed-width unsigned integers are [Z]; byte buffers are [list byte].
    - The manager object and the log of everything it sent to the device form
      one [World]; member functions are computations in the monad [M], which
      threads the world and stops at the first failed [assert].
    - The device is an oracle: each RPC stub maps the log so far and the
      request to a reply, so any sequence of replies can be expressed.
    - [assert] is modelled as compiled in (no NDEBUG): a false assertion
      ends the run with [Crash AssertFailed].
    - The receive thread of [PacketIOSyncClient] is the flag [recv_thread]:
      set when [recv_packet_in] starts the thread.  Starting it again
      move-assigns onto a joinable [std::thread], which calls
      [std::terminate]: the run ends with [Crash Terminated].  What the
      thread does, posting a [PacketHandler] for each packet read, is the
      operation [OpPacket]. *)

From Stdlib Require Import ZArith Lia Strings.Byte String List.
From stdpp Require Import base option list gmap strings fin_maps.

Local Open Scope Z_scope.

(** ** Bytes and fixed-width integers *)

Definition byte_of_Z (z : Z) : byte :=
  default x00 (Byte.of_N (Z.to_N (z mod 256))).

Definition Z_of_byte (b : byte) : Z := Z.of_N (Byte.to_N b).

(** [htons] followed by a store: the two bytes in network order. *)
Definition store_u16 (x : Z) : list byte :=
  [byte_of_Z (Z.shiftr x 8); byte_of_Z x].

(** [htonl] followed by a store: the four bytes in network order. *)
Definition store_u32 (x : Z) : list byte :=
  [byte_of_Z (Z.shiftr x 24); byte_of_Z (Z.shiftr x 16);
   byte_of_Z (Z.shiftr x 8); byte_of_Z x].

Definition byte_at (buf : list byte) (i : nat) : byte := nth i buf x00.

(** A load followed by [ntohs]. *)
Definition load_u16 (buf : list byte) (off : nat) : Z :=
  Z.lor (Z.shiftl (Z_of_byte (byte_at buf off)) 8)
        (Z_of_byte (byte_at buf (off + 1))).

(** A load followed by [ntohl]. *)
Definition load_u32 (buf : list byte) (off : nat) : Z :=
  Z.lor (Z.shiftl (Z_of_byte (byte_at buf off)) 24)
    (Z.lor (Z.shiftl (Z_of_byte (byte_at buf (off + 1))) 16)
      (Z.lor (Z.shiftl (Z_of_byte (byte_at buf (off + 2))) 8)
             (Z_of_byte (byte_at buf (off + 3))))).

(** [size_t] subtraction, with its wrap-around. *)
Definition size_sub (a b : Z) : Z := (a - b) mod 2 ^ 64.

(** [unsigned char [6]]. *)
Record mac_addr_t := Mac { m0 : byte; m1 : byte; m2 : byte;
                           m3 : byte; m4 : byte; m5 : byte }.

Definition mac_bytes (m : mac_addr_t) : list byte :=
  [m0 m; m1 m; m2 m; m3 m; m4 m; m5 m].

Definition load_mac (buf : list byte) (off : nat) : mac_addr_t :=
  Mac (byte_at buf off) (byte_at buf (off + 1)) (byte_at buf (off + 2))
      (byte_at buf (off + 3)) (byte_at buf (off + 4)) (byte_at buf (off + 5)).

(** [memset (broadcast_addr, 0xff, 6)]. *)
Definition broadcast_addr : mac_addr_t := Mac xff xff xff xff xff xff.

(** Writing [data] into [buf] at byte offset [off], as [memcpy] into the
    middle of a [std::vector<char>] does.  The source has no bounds check:
    a write past the end of the vector is undefined behaviour, which the
    model reports as [None]. *)
Definition store_at (off : nat) (data buf : list byte) : option (list byte) :=
  if (off + length data <=? length buf)%nat
  then Some (firstn off buf ++ data ++ skipn (off + length data) buf)
  else None.

(** ** Header codec *)

(** [enum CPU_REASON]. *)
Definition NO_ARP_ENTRY : Z := 0.
Definition ARP_MSG : Z := 1.
Definition DATA_PKT : Z := 2.

(** Modelled from the spec: the packed structs [cpu_header_t],
    [eth_header_t], [arp_header_t] are declared in simple_router_mgr.h, which
    is not among the sources; their layout is the one of section 4.1 (fixed
    big-endian, no padding). *)
Record cpu_header_t := CpuHeader { reason : Z; port : Z }.

Record eth_header_t := EthHeader {
  eth_dst_addr : mac_addr_t; eth_src_addr : mac_addr_t; ethertype : Z }.

Record arp_header_t := ArpHeader {
  hw_type : Z; proto_type : Z; hw_addr_len : Z; proto_addr_len : Z;
  opcode : Z;
  hw_src_addr : mac_addr_t; proto_src_addr : Z;
  hw_dst_addr : mac_addr_t; proto_dst_addr : Z }.

Definition sizeof_cpu_header_t : Z := 12.
Definition sizeof_eth_header_t : Z := 14.
Definition sizeof_arp_header_t : Z := 28.

Definition zeros8 : list byte := [x00; x00; x00; x00; x00; x00; x00; x00].

(** The bytes [set_cpu_header] leaves in [*cpu_header]; it returns
    [sizeof (cpu_header_t)]. *)
Definition set_cpu_header (reason port : Z) : list byte :=
  zeros8 ++ store_u16 reason ++ store_u16 port.

Definition set_eth_header (dst_addr src_addr : mac_addr_t) (ethertype : Z)
  : list byte :=
  mac_bytes dst_addr ++ mac_bytes src_addr ++ store_u16 ethertype.

Definition set_arp_header (opcode : Z) (hw_src_addr : mac_addr_t)
    (proto_src_addr : Z) (hw_dst_addr : mac_addr_t) (proto_dst_addr : Z)
  : list byte :=
  store_u16 1 ++ store_u16 0x800 ++ [byte_of_Z 6; byte_of_Z 4] ++
  store_u16 opcode ++ mac_bytes hw_src_addr ++ store_u32 proto_src_addr ++
  mac_bytes hw_dst_addr ++ store_u32 proto_dst_addr.

(** [memcpy (&cpu_hdr, pkt, sizeof (cpu_hdr))] and the [ntohs] of its two
    fields, as [PacketHandler] does. *)
Definition load_cpu_header (pkt : list byte) (off : nat) : cpu_header_t :=
  CpuHeader (load_u16 pkt (off + 8)) (load_u16 pkt (off + 10)).

Definition load_eth_header (pkt : list byte) (off : nat) : eth_header_t :=
  EthHeader (load_mac pkt off) (load_mac pkt (off + 6))
            (load_u16 pkt (off + 12)).

(** [memcpy (&arp_header, pkt + offset, sizeof (arp_header))] and the byte
    swaps of [PacketHandler]. *)
Definition load_arp_header (pkt : list byte) (off : nat) : arp_header_t :=
  ArpHeader (load_u16 pkt off) (load_u16 pkt (off + 2))
            (Z_of_byte (byte_at pkt (off + 4)))
            (Z_of_byte (byte_at pkt (off + 5)))
            (load_u16 pkt (off + 6))
            (load_mac pkt (off + 8)) (load_u32 pkt (off + 14))
            (load_mac pkt (off + 18)) (load_u32 pkt (off + 24)).

(** ** Pipeline description and table entries *)

Definition pi_p4_id_t := Z.

(** Modelled from the spec: the pipeline-description library (p4info) is an
    external collaborator; the manager only needs its name-to-id lookups. *)
Record pi_p4info_t := P4Info {
  pi_p4info_table_id_from_name : string -> pi_p4_id_t;
  pi_p4info_action_id_from_name : string -> pi_p4_id_t;
  pi_p4info_field_id_from_name : string -> pi_p4_id_t;
  pi_p4info_action_param_id_from_name : pi_p4_id_t -> string -> pi_p4_id_t;
  pi_p4info_counter_id_from_name : string -> pi_p4_id_t }.

Inductive FieldMatch :=
| Exact (field_id : pi_p4_id_t) (value : list byte)
| Lpm (field_id : pi_p4_id_t) (value : list byte) (prefix_len : Z).

Record ActionParam := Param { param_id : pi_p4_id_t; param_value : list byte }.

Record Action := MkAction { action_id : pi_p4_id_t; params : list ActionParam }.

Record TableEntry := MkTableEntry {
  table_id : pi_p4_id_t; matches : list FieldMatch; action : Action }.

(** [uint_to_string<uint16_t>] and [uint_to_string<uint32_t>]. *)
Definition uint16_to_string (i : Z) : list byte := store_u16 i.
Definition uint32_to_string (i : Z) : list byte := store_u32 i.

(** ** RPC messages, the device and the log *)

Inductive UpdateType := INSERT.

Record TableWriteRequest := MkTableWrite {
  tw_device_id : Z; tw_type : UpdateType; tw_entry : TableEntry }.

(** The [errors] of a [TableWriteResponse]; only their number is used. *)
Record TableWriteResponse := MkTableWriteRep { tw_errors : list Z }.

Record CounterData := MkCounterData { packets : Z; bytes : Z }.

Record CounterEntry := MkCounterEntry {
  ce_counter_id : Z; ce_index : Z; ce_data : CounterData }.

Record CounterReadRequest := MkCounterRead {
  cr_device_id : Z; cr_counter_ids : list pi_p4_id_t }.

Record DeviceAssignRequest := MkDeviceAssign {
  da_device_id : Z; da_p4info : pi_p4info_t;
  da_extras : list (string * string) }.

Record DeviceUpdateStartRequest := MkUpdateStart {
  us_device_id : Z; us_p4info : pi_p4info_t; us_device_data : list byte }.

(** [google::rpc::Code::OK]. *)
Definition Code_OK : Z := 0.

(** What a unary gRPC call gives back: the transport [Status] and the reply
    message. *)
Record Reply (A : Type) := MkReply { status_ok : bool; rep : A }.
Arguments MkReply {A} _ _.
Arguments status_ok {A} _.
Arguments rep {A} _.

Inductive Event :=
| EvPacketInit (device_id : Z)
| EvPacketOut (payload : list byte)
| EvDeviceAssign (req : DeviceAssignRequest) (r : Reply Z)
| EvTableWrite (req : TableWriteRequest) (r : Reply TableWriteResponse)
| EvCounterRead (req : CounterReadRequest) (r : Reply (list CounterEntry))
| EvUpdateStart (req : DeviceUpdateStartRequest) (r : Reply Z)
| EvUpdateEnd (device_id : Z) (r : Reply Z).

(** The gRPC stubs.  A reply may depend on everything sent before. *)
Record Device := MkDevice {
  DeviceAssign : list Event -> DeviceAssignRequest -> Reply Z;
  TableWrite : list Event -> TableWriteRequest -> Reply TableWriteResponse;
  CounterRead : list Event -> CounterReadRequest -> Reply (list CounterEntry);
  DeviceUpdateStart : list Event -> DeviceUpdateStartRequest -> Reply Z;
  DeviceUpdateEnd : list Event -> Z -> Reply Z }.

(** ** The manager *)

(** [typedef std::vector<char> Packet] and
    [typedef std::vector<Packet> PacketQueue]. *)
Abbreviation Packet := (list byte).
Abbreviation PacketQueue := (list (list byte)).

Record Iface := MkIface { port_num : Z; ip_addr : Z; mac_addr : mac_addr_t }.

Inductive UpdateMode := CONTROLLER_STATE | DEVICE_STATE.

(** Modelled from the spec: the class declaration is in simple_router_mgr.h;
    the members are the ones the member functions use (section 3: interfaces,
    next-hop table, pending-packet queues, live pipeline description).
    [recv_thread] is the member of [PacketIOSyncClient]: true when the
    thread is joinable.  [log] is everything sent on the RPC stubs and on
    the packet stream so far. *)
Record World := MkWorld {
  dev_id : Z;
  p4info : pi_p4info_t;
  assigned : bool;
  recv_thread : bool;
  ifaces : list Iface;
  next_hops : gmap Z Z;
  packet_queues : gmap Z (list (list byte));
  log : list Event }.

Definition set_p4info (p : pi_p4info_t) (w : World) : World :=
  MkWorld (dev_id w) p (assigned w) (recv_thread w) (ifaces w)
          (next_hops w) (packet_queues w) (log w).
Definition set_ifaces (l : list Iface) (w : World) : World :=
  MkWorld (dev_id w) (p4info w) (assigned w) (recv_thread w) l (next_hops w)
          (packet_queues w) (log w).
Definition set_next_hops (m : gmap Z Z) (w : World) : World :=
  MkWorld (dev_id w) (p4info w) (assigned w) (recv_thread w) (ifaces w) m
          (packet_queues w) (log w).
Definition set_packet_queues (m : gmap Z (list (list byte))) (w : World)
  : World :=
  MkWorld (dev_id w) (p4info w) (assigned w) (recv_thread w) (ifaces w)
          (next_hops w) m (log w).
Definition set_recv_thread (b : bool) (w : World) : World :=
  MkWorld (dev_id w) (p4info w) (assigned w) b (ifaces w) (next_hops w)
          (packet_queues w) (log w).
Definition emit (e : Event) (w : World) : World :=
  MkWorld (dev_id w) (p4info w) (assigned w) (recv_thread w) (ifaces w)
          (next_hops w) (packet_queues w) (log w ++ [e]).

(** The manager as the constructor leaves it. *)
Definition SimpleRouterMgr (dev_id : Z) (p4info : pi_p4info_t) : World :=
  MkWorld dev_id p4info false false [] ∅ ∅ [].

(** ** The monad of member functions *)

Inductive Fault := AssertFailed | OutOfBounds | Terminated.

Inductive Outcome (A : Type) :=
| Ret (a : A) (w : World)
| Crash (f : Fault) (w : World).
Arguments Ret {A} _ _.
Arguments Crash {A} _ _.

Definition M (A : Type) : Type := World -> Outcome A.

#[global] Instance M_ret : MRet M := fun A a w => Ret a w.
#[global] Instance M_bind : MBind M := fun A B k m w =>
  match m w with
  | Ret a w' => k a w'
  | Crash f w' => Crash f w'
  end.

Definition get_world : M World := fun w => Ret w w.
Definition modify (f : World -> World) : M unit := fun w => Ret tt (f w).
Definition crash {A} (f : Fault) : M A := fun w => Crash f w.
Definition assert (b : bool) : M unit :=
  if b then mret tt else crash AssertFailed.

(** The world an outcome ends in. *)
Definition world_of {A} (o : Outcome A) : World :=
  match o with Ret _ w => w | Crash _ w => w end.

(** [stub (log, request)]: the request goes out, the reply comes back, both
    are logged. *)
Definition call {Req Rep : Type} (stub : list Event -> Req -> Reply Rep)
    (ev : Req -> Reply Rep -> Event) (req : Req) : M (Reply Rep) :=
  fun w => let r := stub (log w) req in Ret r (emit (ev req r) w).

(** [for (auto &x : l) f (x)]. *)
Fixpoint for_each {A : Type} (f : A -> M unit) (l : list A) : M unit :=
  match l with
  | [] => mret tt
  | x :: l' => f x;; for_each f l'
  end.

(** The two addresses of [static_config_]. *)
Definition hw1 : mac_addr_t := Mac x00 xaa xbb x00 x00 x00.
Definition hw2 : mac_addr_t := Mac x00 xaa xbb x00 x00 x01.

(** ** Concrete pipelines, devices and packets

    Used to run the model: the examples, witnesses and counterexamples below
    are stated on them. *)

Definition p4info0 : pi_p4info_t :=
  P4Info (fun s => 100 + Z.of_nat (String.length s))
         (fun s => 200 + Z.of_nat (String.length s))
         (fun s => 300 + Z.of_nat (String.length s))
         (fun a s => 1000 * a + Z.of_nat (String.length s))
         (fun s => if String.eqb s "rx" then 7 else 0).

(** A second pipeline, with other ids for the same names. *)
Definition p4info1 : pi_p4info_t :=
  P4Info (fun s => 500 + Z.of_nat (String.length s))
         (fun s => 600 + Z.of_nat (String.length s))
         (fun s => 700 + Z.of_nat (String.length s))
         (fun a s => 1000 * a + 500 + Z.of_nat (String.length s))
         (fun s => if String.eqb s "rx" then 9 else 0).

Definition parse1 (config_buffer : list byte) : pi_p4info_t := p4info1.

(** Every call succeeds. *)
Definition dev_ok : Device :=
  MkDevice (fun _ _ => MkReply true Code_OK)
           (fun _ _ => MkReply true (MkTableWriteRep []))
           (fun _ _ => MkReply true [])
           (fun _ _ => MkReply true Code_OK)
           (fun _ _ => MkReply true Code_OK).

(** Every table write reports one error. *)
Definition dev_write_error : Device :=
  MkDevice (fun _ _ => MkReply true Code_OK)
           (fun _ _ => MkReply true (MkTableWriteRep [13]))
           (fun _ _ => MkReply true [])
           (fun _ _ => MkReply true Code_OK)
           (fun _ _ => MkReply true Code_OK).

(** [update_start] is refused (code 3, INVALID_ARGUMENT). *)
Definition dev_start_refused : Device :=
  MkDevice (fun _ _ => MkReply true Code_OK)
           (fun _ _ => MkReply true (MkTableWriteRep []))
           (fun _ _ => MkReply true [])
           (fun _ _ => MkReply true 3)
           (fun _ _ => MkReply true Code_OK).

(** Counter 7, index 0, really has seen [2^64 - 1] packets. *)
Definition dev_counter_max : Device :=
  MkDevice (fun _ _ => MkReply true Code_OK)
           (fun _ _ => MkReply true (MkTableWriteRep []))
           (fun _ _ =>
              MkReply true
                [MkCounterEntry 7 0 (MkCounterData (2 ^ 64 - 1) 640)])
           (fun _ _ => MkReply true Code_OK)
           (fun _ _ => MkReply true Code_OK).

(** [update_end] is refused (code 13, INTERNAL). *)
Definition dev_end_refused : Device :=
  MkDevice (fun _ _ => MkReply true Code_OK)
           (fun _ _ => MkReply true (MkTableWriteRep []))
           (fun _ _ => MkReply true [])
           (fun _ _ => MkReply true Code_OK)
           (fun _ _ => MkReply true 13).

(** A counter reply with entries of another counter and another index
    before two entries for counter 7, index 0. *)
Definition dev_counters : Device :=
  MkDevice (fun _ _ => MkReply true Code_OK)
           (fun _ _ => MkReply true (MkTableWriteRep []))
           (fun _ _ =>
              MkReply true
                [MkCounterEntry 8 0 (MkCounterData 1 64);
                 MkCounterEntry 7 1 (MkCounterData 2 128);
                 MkCounterEntry 7 0 (MkCounterData 5 640);
                 MkCounterEntry 7 0 (MkCounterData 9 900)])
           (fun _ _ => MkReply true Code_OK)
           (fun _ _ => MkReply true Code_OK).

Definition host_mac : mac_addr_t := Mac x00 xaa xbb x00 x00 x02.

(** A punted IPv4 packet: CPU header, Ethernet header, sixteen bytes of
    IPv4 header and the destination address, then a payload byte. *)
Definition ip_packet (dst_addr : Z) (payload : byte) : list byte :=
  set_cpu_header NO_ARP_ENTRY 1 ++ set_eth_header hw1 hw2 0x0800 ++
  repeat x00 16 ++ store_u32 dst_addr ++ [payload].

(** A punted ARP message. *)
Definition arp_packet (opcode : Z) (hw_src : mac_addr_t) (proto_src : Z)
    (hw_dst : mac_addr_t) (proto_dst : Z) : list byte :=
  set_cpu_header ARP_MSG 1 ++ set_eth_header hw_dst hw_src 0x0806 ++
  set_arp_header opcode hw_src proto_src hw_dst proto_dst.

Section Manager.

(** The device behind the stubs. *)
Variable dev : Device.

(** [pi_add_config (buffer, PI_CONFIG_TYPE_BMV2_JSON, &p4info_new)] of the PI
    library: the description parsed from a configuration buffer.  The source
    ignores its status. *)
Variable pi_add_config : list byte -> pi_p4info_t.

(** [PI_INVALID_ID] of the PI library. *)
Variable PI_INVALID_ID : pi_p4_id_t.

(** [ipv4_header_t] is declared in simple_router_mgr.h, which is not among
    the sources.  Section 4.1 has it as the part of the IPv4 header of which
    only [dst_addr] is consumed: [ipv4_noise] bytes that are not looked at,
    then [dst_addr]. *)
Variable ipv4_noise : nat.

Definition sizeof_ipv4_header_t : Z := Z.of_nat ipv4_noise + 4.

Definition load_ipv4_dst_addr (pkt : list byte) (off : nat) : Z :=
  load_u32 pkt (off + ipv4_noise).

(** *** Table writes *)

Definition add_one_entry (match_action_entry : TableEntry) : M Z :=
  w ← get_world;
  r ← call (TableWrite dev) EvTableWrite
         (MkTableWrite (dev_id w) INSERT match_action_entry);
  assert (status_ok r);;
  mret (Z.of_nat (length (tw_errors (rep r)))).

(** The entry [add_route_] builds: the LPM match is on [nhop], not on
    [prefix]. *)
Definition route_entry (p4info : pi_p4info_t) (pLen nhop port : Z)
  : TableEntry :=
  let t_id := pi_p4info_table_id_from_name p4info "ipv4_lpm" in
  let a_id := pi_p4info_action_id_from_name p4info "set_nhop" in
  MkTableEntry t_id
    [Lpm (pi_p4info_field_id_from_name p4info "ipv4.dstAddr")
         (uint32_to_string nhop) pLen]
    (MkAction a_id
       [Param (pi_p4info_action_param_id_from_name p4info a_id "nhop_ipv4")
              (uint32_to_string nhop);
        Param (pi_p4info_action_param_id_from_name p4info a_id "port")
              (uint16_to_string port)]).

Definition add_route_ (prefix pLen nhop port : Z) (update_mode : UpdateMode)
  : M Z :=
  rc ← match update_mode with
       | DEVICE_STATE =>
           w ← get_world;
           add_one_entry (route_entry (p4info w) pLen nhop port)
       | CONTROLLER_STATE => mret 0
       end;
  match update_mode with
  | CONTROLLER_STATE =>
      modify (fun w => set_next_hops (<[nhop := port]> (next_hops w)) w)
  | DEVICE_STATE => mret tt
  end;;
  mret rc.

Definition add_route (prefix pLen nhop port : Z) : M Z :=
  let rc := 0 in
  r1 ← add_route_ prefix pLen nhop port CONTROLLER_STATE;
  let rc := Z.lor rc r1 in
  r2 ← add_route_ prefix pLen nhop port DEVICE_STATE;
  let rc := Z.lor rc r2 in
  mret rc.

Definition arp_entry (p4info : pi_p4info_t) (addr : Z) (mac : mac_addr_t)
  : TableEntry :=
  let t_id := pi_p4info_table_id_from_name p4info "forward" in
  let a_id := pi_p4info_action_id_from_name p4info "set_dmac" in
  MkTableEntry t_id
    [Exact (pi_p4info_field_id_from_name p4info "routing_metadata.nhop_ipv4")
           (uint32_to_string addr)]
    (MkAction a_id
       [Param (pi_p4info_action_param_id_from_name p4info a_id "dmac")
              (mac_bytes mac)]).

Definition add_arp_entry (addr : Z) (mac : mac_addr_t) : M Z :=
  w ← get_world;
  add_one_entry (arp_entry (p4info w) addr mac).

Definition mac_entry (p4info : pi_p4info_t) (port : Z) (mac : mac_addr_t)
  : TableEntry :=
  let t_id := pi_p4info_table_id_from_name p4info "send_frame" in
  let a_id := pi_p4info_action_id_from_name p4info "rewrite_mac" in
  MkTableEntry t_id
    [Exact
       (pi_p4info_field_id_from_name p4info "standard_metadata.egress_port")
       (uint16_to_string port)]
    (MkAction a_id
       [Param (pi_p4info_action_param_id_from_name p4info a_id "smac")
              (mac_bytes mac)]).

Definition assign_mac_addr (port : Z) (mac : mac_addr_t) : M Z :=
  w ← get_world;
  add_one_entry (mac_entry (p4info w) port mac).

(** The entry of [set_default_entries]: table [forward], exact match on a
    zero next hop, action [_drop] without parameters. *)
Definition default_entry (p4info : pi_p4info_t) : TableEntry :=
  let t_id := pi_p4info_table_id_from_name p4info "forward" in
  let a_id := pi_p4info_action_id_from_name p4info "_drop" in
  MkTableEntry t_id
    [Exact (pi_p4info_field_id_from_name p4info "routing_metadata.nhop_ipv4")
           (uint32_to_string 0)]
    (MkAction a_id []).

Definition set_one_default_entry (t_id : pi_p4_id_t) (action : Action)
  : M Z :=
  add_one_entry (MkTableEntry t_id [] action).

(** [rc] is initialised to 0 and returned; the result of [add_one_entry]
    only decides whether a message is printed. *)
Definition set_default_entries : M Z :=
  let rc := 0 in
  w ← get_world;
  _ ← add_one_entry (default_entry (p4info w));
  mret rc.

Definition add_iface_ (port ip : Z) (mac : mac_addr_t)
    (update_mode : UpdateMode) : M unit :=
  match update_mode with
  | CONTROLLER_STATE =>
      modify (fun w => set_ifaces (ifaces w ++ [MkIface port ip mac]) w)
  | DEVICE_STATE =>
      w ← get_world;
      match find (fun iface => port_num iface =? port) (ifaces w) with
      | Some iface => _ ← assign_mac_addr port (mac_addr iface); mret tt
      | None => mret tt
      end
  end.

Definition add_iface (port ip : Z) (mac : mac_addr_t) : M unit :=
  add_iface_ port ip mac CONTROLLER_STATE;;
  add_iface_ port ip mac DEVICE_STATE.

Definition static_config_ (update_mode : UpdateMode) : M Z :=
  _ ← add_route_ 0x0a00000a 32 0x0a00000a 1 update_mode;
  _ ← add_route_ 0x0a00010a 32 0x0a00010a 2 update_mode;
  add_iface_ 1 0x0a000001 hw1 update_mode;;
  add_iface_ 2 0x0a000101 hw2 update_mode;;
  mret 0.

Definition static_config : M Z :=
  let rc := 0 in
  r1 ← static_config_ CONTROLLER_STATE;
  let rc := Z.lor rc r1 in
  r2 ← static_config_ DEVICE_STATE;
  let rc := Z.lor rc r2 in
  mret rc.

(** *** Packet out and the ARP engine *)

Definition send_packetout (data : list byte) : M unit :=
  modify (emit (EvPacketOut data)).

(** The 54-byte reply buffer: the three [set_*_header] calls write at offsets
    0, 12 and 26 and cover it. *)
Definition arp_reply_packet (iface : Iface) (arp_header : arp_header_t)
  : list byte :=
  set_cpu_header ARP_MSG (port_num iface) ++
  set_eth_header (hw_src_addr arp_header) (mac_addr iface) 0x0806 ++
  set_arp_header 2 (mac_addr iface) (ip_addr iface)
                 (hw_src_addr arp_header) (proto_src_addr arp_header).

Definition handle_arp_request (arp_header : arp_header_t) : M unit :=
  w ← get_world;
  match find (fun iface => ip_addr iface =? proto_dst_addr arp_header)
             (ifaces w) with
  | Some iface => send_packetout (arp_reply_packet iface arp_header)
  | None => mret tt
  end.

(** [next_hops[dst_addr]]: [operator[]] inserts a zero port for a missing
    key. *)
Definition next_hops_at (dst_addr : Z) : M Z :=
  w ← get_world;
  match next_hops w !! dst_addr with
  | Some port => mret port
  | None =>
      modify (fun w => set_next_hops (<[dst_addr := 0]> (next_hops w)) w);;
      mret 0
  end.

(** The body of the loop of [handle_arp_reply]: the CPU header and the
    Ethernet destination of the queued packet are overwritten in place, then
    the packet is sent. *)
Definition reinject (arp_header : arp_header_t) (dst_addr : Z) (p : Packet)
  : M unit :=
  port ← next_hops_at dst_addr;
  match store_at 0 (set_cpu_header DATA_PKT port) p with
  | None => crash OutOfBounds
  | Some p1 =>
      match store_at 12 (mac_bytes (hw_src_addr arp_header)) p1 with
      | None => crash OutOfBounds
      | Some p2 => send_packetout p2
      end
  end.

Definition handle_arp_reply (arp_header : arp_header_t) : M unit :=
  let dst_addr := proto_src_addr arp_header in
  _ ← add_arp_entry dst_addr (hw_src_addr arp_header);
  w ← get_world;
  match packet_queues w !! dst_addr with
  | Some q =>
      for_each (reinject arp_header dst_addr) q;;
      modify (fun w =>
        set_packet_queues (delete dst_addr (packet_queues w)) w)
  | None => mret tt
  end.

Definition handle_arp (arp_header : arp_header_t) : M unit :=
  if opcode arp_header =? 1 then handle_arp_request arp_header
  else if opcode arp_header =? 2 then handle_arp_reply arp_header
  else assert false.

Definition arp_request_packet (iface : Iface) (port dst_addr : Z)
  : list byte :=
  set_cpu_header ARP_MSG port ++
  set_eth_header broadcast_addr (mac_addr iface) 0x0806 ++
  set_arp_header 1 (mac_addr iface) (ip_addr iface) broadcast_addr dst_addr.

Definition send_arp_request (port dst_addr : Z) : M unit :=
  w ← get_world;
  match find (fun iface => port_num iface =? port) (ifaces w) with
  | Some iface => send_packetout (arp_request_packet iface port dst_addr)
  | None => mret tt
  end.

Definition handle_ip (pkt_copy : Packet) (dst_addr : Z) : M unit :=
  w ← get_world;
  match next_hops w !! dst_addr with
  | None => mret tt
  | Some port =>
      modify (fun w =>
        set_packet_queues
          (<[dst_addr := default [] (packet_queues w !! dst_addr)
                         ++ [pkt_copy]]> (packet_queues w)) w);;
      send_arp_request port dst_addr
  end.

(** [memcmp (zeros, pkt, sizeof (zeros))] is zero: the first eight bytes of
    the packet (it has at least twelve when this is asked) are zero. *)
Definition zeros_prefix (pkt : list byte) : bool :=
  forallb (Byte.eqb x00) (firstn 8 pkt).

(** [PacketHandler::operator()]. *)
Definition PacketHandler (pkt_copy : Packet) : M unit :=
  let pkt := pkt_copy in
  let size := Z.of_nat (length pkt_copy) in
  let offset := 0 in
  if size_sub size offset <? sizeof_cpu_header_t then mret tt else
  if negb (zeros_prefix pkt) then mret tt else
  let cpu_hdr := load_cpu_header pkt 0 in
  let offset := offset + sizeof_cpu_header_t in
  if size_sub size offset <? sizeof_eth_header_t then mret tt else
  let offset := offset + sizeof_eth_header_t in
  if reason cpu_hdr =? NO_ARP_ENTRY then
    if size_sub size offset <? sizeof_ipv4_header_t then mret tt else
    let dst_addr := load_ipv4_dst_addr pkt (Z.to_nat offset) in
    handle_ip pkt_copy dst_addr
  else if reason cpu_hdr =? ARP_MSG then
    if size_sub size offset <? sizeof_arp_header_t then mret tt else
    let arp_header := load_arp_header pkt (Z.to_nat offset) in
    handle_arp arp_header
  else mret tt.

(** *** Counters *)

(** [query_counter_]: the return code and [*counter_data] as it is left. *)
Definition query_counter_ (counter_name : string) (index : Z)
    (counter_data : CounterData) : M (Z * CounterData) :=
  w ← get_world;
  let counter_id := pi_p4info_counter_id_from_name (p4info w) counter_name in
  if counter_id =? PI_INVALID_ID then mret (1, counter_data) else
  r ← call (CounterRead dev) EvCounterRead
         (MkCounterRead (dev_id w) [counter_id]);
  assert (status_ok r);;
  match find (fun entry =>
                (ce_counter_id entry mod 2 ^ 32 =? counter_id)
                && (ce_index entry mod 2 ^ 64 =? index)) (rep r) with
  | Some entry => mret (0, ce_data entry)
  | None => mret (1, counter_data)
  end.

(** Modelled from the spec: [CounterData] comes from a generated header that
    is not among the sources; section 3 gives [packets] as u64, so
    [std::numeric_limits<decltype (d.packets ())>::max ()] is [2^64 - 1]. *)
Definition packets_max : Z := 2 ^ 64 - 1.

(** [CounterQueryHandler::operator()]: the value given to the promise. *)
Definition CounterQueryHandler (counter_name : string) (index : Z)
  : M CounterData :=
  let d := MkCounterData 0 0 in
  '(rc, d) ← query_counter_ counter_name index d;
  let d := if rc =? 0 then d else MkCounterData packets_max (bytes d) in
  mret d.

(** [query_counter]: the handler is posted to the actor and its promise
    awaited; the result is the return code and, when they are written,
    [*packets] and [*bytes]. *)
Definition query_counter (counter_name : string) (index : Z)
  : M (Z * option (Z * Z)) :=
  counter_data ← CounterQueryHandler counter_name index;
  if packets counter_data =? packets_max then mret (1, None)
  else mret (0, Some (packets counter_data, bytes counter_data)).

(** *** Assignment and pipeline reload *)

(** [PacketIOSyncClient::send_init]. *)
Definition send_init (device_id : Z) : M unit :=
  modify (emit (EvPacketInit device_id)).

(** [PacketIOSyncClient::recv_packet_in]: [recv_thread = std::thread(...)].
    The move assignment of [std::thread] calls [std::terminate] when the
    thread assigned to is joinable, that is when it was started before
    (nothing in the file joins or detaches it). *)
Definition recv_packet_in : M unit :=
  w ← get_world;
  if recv_thread w then crash Terminated
  else modify (set_recv_thread true).

Definition assign : M Z :=
  w ← get_world;
  if assigned w then mret 0 else
  r ← call (DeviceAssign dev) EvDeviceAssign
         (MkDeviceAssign (dev_id w) (p4info w)
            [("port", "9090");
             ("notifications", "ipc:///tmp/bmv2-0-notifications.ipc");
             ("cpu_iface", "veth251")]%string);
  assert (status_ok r);;
  send_init (dev_id w);;
  recv_packet_in;;
  mret (rep r).

Definition update_config_ (config_buffer : list byte) : M Z :=
  let p4info_new := pi_add_config config_buffer in
  modify (set_p4info p4info_new);;
  w ← get_world;
  r ← call (DeviceUpdateStart dev) EvUpdateStart
         (MkUpdateStart (dev_id w) (p4info w) config_buffer);
  assert (status_ok r);;
  if negb (rep r =? Code_OK) then mret 1 else
  _ ← set_default_entries;
  _ ← static_config_ DEVICE_STATE;
  r ← call (DeviceUpdateEnd dev) EvUpdateEnd (dev_id w);
  assert (status_ok r);;
  if negb (rep r =? Code_OK) then mret 1 else
  mret 0.

(** [update_config]: [ConfigUpdateHandler] is posted to the actor and its
    promise awaited. *)
Definition update_config (config_buffer : list byte) : M Z :=
  update_config_ config_buffer.

(** *** Runs of the manager *)

(** What the actor can be asked to do: a punted packet from the receive
    loop, or a call of the public interface. *)
Inductive Op :=
| OpPacket (pkt : Packet)
| OpAssign
| OpAddRoute (prefix pLen nhop port : Z)
| OpAddIface (port ip : Z) (mac : mac_addr_t)
| OpSetDefaultEntries
| OpStaticConfig
| OpQueryCounter (counter_name : string) (index : Z)
| OpUpdateConfig (config_buffer : list byte).

Definition ignore {A : Type} (m : M A) : M unit := _ ← m; mret tt.

Definition run_op (op : Op) : M unit :=
  match op with
  | OpPacket pkt => PacketHandler pkt
  | OpAssign => ignore assign
  | OpAddRoute prefix pLen nhop port => ignore (add_route prefix pLen nhop port)
  | OpAddIface port ip mac => add_iface port ip mac
  | OpSetDefaultEntries => ignore set_default_entries
  | OpStaticConfig => ignore static_config
  | OpQueryCounter name index => ignore (query_counter name index)
  | OpUpdateConfig buf => ignore (update_config buf)
  end.

(** Values of the C++ types [uint16_t], [uint32_t], [int] and [size_t]. *)
Definition uint16 (x : Z) : Prop := 0 <= x < 2 ^ 16.
Definition uint32 (x : Z) : Prop := 0 <= x < 2 ^ 32.

Definition is_uint16 (x : Z) : bool := (0 <=? x) && (x <? 2 ^ 16).
Definition is_uint32 (x : Z) : bool := (0 <=? x) && (x <? 2 ^ 32).
Definition is_int (x : Z) : bool := (- 2 ^ 31 <=? x) && (x <? 2 ^ 31).
Definition is_size_t (x : Z) : bool := (0 <=? x) && (x <? 2 ^ 64).

(** The arguments of an operation are values of their C++ types; the size
    of a packet is a [size_t]. *)
Definition well_typed (op : Op) : bool :=
  match op with
  | OpPacket pkt => is_size_t (Z.of_nat (length pkt))
  | OpAddRoute prefix pLen nhop port =>
      is_uint32 prefix && is_int pLen && is_uint32 nhop && is_uint16 port
  | OpAddIface port ip mac => is_uint16 port && is_uint32 ip
  | OpQueryCounter name index => is_size_t index
  | OpUpdateConfig buf => is_size_t (Z.of_nat (length buf))
  | OpAssign | OpSetDefaultEntries | OpStaticConfig => true
  end.

(** The worlds a manager can be in: the one the constructor builds, and any
    world in which an operation returned from a reachable one. *)
Inductive reachable : World -> Prop :=
| reachable_init d p : reachable (SimpleRouterMgr d p)
| reachable_step w op w' :
    reachable w -> well_typed op = true -> run_op op w = Ret tt w' ->
    reachable w'.

(** Running a list of operations, stopping at the first crash. *)
Fixpoint run_ops (ops : list Op) (w : World) : option World :=
  match ops with
  | [] => Some w
  | op :: ops' =>
      if well_typed op then
        match run_op op w with
        | Ret _ w' => run_ops ops' w'
        | Crash _ _ => None
        end
      else None
  end.

(** ** Predicates of the statements *)

(** No RPC fails at the transport level. *)
Definition reliable : Prop :=
  (forall h q, status_ok (DeviceAssign dev h q) = true) /\
  (forall h q, status_ok (TableWrite dev h q) = true) /\
  (forall h q, status_ok (CounterRead dev h q) = true) /\
  (forall h q, status_ok (DeviceUpdateStart dev h q) = true) /\
  (forall h q, status_ok (DeviceUpdateEnd dev h q) = true).

(** The table entries written, and the packets sent, in a piece of log. *)
Fixpoint table_writes (evs : list Event) : list TableEntry :=
  match evs with
  | [] => []
  | EvTableWrite req _ :: evs' => tw_entry req :: table_writes evs'
  | _ :: evs' => table_writes evs'
  end.

Fixpoint packets_out (evs : list Event) : list (list byte) :=
  match evs with
  | [] => []
  | EvPacketOut p :: evs' => p :: packets_out evs'
  | _ :: evs' => packets_out evs'
  end.

(** The world after the events [evs] were logged. *)
Definition emit_all (evs : list Event) (w : World) : World :=
  MkWorld (dev_id w) (p4info w) (assigned w) (recv_thread w) (ifaces w)
          (next_hops w) (packet_queues w) (log w ++ evs).

(** A queued packet as it leaves again: a fresh CPU header with reason
    DATA_PKT and the egress port, the resolved MAC in the place of the
    Ethernet destination (bytes 12 to 17), the rest as it was queued. *)
Definition reinjected (port : Z) (mac : mac_addr_t) (p : Packet) : Packet :=
  set_cpu_header DATA_PKT port ++ mac_bytes mac ++ skipn 18 p.

(** The log entries of writing the entries [es] one after the other,
    starting with the log [h]: each reply is the one the device gives then. *)
Fixpoint write_events (h : list Event) (d : Z) (es : list TableEntry)
  : list Event :=
  match es with
  | [] => []
  | e :: es' =>
      let req := MkTableWrite d INSERT e in
      let ev := EvTableWrite req (TableWrite dev h req) in
      ev :: write_events (h ++ [ev]) d es'
  end.

(** The world after the entries [es] were written from [w]. *)
Definition after_writes (es : list TableEntry) (w : World) : World :=
  emit_all (write_events (log w) (dev_id w) es) w.

(** The MAC entry [add_iface_ (port, ..., DEVICE_STATE)] writes: the one of
    the first interface with that port, if any. *)
Definition port_mac_entry (p : pi_p4info_t) (ifs : list Iface) (port : Z)
  : list TableEntry :=
  match find (fun iface => port_num iface =? port) ifs with
  | Some iface => [mac_entry p port (mac_addr iface)]
  | None => []
  end.

(** What a reload writes again: the default entry and the static
    configuration (the two built-in routes, the MAC of ports 1 and 2). *)
Definition repushed_entries (p : pi_p4info_t) (ifs : list Iface)
  : list TableEntry :=
  [default_entry p;
   route_entry p 32 0x0a00000a 1;
   route_entry p 32 0x0a00010a 2]
  ++ port_mac_entry p ifs 1 ++ port_mac_entry p ifs 2.

(** The stages of a reload of [config_buffer] from the world [w]: what is
    sent to start it and what the device answers, the world after that, the
    world after the entries were written again, the answer to
    [update_end] and the world at the end. *)
Definition start_request (config_buffer : list byte) (w : World)
  : DeviceUpdateStartRequest :=
  MkUpdateStart (dev_id w) (pi_add_config config_buffer) config_buffer.

Definition start_reply (config_buffer : list byte) (w : World) : Reply Z :=
  DeviceUpdateStart dev (log w) (start_request config_buffer w).

Definition world_started (config_buffer : list byte) (w : World) : World :=
  emit (EvUpdateStart (start_request config_buffer w)
                      (start_reply config_buffer w))
       (set_p4info (pi_add_config config_buffer) w).

Definition world_repushed (config_buffer : list byte) (w : World) : World :=
  after_writes (repushed_entries (pi_add_config config_buffer) (ifaces w))
               (world_started config_buffer w).

Definition end_reply (config_buffer : list byte) (w : World) : Reply Z :=
  DeviceUpdateEnd dev (log (world_repushed config_buffer w)) (dev_id w).

Definition world_reloaded (config_buffer : list byte) (w : World) : World :=
  emit (EvUpdateEnd (dev_id w) (end_reply config_buffer w))
       (world_repushed config_buffer w).

(** Every pending queue belongs to a known next hop and is not empty. *)
Definition queues_inv (w : World) : Prop :=
  forall dst q, packet_queues w !! dst = Some q ->
    is_Some (next_hops w !! dst) /\ q <> [].

(** Every queued packet has at least a CPU header and an Ethernet header. *)
Definition queued_packets_ok (w : World) : Prop :=
  forall dst q p, packet_queues w !! dst = Some q -> In p q ->
    (26 <= length p)%nat.

(** The port and the address of an interface are values of their types. *)
Definition iface_ok (iface : Iface) : Prop :=
  uint16 (port_num iface) /\ uint32 (ip_addr iface).

(** [w'] has the queues of [w], at least its next hops, and well-typed
    interfaces if [w] has. *)
Definition grows (w w' : World) : Prop :=
  packet_queues w' = packet_queues w /\
  (forall k, is_Some (next_hops w !! k) -> is_Some (next_hops w' !! k)) /\
  (Forall iface_ok (ifaces w) -> Forall iface_ok (ifaces w')).

(** A computation that leaves the pending queues alone, forgets no next
    hop and adds only well-typed interfaces, also when it crashes. *)
Definition quiet {A : Type} (m : M A) : Prop :=
  forall w, grows w (world_of (m w)).

Definition Inv (w : World) : Prop :=
  queues_inv w /\ queued_packets_ok w /\ Forall iface_ok (ifaces w).

Definition stable {A : Type} (m : M A) : Prop :=
  forall w, Inv w -> Inv (world_of (m w)).

(** A packet the handler drops on sight: too short for the headers its
    reason code calls for, reserved bytes that are not zero, or a reason code
    that is neither NO_ARP_ENTRY nor ARP_MSG. *)
Definition malformed (pkt : list byte) : bool :=
  (length pkt <? 12)%nat || negb (zeros_prefix pkt) || (length pkt <? 26)%nat
  || (if load_u16 pkt 8 =? NO_ARP_ENTRY
      then (length pkt <? 26 + ipv4_noise + 4)%nat
      else if load_u16 pkt 8 =? ARP_MSG then (length pkt <? 54)%nat
      else true).

(** A computation whose every outcome, crash included, is related by [R]
    to the world it started in. *)
Definition keeps (R : World -> World -> Prop) {A : Type} (m : M A) : Prop :=
  forall w, R w (world_of (m w)).

(** Nothing is taken back: the device id and the [assigned] flag are the
    same, interfaces are only appended, no next hop is forgotten, the log is
    only appended to. *)
Definition extends (w w' : World) : Prop :=
  dev_id w' = dev_id w /\
  assigned w' = assigned w /\
  (exists l, ifaces w' = ifaces w ++ l) /\
  (forall k, is_Some (next_hops w !! k) -> is_Some (next_hops w' !! k)) /\
  (exists evs, log w' = log w ++ evs).

(** The pending queues are the same and no packet was sent. *)
Definition no_packet (w w' : World) : Prop :=
  packet_queues w' = packet_queues w /\
  exists evs, log w' = log w ++ evs /\ packets_out evs = [].

(** The configuration is the same: device id, pipeline description,
    interfaces and next hops. *)
Definition same_config (w w' : World) : Prop :=
  dev_id w' = dev_id w /\ p4info w' = p4info w /\
  ifaces w' = ifaces w /\ next_hops w' = next_hops w.

(** A queued packet is a punted packet with reason NO_ARP_ENTRY whose IPv4
    destination is the key of its queue. *)
Definition queued_for (dst : Z) (p : Packet) : Prop :=
  malformed p = false /\ load_u16 p 8 = NO_ARP_ENTRY /\
  load_ipv4_dst_addr p 26 = dst.

(** * Properties *)

(** ** The codec *)

Lemma Z_of_byte_range b : 0 <= Z_of_byte b < 256.
Proof.
  unfold Z_of_byte. pose proof (Byte.to_N_bounded b). lia.
Qed.

Lemma Z_of_byte_of_Z z : Z_of_byte (byte_of_Z z) = z mod 256.
Proof.
  unfold Z_of_byte, byte_of_Z.
  assert (H : 0 <= z mod 256 < 256) by (apply Z.mod_pos_bound; lia).
  destruct (Byte.of_N (Z.to_N (z mod 256))) as [b|] eqn:E.
  - apply Byte.to_of_N in E. cbn. rewrite E. lia.
  - apply Byte.of_N_None_iff in E. lia.
Qed.

Lemma byte_of_Z_of_byte b : byte_of_Z (Z_of_byte b) = b.
Proof.
  unfold byte_of_Z. pose proof (Z_of_byte_range b).
  rewrite Z.mod_small by lia. unfold Z_of_byte. rewrite N2Z.id, Byte.of_to_N. reflexivity.
Qed.

Lemma low_bits x k n : 0 <= n < k -> Z.testbit (x mod 2 ^ k) n = Z.testbit x n.
Proof. intros. apply Z.mod_pow2_bits_low. lia. Qed.

Lemma high_bits x k n : 0 <= k <= n -> Z.testbit (x mod 2 ^ k) n = false.
Proof. intros. apply Z.mod_pow2_bits_high. lia. Qed.

Lemma shifted_byte_bits x s k n : 0 <= s -> 0 <= k -> 0 <= n ->
  Z.testbit (Z.shiftl (Z.shiftr x s mod 2 ^ 8) k) n =
  if (k <=? n) && (n <? k + 8) then Z.testbit x (n - k + s) else false.
Proof.
  intros Hs Hk Hn.
  destruct (Z.leb_spec k n); cbn [andb].
  - rewrite Z.shiftl_spec by lia. destruct (Z.ltb_spec n (k + 8)).
    + rewrite low_bits, Z.shiftr_spec by lia. reflexivity.
    + apply high_bits. lia.
  - apply Z.shiftl_spec_low. lia.
Qed.

Lemma u16_join x : 0 <= x < 2 ^ 16 ->
  Z.lor (Z.shiftl (Z.shiftr x 8 mod 256) 8) (x mod 256) = x.
Proof.
  intros Hx. rewrite <- (Z.mod_small x (2 ^ 16)) at 3 by lia.
  change 256 with (2 ^ 8). apply Z.bits_inj'. intros n Hn.
  rewrite Z.lor_spec, shifted_byte_bits by lia.
  destruct (Z.ltb_spec n 8); [|destruct (Z.ltb_spec n 16)].
  - rewrite (low_bits x 8), (low_bits x 16) by lia. replace (8 <=? n) with false by lia. reflexivity.
  - rewrite (low_bits x 16), (high_bits x 8) by lia.
    replace (8 <=? n) with true by lia. replace (n <? 8 + 8) with true by lia.
    cbn. rewrite orb_false_r. f_equal. lia.
  - rewrite (high_bits x 8), (high_bits x 16) by lia.
    replace (n <? 8 + 8) with false by lia. rewrite andb_false_r. reflexivity.
Qed.

Lemma u32_join x : 0 <= x < 2 ^ 32 ->
  Z.lor (Z.shiftl (Z.shiftr x 24 mod 256) 24)
    (Z.lor (Z.shiftl (Z.shiftr x 16 mod 256) 16)
      (Z.lor (Z.shiftl (Z.shiftr x 8 mod 256) 8) (x mod 256))) = x.
Proof.
  intros Hx. rewrite <- (Z.mod_small x (2 ^ 32)) at 5 by lia.
  change 256 with (2 ^ 8). apply Z.bits_inj'. intros n Hn.
  rewrite !Z.lor_spec, !shifted_byte_bits by lia.
  destruct (Z.ltb_spec n 8); [|destruct (Z.ltb_spec n 16);
    [|destruct (Z.ltb_spec n 24); [|destruct (Z.ltb_spec n 32)]]].
  - rewrite (low_bits x 8), (low_bits x 32) by lia.
    replace (24 <=? n) with false by lia. replace (16 <=? n) with false by lia.
    replace (8 <=? n) with false by lia. reflexivity.
  - rewrite (low_bits x 32), (high_bits x 8) by lia.
    replace (24 <=? n) with false by lia. replace (16 <=? n) with false by lia.
    replace (8 <=? n) with true by lia. replace (n <? 8 + 8) with true by lia.
    cbn. rewrite orb_false_r. f_equal. lia.
  - rewrite (low_bits x 32), (high_bits x 8) by lia.
    replace (24 <=? n) with false by lia. replace (16 <=? n) with true by lia.
    replace (n <? 16 + 8) with true by lia. replace (n <? 8 + 8) with false by lia.
    rewrite andb_false_r. cbn. rewrite !orb_false_r. f_equal. lia.
  - rewrite (low_bits x 32), (high_bits x 8) by lia.
    replace (24 <=? n) with true by lia. replace (n <? 24 + 8) with true by lia.
    replace (n <? 16 + 8) with false by lia. replace (n <? 8 + 8) with false by lia.
    rewrite !andb_false_r. cbn. rewrite !orb_false_r. f_equal. lia.
  - rewrite (high_bits x 8), (high_bits x 32) by lia.
    replace (n <? 24 + 8) with false by lia.
    replace (n <? 16 + 8) with false by lia. replace (n <? 8 + 8) with false by lia.
    rewrite !andb_false_r. reflexivity.
Qed.

Lemma byte_at_app (pre l : list byte) (k : nat) :
  byte_at (pre ++ l) (length pre + k) = byte_at l k.
Proof. apply app_nth2_plus. Qed.

Lemma byte_at_app_0 (pre l : list byte) :
  byte_at (pre ++ l) (length pre) = byte_at l 0.
Proof. rewrite <- (Nat.add_0_r (length pre)). apply byte_at_app. Qed.

Lemma load_store_u16 (x : Z) (pre post : list byte) :
  uint16 x -> load_u16 (pre ++ store_u16 x ++ post) (length pre) = x.
Proof.
  intros Hx. unfold load_u16. rewrite byte_at_app, byte_at_app_0.
  cbn. rewrite !Z_of_byte_of_Z. apply u16_join, Hx.
Qed.

Lemma load_store_u32 (x : Z) (pre post : list byte) :
  uint32 x -> load_u32 (pre ++ store_u32 x ++ post) (length pre) = x.
Proof.
  intros Hx. unfold load_u32. rewrite !byte_at_app, byte_at_app_0.
  cbn. rewrite !Z_of_byte_of_Z. apply u32_join, Hx.
Qed.

Lemma load_store_mac (m : mac_addr_t) (pre post : list byte) :
  load_mac (pre ++ mac_bytes m ++ post) (length pre) = m.
Proof.
  unfold load_mac. rewrite !byte_at_app, byte_at_app_0.
  destruct m; reflexivity.
Qed.

Lemma lor_bound (n a b : Z) :
  0 <= n -> 0 <= a < 2 ^ n -> 0 <= b < 2 ^ n -> 0 <= Z.lor a b < 2 ^ n.
Proof.
  intros Hn Ha Hb.
  assert (H0 : 0 <= Z.lor a b) by (apply Z.lor_nonneg; lia).
  split; [exact H0|].
  destruct (Z.eq_dec a 0) as [->|Ha0]; [rewrite Z.lor_0_l; lia|].
  destruct (Z.eq_dec b 0) as [->|Hb0]; [rewrite Z.lor_0_r; lia|].
  apply Z.log2_lt_pow2.
  - assert (Z.lor a b <> 0) by (intros E; apply Z.lor_eq_0_iff in E; lia).
    lia.
  - rewrite Z.log2_lor by lia.
    apply Z.max_lub_lt; apply Z.log2_lt_pow2; lia.
Qed.

Lemma shifted_byte_bound (b : byte) (k n : Z) :
  0 <= k -> k + 8 <= n -> 0 <= Z.shiftl (Z_of_byte b) k < 2 ^ n.
Proof.
  intros Hk Hn. pose proof (Z_of_byte_range b) as Hb.
  rewrite Z.shiftl_mul_pow2 by lia.
  assert (H2 : 0 < 2 ^ k) by (apply Z.pow_pos_nonneg; lia).
  split; [nia|].
  apply Z.lt_le_trans with (2 ^ (k + 8)).
  - rewrite Z.pow_add_r by lia. change (2 ^ 8) with 256. nia.
  - apply Z.pow_le_mono_r; lia.
Qed.

Lemma byte_bound (b : byte) (n : Z) : 8 <= n -> 0 <= Z_of_byte b < 2 ^ n.
Proof.
  intros Hn. pose proof (Z_of_byte_range b) as Hb. split; [lia|].
  apply Z.lt_le_trans with (2 ^ 8); [change (2 ^ 8) with 256; lia|].
  apply Z.pow_le_mono_r; lia.
Qed.

Lemma load_u16_range (buf : list byte) (off : nat) : uint16 (load_u16 buf off).
Proof.
  unfold uint16, load_u16.
  apply lor_bound; [lia | apply shifted_byte_bound; lia | apply byte_bound; lia].
Qed.

Lemma load_u32_range (buf : list byte) (off : nat) : uint32 (load_u32 buf off).
Proof.
  unfold uint32, load_u32.
  repeat (apply lor_bound; [lia | apply shifted_byte_bound; lia |]).
  apply byte_bound. lia.
Qed.

(** ** How the primitives run *)

(** Unfolding the monad: what is left is a tree of matches on the replies. *)
Ltac run :=
  cbv [mbind M_bind mret M_ret get_world modify crash assert ignore call
       send_init recv_packet_in].

Ltac proj :=
  cbn [dev_id p4info assigned recv_thread ifaces next_hops packet_queues log
       set_p4info set_ifaces set_next_hops set_packet_queues set_recv_thread
       emit world_of].

Lemma bind_run {A B : Type} (m : M A) (k : A -> M B) (w : World) :
  (m ≫= k) w =
  match m w with Ret a w' => k a w' | Crash f w' => Crash f w' end.
Proof. reflexivity. Qed.

Lemma ignore_run {A : Type} (m : M A) (w : World) :
  ignore m w =
  match m w with Ret _ w' => Ret tt w' | Crash f w' => Crash f w' end.
Proof. reflexivity. Qed.

Lemma add_one_entry_run (e : TableEntry) (w : World) :
  let req := MkTableWrite (dev_id w) INSERT e in
  let r := TableWrite dev (log w) req in
  add_one_entry e w =
  if status_ok r
  then Ret (Z.of_nat (length (tw_errors (rep r)))) (emit (EvTableWrite req r) w)
  else Crash AssertFailed (emit (EvTableWrite req r) w).
Proof.
  unfold add_one_entry. run. destruct (status_ok _); reflexivity.
Qed.

(** ** add_route *)

(** C5: whatever the device answers to the table write (any error count, or
    even a failed call), after [add_route prefix pLen nhop port] the
    next-hop table maps [nhop] to [port] and the route entry has been sent
    to the device; when the call went through, [add_route] returns the
    number of errors the device reported. *)
Theorem add_route_updates_both (prefix pLen nhop port : Z) (w : World) :
  let req := MkTableWrite (dev_id w) INSERT
               (route_entry (p4info w) pLen nhop port) in
  let r := TableWrite dev (log w) req in
  let o := add_route prefix pLen nhop port w in
  next_hops (world_of o) !! nhop = Some port /\
  log (world_of o) = log w ++ [EvTableWrite req r] /\
  (status_ok r = true <->
   o = Ret (Z.of_nat (length (tw_errors (rep r))))
           (emit (EvTableWrite req r)
              (set_next_hops (<[nhop := port]> (next_hops w)) w))).
Proof.
  intros req r o. subst o.
  unfold add_route, add_route_. run. rewrite add_one_entry_run. proj.
  fold req r. destruct (status_ok r); proj; rewrite lookup_insert_eq.
  - repeat split; reflexivity.
  - repeat split; try reflexivity; discriminate.
Qed.

(** ** handle_arp_request *)

Lemma find_some_first {A : Type} (f : A -> bool) (l : list A) :
  (exists x, In x l /\ f x = true) ->
  exists y, find f l = Some y.
Proof.
  intros (x & Hin & Hf). destruct (find f l) as [y|] eqn:E; [eauto|].
  rewrite (find_none _ _ E x Hin) in Hf. discriminate.
Qed.

Ltac load_fields :=
  unfold load_cpu_header, load_eth_header, load_arp_header, load_mac,
    load_u16, load_u32, byte_at;
  cbn [nth Nat.add app]; rewrite ?Z_of_byte_of_Z.

(** What [handle_arp] does with a request, for values of the C++ types. *)
Lemma handle_arp_request_reply (arp_header : arp_header_t) (w : World)
    (Hop : opcode arp_header = 1)
    (Hsrc : uint32 (proto_src_addr arp_header))
    (Hifs : Forall iface_ok (ifaces w)) :
  ((exists iface, In iface (ifaces w) /\
                  ip_addr iface = proto_dst_addr arp_header) ->
   exists iface reply,
     In iface (ifaces w) /\ ip_addr iface = proto_dst_addr arp_header /\
     handle_arp arp_header w = Ret tt (emit (EvPacketOut reply) w) /\
     length reply = 54%nat /\
     load_cpu_header reply 0 = CpuHeader ARP_MSG (port_num iface) /\
     load_eth_header reply 12 =
       EthHeader (hw_src_addr arp_header) (mac_addr iface) 0x0806 /\
     load_arp_header reply 26 =
       ArpHeader 1 0x800 6 4 2 (mac_addr iface) (ip_addr iface)
                 (hw_src_addr arp_header) (proto_src_addr arp_header)) /\
  ((forall iface, In iface (ifaces w) ->
                  ip_addr iface <> proto_dst_addr arp_header) ->
   handle_arp arp_header w = Ret tt w).
Proof.
  unfold handle_arp. rewrite Hop. cbn [Z.eqb Pos.eqb].
  unfold handle_arp_request. run. split.
  - intros (i0 & Hin0 & Hip0).
    destruct (find_some_first
                (fun iface => ip_addr iface =? proto_dst_addr arp_header)
                (ifaces w)) as [iface Hfind].
    { exists i0. split; [exact Hin0 | now apply Z.eqb_eq]. }
    rewrite Hfind. apply find_some in Hfind. destruct Hfind as [Hin Hip].
    apply Z.eqb_eq in Hip.
    exists iface, (arp_reply_packet iface arp_header).
    rewrite List.Forall_forall in Hifs. destruct (Hifs _ Hin) as [Hport Haddr].
    repeat split; try assumption.
    + unfold arp_reply_packet, set_cpu_header, set_eth_header,
        set_arp_header, store_u16, store_u32, mac_bytes, zeros8.
      load_fields. f_equal. apply u16_join, Hport.
    + unfold arp_reply_packet, set_cpu_header, set_eth_header,
        set_arp_header, store_u16, store_u32, mac_bytes, zeros8.
      load_fields. destruct (hw_src_addr arp_header), (mac_addr iface).
      reflexivity.
    + unfold arp_reply_packet, set_cpu_header, set_eth_header,
        set_arp_header, store_u16, store_u32, mac_bytes, zeros8.
      load_fields. rewrite !u32_join by assumption.
      destruct (hw_src_addr arp_header), (mac_addr iface). reflexivity.
  - intros Hnone.
    destruct (find _ (ifaces w)) as [iface|] eqn:Hfind; [|reflexivity].
    apply find_some in Hfind. destruct Hfind as [Hin Hip].
    apply Z.eqb_eq in Hip. destruct (Hnone _ Hin Hip).
Qed.

(** ** query_counter *)

Lemma query_counter_of_handler (counter_name : string) (index : Z)
    (w w' : World) (d : CounterData) :
  CounterQueryHandler counter_name index w = Ret d w' ->
  query_counter counter_name index w =
  if packets d =? packets_max then Ret (1, None) w'
  else Ret (0, Some (packets d, bytes d)) w'.
Proof.
  intros H. unfold query_counter. rewrite bind_run, H.
  destruct (packets d =? packets_max); reflexivity.
Qed.

(** C10: [query_counter] answers 1, and writes neither [*packets] nor
    [*bytes], whenever the counter data the actor hands back has
    [packets = 2^64 - 1].  In particular a read that succeeds on the device
    (known counter, call went through, matching entry) with a genuine packet
    count of [2^64 - 1] is answered exactly like an unknown counter name. *)
Theorem query_counter_sentinel (counter_name : string) (index : Z)
    (w : World) (entry : CounterEntry) :
  let counter_id := pi_p4info_counter_id_from_name (p4info w) counter_name in
  let req := MkCounterRead (dev_id w) [counter_id] in
  let r := CounterRead dev (log w) req in
  counter_id <> PI_INVALID_ID ->
  status_ok r = true ->
  find (fun e => (ce_counter_id e mod 2 ^ 32 =? counter_id)
                 && (ce_index e mod 2 ^ 64 =? index)) (rep r) = Some entry ->
  packets (ce_data entry) = 2 ^ 64 - 1 ->
  query_counter_ counter_name index (MkCounterData 0 0) w =
    Ret (0, ce_data entry) (emit (EvCounterRead req r) w) /\
  query_counter counter_name index w =
    Ret (1, None) (emit (EvCounterRead req r) w) /\
  (forall w0, pi_p4info_counter_id_from_name (p4info w0) counter_name
              = PI_INVALID_ID ->
     query_counter counter_name index w0 = Ret (1, None) w0) /\
  (forall w0 d w', CounterQueryHandler counter_name index w0 = Ret d w' ->
     packets d = 2 ^ 64 - 1 ->
     query_counter counter_name index w0 = Ret (1, None) w').
Proof.
  intros counter_id req r Hid Hok Hfind Hmax.
  assert (Hq : query_counter_ counter_name index (MkCounterData 0 0) w =
               Ret (0, ce_data entry) (emit (EvCounterRead req r) w)).
  { unfold query_counter_. run. fold counter_id.
    apply Z.eqb_neq in Hid. rewrite Hid. fold req r. rewrite Hok, Hfind.
    reflexivity. }
  split; [exact Hq|]. split; [|split].
  - rewrite (query_counter_of_handler counter_name index w
               (emit (EvCounterRead req r) w) (ce_data entry)).
    + rewrite Hmax. reflexivity.
    + unfold CounterQueryHandler. rewrite bind_run, Hq.
      destruct (ce_data entry); reflexivity.
  - intros w0 H0. unfold query_counter, CounterQueryHandler, query_counter_.
    run. rewrite H0, Z.eqb_refl. reflexivity.
  - intros w0 d w' Hh Hd.
    rewrite (query_counter_of_handler _ _ _ _ _ Hh), Hd. reflexivity.
Qed.

(** ** Computations that do not touch the pending queues *)

Lemma grows_refl (w : World) : grows w w.
Proof. repeat split; auto. Qed.

Lemma grows_same (w w' : World) :
  packet_queues w' = packet_queues w -> next_hops w' = next_hops w ->
  ifaces w' = ifaces w -> grows w w'.
Proof.
  intros Hq Hn Hi. split; [exact Hq|]. split; [now rewrite Hn|].
  now rewrite Hi.
Qed.

Lemma grows_trans (w1 w2 w3 : World) :
  grows w1 w2 -> grows w2 w3 -> grows w1 w3.
Proof.
  intros (H1 & H2 & H3) (H4 & H5 & H6). split; [congruence|]. split; auto.
Qed.

Lemma grows_Inv (w w' : World) : grows w w' -> Inv w -> Inv w'.
Proof.
  intros (Hq & Hn & Hf) (Hi & Hp & Hifs). split; [|split].
  - intros dst q H. rewrite Hq in H. destruct (Hi _ _ H). auto.
  - intros dst q p0 H. rewrite Hq in H. eauto.
  - auto.
Qed.

Lemma world_of_bind {A B : Type} (m : M A) (k : A -> M B) (w : World) :
  world_of ((m ≫= k) w) = world_of (m w) \/
  exists a w', m w = Ret a w' /\ world_of ((m ≫= k) w) = world_of (k a w').
Proof. rewrite bind_run. destruct (m w); eauto. Qed.

Lemma quiet_ret {A : Type} (a : A) : quiet (mret a).
Proof. intros w. apply grows_refl. Qed.

Lemma quiet_bind {A B : Type} (m : M A) (k : A -> M B) :
  quiet m -> (forall a, quiet (k a)) -> quiet (m ≫= k).
Proof.
  intros Hm Hk w. destruct (world_of_bind m k w) as [E | (a & w' & Hr & E)];
    rewrite E; [apply Hm|].
  eapply grows_trans; [|apply Hk]. specialize (Hm w). now rewrite Hr in Hm.
Qed.

Lemma quiet_get : quiet get_world.
Proof. intros w. apply grows_refl. Qed.

Lemma quiet_crash {A : Type} (f : Fault) : quiet (@crash A f).
Proof. intros w. apply grows_refl. Qed.

Lemma quiet_assert (b : bool) : quiet (assert b).
Proof. destruct b; [apply quiet_ret | apply quiet_crash]. Qed.

Lemma quiet_emit (e : Event) : quiet (modify (emit e)).
Proof. intros w. now apply grows_same. Qed.

Lemma quiet_call {Req Rep : Type} (stub : list Event -> Req -> Reply Rep)
    (ev : Req -> Reply Rep -> Event) (req : Req) : quiet (call stub ev req).
Proof. intros w. now apply grows_same. Qed.

Lemma quiet_set_p4info (p : pi_p4info_t) : quiet (modify (set_p4info p)).
Proof. intros w. now apply grows_same. Qed.

Lemma quiet_add_iface (i : Iface) :
  iface_ok i -> quiet (modify (fun w => set_ifaces (ifaces w ++ [i]) w)).
Proof.
  intros Hi w. split; [reflexivity|]. split; [auto|]. cbn. intros H.
  apply List.Forall_app. split; [exact H | now constructor].
Qed.

Lemma quiet_set_next_hop (k v : Z) :
  quiet (modify (fun w => set_next_hops (<[k := v]> (next_hops w)) w)).
Proof.
  intros w. split; [reflexivity|]. split; [|auto]. intros k' H. cbn.
  destruct (decide (k = k')) as [->|Hne].
  - rewrite lookup_insert_eq. eauto.
  - now rewrite lookup_insert_ne.
Qed.

Create HintDb quiet.
#[local] Hint Resolve quiet_ret quiet_get quiet_crash quiet_assert quiet_emit
  quiet_call quiet_set_p4info quiet_add_iface quiet_set_next_hop : quiet.

(** Splits a computation into its primitives. *)
Ltac quiet :=
  repeat first
    [ solve [auto with quiet]
    | apply quiet_bind; [|intro]
    | match goal with
      | |- quiet (match ?x with _ => _ end) => destruct x
      | |- quiet (if ?x then _ else _) => destruct x
      end ].

Lemma quiet_add_one_entry (e : TableEntry) : quiet (add_one_entry e).
Proof. unfold add_one_entry. quiet. Qed.
#[local] Hint Resolve quiet_add_one_entry : quiet.

Lemma quiet_add_route_ (prefix pLen nhop port : Z) (mode : UpdateMode) :
  quiet (add_route_ prefix pLen nhop port mode).
Proof. unfold add_route_. quiet. Qed.
#[local] Hint Resolve quiet_add_route_ : quiet.

Lemma quiet_add_route (prefix pLen nhop port : Z) :
  quiet (add_route prefix pLen nhop port).
Proof. unfold add_route. quiet. Qed.

Lemma quiet_add_iface_ (port ip : Z) (mac : mac_addr_t) (mode : UpdateMode) :
  iface_ok (MkIface port ip mac) -> quiet (add_iface_ port ip mac mode).
Proof. intros Hi. unfold add_iface_, assign_mac_addr. quiet. Qed.

Lemma quiet_add_iface' (port ip : Z) (mac : mac_addr_t) :
  iface_ok (MkIface port ip mac) -> quiet (add_iface port ip mac).
Proof. intros Hi. unfold add_iface. quiet; now apply quiet_add_iface_. Qed.

Lemma static_ifaces_ok :
  iface_ok (MkIface 1 0x0a000001 hw1) /\ iface_ok (MkIface 2 0x0a000101 hw2).
Proof. unfold iface_ok, uint16, uint32. cbn. lia. Qed.

Lemma quiet_set_default_entries : quiet set_default_entries.
Proof. unfold set_default_entries. quiet. Qed.
#[local] Hint Resolve quiet_set_default_entries : quiet.

Lemma quiet_static_config_ (mode : UpdateMode) : quiet (static_config_ mode).
Proof.
  unfold static_config_. quiet; apply quiet_add_iface_, static_ifaces_ok.
Qed.
#[local] Hint Resolve quiet_static_config_ : quiet.

Lemma quiet_static_config : quiet static_config.
Proof. unfold static_config. quiet. Qed.

Lemma quiet_query_counter (counter_name : string) (index : Z) :
  quiet (query_counter counter_name index).
Proof.
  unfold query_counter, CounterQueryHandler, query_counter_. quiet.
Qed.

Lemma quiet_assign : quiet assign.
Proof. unfold assign. quiet. Qed.

Lemma quiet_update_config (config_buffer : list byte) :
  quiet (update_config config_buffer).
Proof. unfold update_config, update_config_. quiet. Qed.

Lemma quiet_send_packetout (data : list byte) : quiet (send_packetout data).
Proof. unfold send_packetout. quiet. Qed.
#[local] Hint Resolve quiet_send_packetout : quiet.

Lemma quiet_handle_arp_request (arp_header : arp_header_t) :
  quiet (handle_arp_request arp_header).
Proof. unfold handle_arp_request. quiet. Qed.

Lemma quiet_send_arp_request (port dst_addr : Z) :
  quiet (send_arp_request port dst_addr).
Proof. unfold send_arp_request. quiet. Qed.

Lemma quiet_reinject (arp_header : arp_header_t) (dst_addr : Z) (p : Packet) :
  quiet (reinject arp_header dst_addr p).
Proof. unfold reinject, next_hops_at. quiet. Qed.

Lemma quiet_for_each {A : Type} (f : A -> M unit) (l : list A) :
  (forall x, quiet (f x)) -> quiet (for_each f l).
Proof.
  intros Hf. induction l as [|x l IH]; cbn [for_each];
    [apply quiet_ret | apply quiet_bind; auto].
Qed.

(** ** PacketHandler *)

Lemma PacketHandler_shape (pkt : Packet) :
  is_size_t (Z.of_nat (length pkt)) = true ->
  PacketHandler pkt =
  if malformed pkt then mret tt
  else if load_u16 pkt 8 =? NO_ARP_ENTRY
       then handle_ip pkt (load_ipv4_dst_addr pkt 26)
       else handle_arp (load_arp_header pkt 26).
Proof.
  unfold is_size_t. intros Hfit. apply andb_true_iff in Hfit.
  destruct Hfit as [_ Hfit]. apply Z.ltb_lt in Hfit.
  unfold PacketHandler, malformed, size_sub, sizeof_cpu_header_t,
    sizeof_eth_header_t, sizeof_arp_header_t, sizeof_ipv4_header_t,
    load_cpu_header.
  cbn [reason]. change (0 + 8)%nat with 8%nat.
  change (Z.to_nat (0 + 12 + 14)) with 26%nat.
  change (0 + 12 + 14) with 26. change (0 + 12) with 12.
  rewrite Z.sub_0_r, (Z.mod_small (Z.of_nat (length pkt))) by lia.
  destruct (Z.ltb_spec (Z.of_nat (length pkt)) 12) as [H1|H1];
    destruct (Nat.ltb_spec (length pkt) 12) as [H1'|H1']; try lia;
    [reflexivity|]. cbn [orb].
  destruct (zeros_prefix pkt); cbn [negb orb]; [|reflexivity].
  rewrite (Z.mod_small (Z.of_nat (length pkt) - 12)) by lia.
  destruct (Z.ltb_spec (Z.of_nat (length pkt) - 12) 14) as [H2|H2];
    destruct (Nat.ltb_spec (length pkt) 26) as [H2'|H2']; try lia;
    [reflexivity|]. cbn [orb].
  rewrite (Z.mod_small (Z.of_nat (length pkt) - 26)) by lia.
  destruct (load_u16 pkt 8 =? NO_ARP_ENTRY).
  - destruct (Z.ltb_spec (Z.of_nat (length pkt) - 26)
                         (Z.of_nat ipv4_noise + 4)) as [H3|H3];
      destruct (Nat.ltb_spec (length pkt) (26 + ipv4_noise + 4)) as [H3'|H3'];
      try lia; reflexivity.
  - destruct (load_u16 pkt 8 =? ARP_MSG); [|reflexivity].
    destruct (Z.ltb_spec (Z.of_nat (length pkt) - 26) 28) as [H3|H3];
      destruct (Nat.ltb_spec (length pkt) 54) as [H3'|H3'];
      try lia; reflexivity.
Qed.


Lemma send_arp_request_run (port dst_addr : Z) (w : World) :
  send_arp_request port dst_addr w =
  Ret tt match find (fun iface => port_num iface =? port) (ifaces w) with
         | Some iface =>
             emit (EvPacketOut (arp_request_packet iface port dst_addr)) w
         | None => w
         end.
Proof.
  unfold send_arp_request, send_packetout. run.
  destruct (find _ (ifaces w)); reflexivity.
Qed.

Lemma handle_ip_run (pkt : Packet) (dst_addr : Z) (w : World) :
  handle_ip pkt dst_addr w =
  match next_hops w !! dst_addr with
  | None => Ret tt w
  | Some port =>
      send_arp_request port dst_addr
        (set_packet_queues
           (<[dst_addr := default [] (packet_queues w !! dst_addr) ++ [pkt]]>
              (packet_queues w)) w)
  end.
Proof.
  unfold handle_ip. run. destruct (next_hops w !! dst_addr); reflexivity.
Qed.

(** ** The invariant *)

Lemma quiet_stable {A : Type} (m : M A) : quiet m -> stable m.
Proof. intros H w. apply grows_Inv, H. Qed.

Lemma stable_bind {A B : Type} (m : M A) (k : A -> M B) :
  stable m -> (forall a, stable (k a)) -> stable (m ≫= k).
Proof.
  intros Hm Hk w HI.
  destruct (world_of_bind m k w) as [E | (a & w' & Hr & E)]; rewrite E.
  - now apply Hm.
  - apply Hk. specialize (Hm w HI). now rewrite Hr in Hm.
Qed.

Lemma Inv_init (d : Z) (p : pi_p4info_t) : Inv (SimpleRouterMgr d p).
Proof.
  split; [|split].
  - intros dst q H. cbn in H. now rewrite lookup_empty in H.
  - intros dst q p0 H. cbn in H. now rewrite lookup_empty in H.
  - constructor.
Qed.

Lemma Inv_enqueue (pkt : Packet) (dst_addr : Z) (w : World) :
  (26 <= length pkt)%nat -> is_Some (next_hops w !! dst_addr) -> Inv w ->
  Inv (set_packet_queues
         (<[dst_addr := default [] (packet_queues w !! dst_addr) ++ [pkt]]>
            (packet_queues w)) w).
Proof.
  intros Hlen Hnh (Hi & Hp & Hifs). split; [|split; [|exact Hifs]].
  - intros dst q. cbn. destruct (decide (dst_addr = dst)) as [<-|Hne].
    + rewrite lookup_insert_eq. intros [= <-]. split; [exact Hnh|].
      now destruct (default [] _).
    + rewrite lookup_insert_ne by assumption. apply Hi.
  - intros dst q p0. cbn. destruct (decide (dst_addr = dst)) as [<-|Hne].
    + rewrite lookup_insert_eq. intros [= <-] Hin.
      apply in_app_or in Hin. destruct Hin as [Hin | [<- | []]]; [|exact Hlen].
      destruct (packet_queues w !! dst_addr) as [q0|] eqn:E; [|destruct Hin].
      exact (Hp _ _ _ E Hin).
    + rewrite lookup_insert_ne by assumption. apply Hp.
Qed.

Lemma Inv_dequeue (dst_addr : Z) (w : World) :
  Inv w -> Inv (set_packet_queues (delete dst_addr (packet_queues w)) w).
Proof.
  intros (Hi & Hp & Hifs). split; [|split; [|exact Hifs]].
  - intros dst q. cbn. intros H. apply lookup_delete_Some in H. apply Hi, H.
  - intros dst q p0. cbn. intros H. apply lookup_delete_Some in H.
    destruct H as [_ H]. exact (Hp _ _ _ H).
Qed.

Lemma handle_ip_Inv (pkt : Packet) (dst_addr : Z) (w : World) :
  (26 <= length pkt)%nat -> Inv w ->
  Inv (world_of (handle_ip pkt dst_addr w)).
Proof.
  intros Hlen HI. rewrite handle_ip_run.
  destruct (next_hops w !! dst_addr) as [port|] eqn:E; [|exact HI].
  eapply grows_Inv; [apply quiet_send_arp_request|].
  apply Inv_enqueue; [exact Hlen | rewrite E; eauto | exact HI].
Qed.

Lemma stable_handle_arp_reply (arp_header : arp_header_t) :
  stable (handle_arp_reply arp_header).
Proof.
  unfold handle_arp_reply. apply stable_bind.
  { unfold add_arp_entry. apply quiet_stable. quiet. }
  intros _. apply stable_bind; [apply quiet_stable, quiet_get|].
  intros w0. destruct (packet_queues w0 !! _); [|apply quiet_stable, quiet_ret].
  apply stable_bind.
  - apply quiet_stable, quiet_for_each. intros p. apply quiet_reinject.
  - intros _ w HI. apply Inv_dequeue, HI.
Qed.

Lemma stable_handle_arp (arp_header : arp_header_t) :
  stable (handle_arp arp_header).
Proof.
  unfold handle_arp. destruct (_ =? 1).
  - apply quiet_stable, quiet_handle_arp_request.
  - destruct (_ =? 2); [apply stable_handle_arp_reply|].
    apply quiet_stable, quiet_assert.
Qed.

Lemma malformed_false_length (pkt : Packet) :
  malformed pkt = false -> (26 <= length pkt)%nat.
Proof.
  unfold malformed. intros H. apply orb_false_iff in H. destruct H as [H _].
  apply orb_false_iff in H. destruct H as [_ H]. apply Nat.ltb_ge in H. lia.
Qed.

Lemma malformed_false_reason (pkt : Packet) :
  malformed pkt = false ->
  load_u16 pkt 8 = NO_ARP_ENTRY \/ load_u16 pkt 8 = ARP_MSG.
Proof.
  unfold malformed. intros H. apply orb_false_iff in H. destruct H as [_ H].
  destruct (Z.eqb_spec (load_u16 pkt 8) NO_ARP_ENTRY); [now left|].
  destruct (Z.eqb_spec (load_u16 pkt 8) ARP_MSG); [now right | discriminate].
Qed.

Lemma PacketHandler_Inv (pkt : Packet) (w : World) :
  is_size_t (Z.of_nat (length pkt)) = true -> Inv w ->
  Inv (world_of (PacketHandler pkt w)).
Proof.
  intros Hfit HI. rewrite (PacketHandler_shape pkt Hfit).
  destruct (malformed pkt) eqn:Hm; [exact HI|].
  destruct (_ =? NO_ARP_ENTRY).
  - apply handle_ip_Inv; [apply malformed_false_length, Hm | exact HI].
  - apply stable_handle_arp, HI.
Qed.

Lemma quiet_ignore {A : Type} (m : M A) : quiet m -> quiet (ignore m).
Proof. intros H. unfold ignore. quiet. Qed.

Lemma run_op_Inv (op : Op) (w : World) :
  well_typed op = true -> Inv w -> Inv (world_of (run_op op w)).
Proof.
  intros Hty HI. destruct op; cbn [run_op well_typed] in *.
  - now apply PacketHandler_Inv.
  - eapply grows_Inv; [apply quiet_ignore, quiet_assign | exact HI].
  - eapply grows_Inv; [apply quiet_ignore, quiet_add_route | exact HI].
  - eapply grows_Inv; [apply quiet_add_iface' | exact HI].
    apply andb_true_iff in Hty. destruct Hty as [Hp Ha].
    unfold is_uint16, is_uint32 in *. unfold iface_ok, uint16, uint32. cbn.
    lia.
  - eapply grows_Inv; [apply quiet_ignore, quiet_set_default_entries
                      | exact HI].
  - eapply grows_Inv; [apply quiet_ignore, quiet_static_config | exact HI].
  - eapply grows_Inv; [apply quiet_ignore, quiet_query_counter | exact HI].
  - eapply grows_Inv; [apply quiet_ignore, quiet_update_config | exact HI].
Qed.

Lemma reachable_Inv (w : World) : reachable w -> Inv w.
Proof.
  induction 1 as [d p | w op w' _ IH Hty Hrun]; [apply Inv_init|].
  pose proof (run_op_Inv op w Hty IH) as H. now rewrite Hrun in H.
Qed.

Lemma run_ops_reachable (ops : list Op) (w w' : World) :
  reachable w -> run_ops ops w = Some w' -> reachable w'.
Proof.
  revert w. induction ops as [|op ops IH]; intros w Hw; cbn [run_ops].
  - now intros [= <-].
  - destruct (well_typed op) eqn:Hty; [|discriminate].
    destruct (run_op op w) as [[] w1|] eqn:Hrun; [|discriminate].
    apply IH. eapply reachable_step; eauto.
Qed.


Lemma quiet_queues {A : Type} (m : M A) (w : World) :
  quiet m -> packet_queues (world_of (m w)) = packet_queues w.
Proof. intros H. apply H. Qed.

Lemma quiet_queues_ret {A : Type} (m : M A) (w w' : World) (a : A) :
  quiet m -> m w = Ret a w' -> packet_queues w' = packet_queues w.
Proof. intros H E. pose proof (quiet_queues m w H) as Hq. now rewrite E in Hq. Qed.

Lemma handle_arp_reply_queues (arp_header : arp_header_t) (w : World) :
  let w' := world_of (handle_arp_reply arp_header w) in
  packet_queues w' = packet_queues w \/
  packet_queues w' = delete (proto_src_addr arp_header) (packet_queues w).
Proof.
  cbn zeta. unfold handle_arp_reply.
  assert (Hadd : quiet (add_arp_entry (proto_src_addr arp_header)
                                      (hw_src_addr arp_header)))
    by (unfold add_arp_entry; quiet).
  destruct (world_of_bind
              (add_arp_entry (proto_src_addr arp_header)
                             (hw_src_addr arp_header))
              (fun _ => w0 ← get_world;
                 match packet_queues w0 !! proto_src_addr arp_header with
                 | Some q =>
                     for_each (reinject arp_header
                                 (proto_src_addr arp_header)) q;;
                     modify (fun w1 =>
                       set_packet_queues
                         (delete (proto_src_addr arp_header)
                                 (packet_queues w1)) w1)
                 | None => mret tt
                 end) w) as [E | (a & w1 & Hr & E)]; rewrite E; clear E.
  { left. now apply quiet_queues. }
  pose proof (quiet_queues_ret _ _ _ _ Hadd Hr) as H1. rewrite <- H1.
  run. destruct (packet_queues w1 !! proto_src_addr arp_header) as [q|];
    [|now left].
  assert (Hfor : quiet (for_each (reinject arp_header
                                    (proto_src_addr arp_header)) q))
    by (apply quiet_for_each; intros p; apply quiet_reinject).
  pose proof (quiet_queues _ w1 Hfor) as H2.
  destruct (for_each _ q w1) as [[] w2|f w2]; cbn in *.
  - right. now rewrite H2.
  - now left.
Qed.

Lemma PacketHandler_queues (pkt : Packet) (w : World) :
  is_size_t (Z.of_nat (length pkt)) = true ->
  let w' := world_of (PacketHandler pkt w) in
  packet_queues w' = packet_queues w \/
  (exists dst, is_Some (next_hops w !! dst) /\
     packet_queues w' =
     <[dst := default [] (packet_queues w !! dst) ++ [pkt]]>
       (packet_queues w)) \/
  (exists dst, packet_queues w' = delete dst (packet_queues w)).
Proof.
  intros Hfit. cbn zeta. rewrite (PacketHandler_shape pkt Hfit).
  destruct (malformed pkt); [now left|].
  destruct (_ =? NO_ARP_ENTRY).
  - rewrite handle_ip_run.
    destruct (next_hops w !! _) as [port|] eqn:E; [|now left].
    right; left. eexists. split; [rewrite E; eauto|].
    now rewrite (quiet_queues _ _ (quiet_send_arp_request _ _)).
  - unfold handle_arp. destruct (_ =? 1).
    { left. apply quiet_queues, quiet_handle_arp_request. }
    destruct (_ =? 2); [|now left].
    destruct (handle_arp_reply_queues (load_arp_header pkt 26) w); eauto.
Qed.

(** ** ARP requests *)

(** C7: in a reachable world, a punted ARP message with opcode 1 whose
    target address is the address of a configured interface is answered by
    exactly one packet-out: a 54-byte reply whose CPU header names that
    interface's port, whose Ethernet source is the interface's MAC, and whose
    ARP header has opcode 2, the interface's MAC and IP as sender and the
    request's sender MAC and IP as target.  When no interface has the target
    address, nothing is sent and nothing changes. *)
Theorem arp_request_answered (pkt : Packet) (w : World) :
  let arp_header := load_arp_header pkt 26 in
  reachable w ->
  is_size_t (Z.of_nat (length pkt)) = true ->
  malformed pkt = false ->
  load_u16 pkt 8 = ARP_MSG ->
  opcode arp_header = 1 ->
  ((exists iface, In iface (ifaces w) /\
                  ip_addr iface = proto_dst_addr arp_header) ->
   exists iface reply,
     In iface (ifaces w) /\ ip_addr iface = proto_dst_addr arp_header /\
     PacketHandler pkt w = Ret tt (emit (EvPacketOut reply) w) /\
     length reply = 54%nat /\
     load_cpu_header reply 0 = CpuHeader ARP_MSG (port_num iface) /\
     load_eth_header reply 12 =
       EthHeader (hw_src_addr arp_header) (mac_addr iface) 0x0806 /\
     load_arp_header reply 26 =
       ArpHeader 1 0x800 6 4 2 (mac_addr iface) (ip_addr iface)
                 (hw_src_addr arp_header) (proto_src_addr arp_header)) /\
  ((forall iface, In iface (ifaces w) ->
                  ip_addr iface <> proto_dst_addr arp_header) ->
   PacketHandler pkt w = Ret tt w).
Proof.
  intros arp_header Hr Hfit Hm Hreason Hop.
  destruct (reachable_Inv w Hr) as (_ & _ & Hifs).
  rewrite (PacketHandler_shape pkt Hfit), Hm, Hreason.
  change (ARP_MSG =? NO_ARP_ENTRY) with false. cbv iota. fold arp_header.
  apply handle_arp_request_reply; [exact Hop | | exact Hifs].
  apply load_u32_range.
Qed.

(** ** The pending-packet queues *)

(** C9: in every world the manager can reach, every destination with a
    pending queue has a next-hop entry and its queue is not empty.  An
    operation either leaves the queue map as it is, or (a punted packet after
    a successful next-hop lookup) appends the packet to the queue of that
    destination, creating the queue with it when there was none, or removes
    the whole queue of one destination. *)
Theorem pending_queue_invariant (w : World) :
  reachable w ->
  (forall dst q, packet_queues w !! dst = Some q ->
     is_Some (next_hops w !! dst) /\ q <> []) /\
  (forall op w', well_typed op = true -> run_op op w = Ret tt w' ->
     packet_queues w' = packet_queues w \/
     (exists dst pkt, op = OpPacket pkt /\ is_Some (next_hops w !! dst) /\
        packet_queues w' =
        <[dst := default [] (packet_queues w !! dst) ++ [pkt]]>
          (packet_queues w)) \/
     (exists dst, packet_queues w' = delete dst (packet_queues w))).
Proof.
  intros Hr. split; [apply (reachable_Inv w Hr)|].
  intros op w' Hty Hrun. destruct op; cbn [run_op well_typed] in *.
  - pose proof (PacketHandler_queues pkt w Hty) as H. cbn zeta in H.
    rewrite Hrun in H. cbn [world_of] in H.
    destruct H as [H | [(dst & Hn & H) | H]]; eauto 8.
  - left. exact (quiet_queues_ret _ _ _ _ (quiet_ignore _ quiet_assign) Hrun).
  - left. exact (quiet_queues_ret _ _ _ _
                   (quiet_ignore _ (quiet_add_route _ _ _ _)) Hrun).
  - left. apply andb_true_iff in Hty. destruct Hty as [Hp Ha].
    refine (quiet_queues_ret _ _ _ _ (quiet_add_iface' _ _ _ _) Hrun).
    unfold is_uint16, is_uint32 in *. unfold iface_ok, uint16, uint32. cbn.
    lia.
  - left. exact (quiet_queues_ret _ _ _ _
                   (quiet_ignore _ quiet_set_default_entries) Hrun).
  - left. exact (quiet_queues_ret _ _ _ _
                   (quiet_ignore _ quiet_static_config) Hrun).
  - left. exact (quiet_queues_ret _ _ _ _
                   (quiet_ignore _ (quiet_query_counter _ _)) Hrun).
  - left. exact (quiet_queues_ret _ _ _ _
                   (quiet_ignore _ (quiet_update_config _)) Hrun).
Qed.

(** ** handle_arp_reply *)

Lemma emit_all_nil (w : World) : emit_all [] w = w.
Proof. unfold emit_all. rewrite app_nil_r. now destruct w. Qed.

Lemma emit_all_cons (e : Event) (evs : list Event) (w : World) :
  emit_all evs (emit e w) = emit_all (e :: evs) w.
Proof. unfold emit_all, emit. cbn. now rewrite <- app_assoc. Qed.

Lemma store_at_head (data buf : list byte) :
  (length data <= length buf)%nat ->
  store_at 0 data buf = Some (data ++ skipn (length data) buf).
Proof.
  intros H. unfold store_at. cbn [Nat.add firstn app].
  destruct (Nat.leb_spec (length data) (length buf)); [reflexivity | lia].
Qed.

Lemma store_at_after (pre data rest : list byte) :
  (length data <= length rest)%nat ->
  store_at (length pre) data (pre ++ rest) =
  Some (pre ++ data ++ skipn (length data) rest).
Proof.
  intros H. unfold store_at. rewrite length_app.
  destruct (Nat.leb_spec (length pre + length data)
                         (length pre + length rest)); [|lia].
  now rewrite take_app_length, drop_app_add.
Qed.

Lemma reinject_run (arp_header : arp_header_t) (dst_addr port : Z)
    (p : Packet) (w : World) :
  next_hops w !! dst_addr = Some port -> (18 <= length p)%nat ->
  reinject arp_header dst_addr p w =
  Ret tt (emit (EvPacketOut (reinjected port (hw_src_addr arp_header) p)) w).
Proof.
  intros Hnh Hlen. unfold reinject, next_hops_at, send_packetout. run.
  rewrite Hnh, store_at_head by (cbn; lia).
  change 12%nat with (length (set_cpu_header DATA_PKT port)) at 1.
  rewrite store_at_after by (rewrite length_skipn; cbn; lia).
  rewrite skipn_skipn. reflexivity.
Qed.

Lemma for_each_reinject (arp_header : arp_header_t) (dst_addr port : Z)
    (q : PacketQueue) (w : World) :
  next_hops w !! dst_addr = Some port ->
  (forall p, In p q -> (18 <= length p)%nat) ->
  for_each (reinject arp_header dst_addr) q w =
  Ret tt (emit_all
            (map (fun p => EvPacketOut
                             (reinjected port (hw_src_addr arp_header) p)) q)
            w).
Proof.
  revert w. induction q as [|p q IH]; intros w Hnh Hq; cbn [for_each map].
  - now rewrite emit_all_nil.
  - rewrite bind_run, (reinject_run _ _ port) by auto using in_eq.
    rewrite IH by auto using in_cons. now rewrite emit_all_cons.
Qed.

Lemma reinjected_spec (port : Z) (mac : mac_addr_t) (p : Packet) :
  (18 <= length p)%nat ->
  length (reinjected port mac p) = length p /\
  load_mac (reinjected port mac p) 12 = mac /\
  skipn 18 (reinjected port mac p) = skipn 18 p.
Proof.
  intros Hlen. unfold reinjected. split; [|split].
  - rewrite !length_app, length_skipn.
    change (length (set_cpu_header DATA_PKT port)) with 12%nat.
    change (length (mac_bytes mac)) with 6%nat. lia.
  - apply (load_store_mac mac (set_cpu_header DATA_PKT port)).
  - destruct mac; reflexivity.
Qed.

(** ** A further miss for a destination that is being resolved *)

Lemma PacketHandler_keeps_queue (pkt : Packet) (w : World) (dst : Z)
    (q : PacketQueue) :
  is_size_t (Z.of_nat (length pkt)) = true ->
  packet_queues w !! dst = Some q ->
  (exists q', packet_queues (world_of (PacketHandler pkt w)) !! dst
              = Some (q ++ q')) \/
  (load_u16 pkt 8 = ARP_MSG /\
   opcode (load_arp_header pkt 26) = 2 /\
   proto_src_addr (load_arp_header pkt 26) = dst).
Proof.
  intros Hfit Hq. rewrite (PacketHandler_shape pkt Hfit).
  assert (Hsame : forall w', packet_queues w' = packet_queues w ->
            exists q', packet_queues w' !! dst = Some (q ++ q')).
  { intros w' ->. exists []. now rewrite app_nil_r. }
  destruct (malformed pkt) eqn:Hm; [left; now apply Hsame|].
  destruct (Z.eqb_spec (load_u16 pkt 8) NO_ARP_ENTRY) as [E0|E0].
  - left. rewrite handle_ip_run.
    destruct (next_hops w !! _) as [port|]; [|now apply Hsame].
    rewrite (quiet_queues _ _ (quiet_send_arp_request _ _)). cbn.
    destruct (decide (load_ipv4_dst_addr pkt 26 = dst)) as [->|Hne].
    + rewrite lookup_insert_eq, Hq. cbn. eauto.
    + rewrite lookup_insert_ne by assumption. exists []. now rewrite app_nil_r.
  - destruct (malformed_false_reason pkt Hm) as [E|Hreason]; [easy|].
    unfold handle_arp.
    destruct (Z.eqb_spec (opcode (load_arp_header pkt 26)) 1) as [E1|E1].
    { left. apply Hsame, quiet_queues, quiet_handle_arp_request. }
    destruct (Z.eqb_spec (opcode (load_arp_header pkt 26)) 2) as [E2|E2];
      [|left; now apply Hsame].
    destruct (decide (proto_src_addr (load_arp_header pkt 26) = dst))
      as [Hd|Hd]; [now right|]. left.
    destruct (handle_arp_reply_queues (load_arp_header pkt 26) w) as [H|H].
    + now apply Hsame.
    + rewrite H, lookup_delete_ne by assumption. exists [].
      now rewrite app_nil_r.
Qed.

(** C2 (as the code has it): for a destination [dst] with a next-hop entry
    and a pending queue [q], a further punted packet with reason
    NO_ARP_ENTRY is appended to the queue, which becomes [q ++ [pkt]].
    Every such miss, not only the first, sends an ARP request out of the
    next hop's port when an interface has that port; nothing else is sent.
    The packets queued for [dst] stay queued, in their order, through every
    operation but the handling of an ARP reply (opcode 2) whose sender is
    [dst]. *)
Theorem repeated_miss_enqueues (dst : Z) :
  (forall (pkt : Packet) (w : World) (port : Z) (q : PacketQueue),
     is_size_t (Z.of_nat (length pkt)) = true ->
     malformed pkt = false ->
     load_u16 pkt 8 = NO_ARP_ENTRY ->
     load_ipv4_dst_addr pkt 26 = dst ->
     next_hops w !! dst = Some port ->
     packet_queues w !! dst = Some q ->
     PacketHandler pkt w =
     Ret tt (emit_all
               match find (fun iface => port_num iface =? port) (ifaces w)
               with
               | Some iface =>
                   [EvPacketOut (arp_request_packet iface port dst)]
               | None => []
               end
               (set_packet_queues (<[dst := q ++ [pkt]]> (packet_queues w))
                                  w))) /\
  (forall (op : Op) (w w' : World) (q : PacketQueue),
     well_typed op = true ->
     run_op op w = Ret tt w' ->
     packet_queues w !! dst = Some q ->
     (exists q', packet_queues w' !! dst = Some (q ++ q')) \/
     (exists pkt, op = OpPacket pkt /\
                  load_u16 pkt 8 = ARP_MSG /\
                  opcode (load_arp_header pkt 26) = 2 /\
                  proto_src_addr (load_arp_header pkt 26) = dst)).
Proof.
  split.
  - intros pkt w port q Hfit Hm Hreason Hdst Hnh Hq.
    rewrite (PacketHandler_shape pkt Hfit), Hm, Hreason, Z.eqb_refl, Hdst.
    rewrite handle_ip_run, Hnh, Hq, send_arp_request_run.
    cbn [default]. proj. f_equal.
    destruct (find _ (ifaces w)); [reflexivity|].
    now rewrite emit_all_nil.
  - intros op w w' q Hty Hrun Hq.
    assert (Hsame : packet_queues w' = packet_queues w ->
              exists q', packet_queues w' !! dst = Some (q ++ q')).
    { intros ->. exists []. now rewrite app_nil_r. }
    destruct op; cbn [run_op well_typed] in *.
    + destruct (PacketHandler_keeps_queue pkt w dst q Hty Hq) as [H|H].
      * left. now rewrite Hrun in H.
      * right. eauto.
    + left. apply Hsame.
      exact (quiet_queues_ret _ _ _ _ (quiet_ignore _ quiet_assign) Hrun).
    + left. apply Hsame.
      exact (quiet_queues_ret _ _ _ _
               (quiet_ignore _ (quiet_add_route _ _ _ _)) Hrun).
    + left. apply Hsame. apply andb_true_iff in Hty. destruct Hty as [Hp Ha].
      refine (quiet_queues_ret _ _ _ _ (quiet_add_iface' _ _ _ _) Hrun).
      unfold is_uint16, is_uint32 in *. unfold iface_ok, uint16, uint32. cbn.
      lia.
    + left. apply Hsame.
      exact (quiet_queues_ret _ _ _ _
               (quiet_ignore _ quiet_set_default_entries) Hrun).
    + left. apply Hsame.
      exact (quiet_queues_ret _ _ _ _
               (quiet_ignore _ quiet_static_config) Hrun).
    + left. apply Hsame.
      exact (quiet_queues_ret _ _ _ _
               (quiet_ignore _ (quiet_query_counter _ _)) Hrun).
    + left. apply Hsame.
      exact (quiet_queues_ret _ _ _ _
               (quiet_ignore _ (quiet_update_config _)) Hrun).
Qed.

(** ** What a punted packet can do *)

Lemma handle_arp_reply_run (arp_header : arp_header_t) (w : World) :
  let dst := proto_src_addr arp_header in
  let mac := hw_src_addr arp_header in
  let req := MkTableWrite (dev_id w) INSERT (arp_entry (p4info w) dst mac) in
  let r := TableWrite dev (log w) req in
  Inv w ->
  handle_arp_reply arp_header w =
  if status_ok r then
    Ret tt match packet_queues w !! dst with
           | Some q =>
               set_packet_queues (delete dst (packet_queues w))
                 (emit_all
                    (EvTableWrite req r ::
                     map (fun p =>
                            EvPacketOut
                              (reinjected (default 0 (next_hops w !! dst))
                                          mac p)) q) w)
           | None => emit (EvTableWrite req r) w
           end
  else Crash AssertFailed (emit (EvTableWrite req r) w).
Proof.
  intros dst mac req r (Hi & Hp & _).
  unfold handle_arp_reply, add_arp_entry. fold dst mac.
  rewrite !bind_run. cbv [get_world]. rewrite add_one_entry_run.
  fold req r. destruct (status_ok r); [|reflexivity].
  rewrite bind_run. proj.
  destruct (packet_queues w !! dst) as [q|] eqn:Hq; [|reflexivity].
  destruct (Hi _ _ Hq) as [[port Hnh] _]. rewrite Hnh. cbn [default].
  rewrite bind_run, (for_each_reinject _ _ port).
  - now rewrite emit_all_cons.
  - exact Hnh.
  - intros p Hin. pose proof (Hp _ _ _ Hq Hin). lia.
Qed.

(** What the handler does with a punted packet, in a reachable world.  A
    packet that is too short, has reserved bytes that are not zero, or
    carries a reason code other than NO_ARP_ENTRY and ARP_MSG is dropped:
    the handler returns and nothing changes.  An ARP message whose opcode is
    neither 1 nor 2 reaches the [assert(0)] of [handle_arp].  In the code of
    this file the handler stops in no other way, except when the table write
    of an ARP reply fails at the transport level; it never writes outside a
    queued packet.  The pipeline-description library is taken as the model
    has it, its lookups always returning: an abort inside that library is
    not covered. *)
Theorem punted_packet_outcome (pkt : Packet) (w : World) :
  is_size_t (Z.of_nat (length pkt)) = true ->
  reachable w ->
  (malformed pkt = true -> PacketHandler pkt w = Ret tt w) /\
  (malformed pkt = false -> load_u16 pkt 8 = ARP_MSG ->
   opcode (load_arp_header pkt 26) <> 1 ->
   opcode (load_arp_header pkt 26) <> 2 ->
   PacketHandler pkt w = Crash AssertFailed w) /\
  (forall f w', PacketHandler pkt w = Crash f w' ->
     f = AssertFailed /\ malformed pkt = false /\
     load_u16 pkt 8 = ARP_MSG /\
     opcode (load_arp_header pkt 26) <> 1 /\
     (opcode (load_arp_header pkt 26) = 2 ->
      exists req, w' = emit (EvTableWrite req (TableWrite dev (log w) req)) w
                  /\ status_ok (TableWrite dev (log w) req) = false)).
Proof.
  intros Hfit Hr. pose proof (reachable_Inv w Hr) as HI.
  rewrite (PacketHandler_shape pkt Hfit). split; [|split].
  - intros ->. reflexivity.
  - intros -> -> H1 H2. unfold handle_arp.
    apply Z.eqb_neq in H1, H2. now rewrite H1, H2.
  - intros f w' Hc. destruct (malformed pkt) eqn:Hm; [discriminate|].
    destruct (Z.eqb_spec (load_u16 pkt 8) NO_ARP_ENTRY) as [E0|E0].
    { rewrite handle_ip_run in Hc.
      destruct (next_hops w !! _); [|discriminate].
      rewrite send_arp_request_run in Hc. discriminate. }
    destruct (malformed_false_reason pkt Hm) as [E|Hreason]; [easy|].
    unfold handle_arp in Hc.
    destruct (Z.eqb_spec (opcode (load_arp_header pkt 26)) 1) as [E1|E1].
    { unfold handle_arp_request, send_packetout in Hc. run.
      revert Hc. run. destruct (find _ (ifaces w)); discriminate. }
    destruct (Z.eqb_spec (opcode (load_arp_header pkt 26)) 2) as [E2|E2].
    + rewrite (handle_arp_reply_run _ w HI) in Hc.
      destruct (status_ok _) eqn:Hok; [discriminate|].
      injection Hc as <- <-. repeat split; try assumption.
      intros _. eexists. split; [reflexivity | exact Hok].
    + injection Hc as <- <-. repeat split; try assumption.
      intros E. destruct (E2 E).
Qed.

(** ** Pipeline reload *)

Lemma table_writes_write_events (h : list Event) (d : Z)
    (es : list TableEntry) :
  table_writes (write_events h d es) = es.
Proof.
  revert h. induction es as [|e es IH]; intros h; [reflexivity|].
  cbn [write_events table_writes tw_entry]. now rewrite IH.
Qed.

Lemma emit_all_app (evs1 evs2 : list Event) (w : World) :
  emit_all evs2 (emit_all evs1 w) = emit_all (evs1 ++ evs2) w.
Proof. unfold emit_all. cbn. now rewrite <- app_assoc. Qed.

Lemma write_events_app (h : list Event) (d : Z) (es1 es2 : list TableEntry) :
  write_events h d (es1 ++ es2) =
  write_events h d es1 ++ write_events (h ++ write_events h d es1) d es2.
Proof.
  revert h. induction es1 as [|e es1 IH]; intros h; cbn [write_events app].
  - now rewrite app_nil_r.
  - rewrite IH. do 3 f_equal. now rewrite <- app_assoc.
Qed.

Lemma after_writes_app (es1 es2 : list TableEntry) (w : World) :
  after_writes es2 (after_writes es1 w) = after_writes (es1 ++ es2) w.
Proof.
  unfold after_writes. rewrite emit_all_app, write_events_app. reflexivity.
Qed.

Lemma after_writes_nil (w : World) : after_writes [] w = w.
Proof. apply emit_all_nil. Qed.

Lemma add_one_entry_ok (e : TableEntry) (w : World) :
  reliable ->
  exists n, add_one_entry e w = Ret n (after_writes [e] w).
Proof.
  intros (_ & Htw & _). rewrite add_one_entry_run, Htw. eauto.
Qed.

Lemma set_default_entries_ok (w : World) :
  reliable ->
  set_default_entries w = Ret 0 (after_writes [default_entry (p4info w)] w).
Proof.
  intros Hrel. unfold set_default_entries. rewrite !bind_run.
  cbv [get_world]. rewrite bind_run.
  destruct (add_one_entry_ok (default_entry (p4info w)) w Hrel) as [n ->].
  reflexivity.
Qed.

Lemma add_route_device_ok (prefix pLen nhop port : Z) (w : World) :
  reliable ->
  exists n, add_route_ prefix pLen nhop port DEVICE_STATE w =
            Ret n (after_writes [route_entry (p4info w) pLen nhop port] w).
Proof.
  intros Hrel. unfold add_route_. rewrite !bind_run. cbv [get_world].
  destruct (add_one_entry_ok (route_entry (p4info w) pLen nhop port) w Hrel)
    as [n ->].
  exists n. reflexivity.
Qed.

Lemma add_iface_device_ok (port ip : Z) (mac : mac_addr_t) (w : World) :
  reliable ->
  add_iface_ port ip mac DEVICE_STATE w =
  Ret tt (after_writes (port_mac_entry (p4info w) (ifaces w) port) w).
Proof.
  intros Hrel. unfold add_iface_, port_mac_entry. rewrite bind_run.
  cbv [get_world]. destruct (find _ (ifaces w)) as [iface|].
  - unfold assign_mac_addr. rewrite !bind_run. cbv [get_world].
    destruct (add_one_entry_ok (mac_entry (p4info w) port (mac_addr iface))
                w Hrel) as [n ->].
    reflexivity.
  - now rewrite after_writes_nil.
Qed.

Lemma static_config_device_ok (w : World) :
  reliable ->
  static_config_ DEVICE_STATE w =
  Ret 0 (after_writes
           ([route_entry (p4info w) 32 0x0a00000a 1;
             route_entry (p4info w) 32 0x0a00010a 2]
            ++ port_mac_entry (p4info w) (ifaces w) 1
            ++ port_mac_entry (p4info w) (ifaces w) 2) w).
Proof.
  intros Hrel. unfold static_config_. rewrite bind_run.
  destruct (add_route_device_ok 0x0a00000a 32 0x0a00000a 1 w Hrel) as [n1 ->].
  rewrite bind_run.
  destruct (add_route_device_ok 0x0a00010a 32 0x0a00010a 2
              (after_writes [route_entry (p4info w) 32 0x0a00000a 1] w) Hrel)
    as [n2 ->].
  rewrite bind_run, (add_iface_device_ok _ _ _ _ Hrel).
  rewrite bind_run, (add_iface_device_ok _ _ _ _ Hrel).
  rewrite !after_writes_app. reflexivity.
Qed.

(** The device half of a reload is the writing of [repushed_entries]. *)
Lemma repush_run (w : World) :
  reliable ->
  (_ ← set_default_entries; static_config_ DEVICE_STATE) w =
  Ret 0 (after_writes (repushed_entries (p4info w) (ifaces w)) w).
Proof.
  intros Hrel. rewrite bind_run, (set_default_entries_ok w Hrel).
  rewrite (static_config_device_ok _ Hrel), after_writes_app. reflexivity.
Qed.


Lemma update_config_run (config_buffer : list byte) (w : World) :
  reliable ->
  update_config_ config_buffer w =
  if rep (start_reply config_buffer w) =? Code_OK then
    if rep (end_reply config_buffer w) =? Code_OK
    then Ret 0 (world_reloaded config_buffer w)
    else Ret 1 (world_reloaded config_buffer w)
  else Ret 1 (world_started config_buffer w).
Proof.
  intros Hrel. pose proof Hrel as (_ & _ & _ & Hs & He).
  unfold update_config_. run. proj. rewrite Hs.
  fold (start_request config_buffer w). fold (start_reply config_buffer w).
  fold (world_started config_buffer w).
  destruct (rep (start_reply config_buffer w) =? Code_OK);
    cbn [negb]; [|reflexivity].
  rewrite (set_default_entries_ok _ Hrel).
  rewrite (static_config_device_ok _ Hrel), after_writes_app.
  change (world_repushed config_buffer w) with
    (after_writes
       ([default_entry (pi_add_config config_buffer)] ++
        [route_entry (pi_add_config config_buffer) 32 167772170 1;
         route_entry (pi_add_config config_buffer) 32 167772426 2] ++
        port_mac_entry (pi_add_config config_buffer) (ifaces w) 1 ++
        port_mac_entry (pi_add_config config_buffer) (ifaces w) 2)
       (world_started config_buffer w)) in *.
  rewrite He. unfold world_reloaded, end_reply.
  destruct (rep (DeviceUpdateEnd dev _ _) =? Code_OK); reflexivity.
Qed.

(** C6: when no call fails at the transport level, a reload returns, and
    returns 0 exactly when the device answers OK both to [update_start] and
    to [update_end].  When [update_start] is answered with another code the
    reload returns 1 right after it: the pipeline description is already the
    new one, and no table entry has been written. *)
Theorem reload_succeeds_iff (config_buffer : list byte) (w : World) :
  reliable ->
  exists rc w',
    update_config_ config_buffer w = Ret rc w' /\
    (rc = 0 <-> rep (start_reply config_buffer w) = Code_OK /\
                rep (end_reply config_buffer w) = Code_OK) /\
    (rep (start_reply config_buffer w) <> Code_OK ->
     rc = 1 /\
     p4info w' = pi_add_config config_buffer /\
     log w' = log w ++ [EvUpdateStart (start_request config_buffer w)
                                      (start_reply config_buffer w)]).
Proof.
  intros Hrel. rewrite (update_config_run _ _ Hrel).
  destruct (Z.eqb_spec (rep (start_reply config_buffer w)) Code_OK)
    as [Es|Es].
  - destruct (Z.eqb_spec (rep (end_reply config_buffer w)) Code_OK)
      as [Ee|Ee]; eexists _, _; (split; [reflexivity|]).
    + split; [tauto | intros H; destruct (H Es)].
    + split; [|intros H; destruct (H Es)].
      split; [discriminate | tauto].
  - eexists _, _. split; [reflexivity|]. split.
    + split; [discriminate | tauto].
    + intros _. repeat split.
Qed.

(** C3 (as the code has it): in a reload that goes through and in which the
    device answers OK to [update_start] and to [update_end], the entries
    written again, with the ids of the new pipeline description, are the
    default entry and the static configuration: the two built-in routes and,
    for ports 1 and 2, the MAC of the first interface with that port.
    Interfaces, next hops and pending queues are left as they were. *)
Theorem reload_repushes_static_config (config_buffer : list byte)
    (w : World) :
  reliable ->
  rep (start_reply config_buffer w) = Code_OK ->
  rep (end_reply config_buffer w) = Code_OK ->
  exists w' evs,
    update_config_ config_buffer w = Ret 0 w' /\
    ifaces w' = ifaces w /\ next_hops w' = next_hops w /\
    packet_queues w' = packet_queues w /\
    p4info w' = pi_add_config config_buffer /\
    log w' = log w ++ evs /\
    table_writes evs =
      repushed_entries (pi_add_config config_buffer) (ifaces w).
Proof.
  intros Hrel Hs He. rewrite (update_config_run _ _ Hrel), Hs, He.
  cbn [Z.eqb Code_OK].
  exists (world_reloaded config_buffer w),
    (EvUpdateStart (start_request config_buffer w)
                   (start_reply config_buffer w)
     :: write_events (log (world_started config_buffer w)) (dev_id w)
          (repushed_entries (pi_add_config config_buffer) (ifaces w))
     ++ [EvUpdateEnd (dev_id w) (end_reply config_buffer w)]).
  repeat split.
  - cbn. now rewrite <- !app_assoc.
  - cbn [table_writes].
    assert (H : forall evs e, table_writes evs = table_writes evs ->
                table_writes (evs ++ [EvUpdateEnd (dev_id w) e])
                = table_writes evs).
    { intros evs e _. induction evs as [|[] evs IH]; cbn; congruence. }
    rewrite H by reflexivity. apply table_writes_write_events.
Qed.


(** * Further properties *)

(** ** Round trips of the header codec *)

Ltac unfold_headers :=
  unfold set_cpu_header, set_eth_header, set_arp_header, store_u16,
    store_u32, mac_bytes, zeros8.

Lemma set_cpu_header_loads (reason port : Z) (rest : list byte) :
  uint16 reason -> uint16 port ->
  load_cpu_header (set_cpu_header reason port ++ rest) 0 =
    CpuHeader reason port.
Proof.
  intros Hr Hp. unfold_headers. load_fields.
  f_equal; apply u16_join; assumption.
Qed.

(** What [set_cpu_header] writes is what [PacketHandler] reads back: twelve
    bytes, the first eight zero (so the [memcmp] test passes), then the
    reason and the port as they were given. *)
Theorem cpu_header_round_trip (reason port : Z) (rest : list byte) :
  uint16 reason -> uint16 port ->
  length (set_cpu_header reason port) = 12%nat /\
  zeros_prefix (set_cpu_header reason port ++ rest) = true /\
  load_cpu_header (set_cpu_header reason port ++ rest) 0 =
    CpuHeader reason port.
Proof.
  intros Hr Hp. split; [reflexivity|]. split; [reflexivity|].
  now apply set_cpu_header_loads.
Qed.

(** What [set_eth_header] writes decodes to the same addresses and
    ethertype, and takes fourteen bytes. *)
Theorem eth_header_round_trip (dst src : mac_addr_t) (ethertype : Z)
    (rest : list byte) :
  uint16 ethertype ->
  length (set_eth_header dst src ethertype) = 14%nat /\
  load_eth_header (set_eth_header dst src ethertype ++ rest) 0 =
    EthHeader dst src ethertype.
Proof.
  intros He. split; [reflexivity|].
  unfold_headers. load_fields. destruct dst, src. cbn.
  f_equal. apply u16_join, He.
Qed.

(** What [set_arp_header] writes takes twenty-eight bytes and decodes, with
    the byte swaps of [PacketHandler], to hardware type 1, protocol type
    0x800, lengths 6 and 4 and the opcode and addresses given. *)
Theorem arp_header_round_trip (opcode : Z) (hw_src : mac_addr_t)
    (proto_src : Z) (hw_dst : mac_addr_t) (proto_dst : Z)
    (rest : list byte) :
  uint16 opcode -> uint32 proto_src -> uint32 proto_dst ->
  length (set_arp_header opcode hw_src proto_src hw_dst proto_dst)
    = 28%nat /\
  load_arp_header
    (set_arp_header opcode hw_src proto_src hw_dst proto_dst ++ rest) 0 =
    ArpHeader 1 0x800 6 4 opcode hw_src proto_src hw_dst proto_dst.
Proof.
  intros Ho Hs Hd. split; [reflexivity|].
  unfold_headers. load_fields. destruct hw_src, hw_dst. cbn.
  rewrite (u16_join opcode Ho), (u32_join proto_src Hs),
    (u32_join proto_dst Hd).
  reflexivity.
Qed.

(** [uint_to_string] gives two bytes for a [uint16_t] and four for a
    [uint32_t], most significant first; the value can be read back, so two
    different values never give the same match key or parameter. *)
Theorem uint_to_string_round_trip (x y : Z) :
  (uint16 x -> length (uint16_to_string x) = 2%nat /\
               load_u16 (uint16_to_string x) 0 = x) /\
  (uint32 x -> length (uint32_to_string x) = 4%nat /\
               load_u32 (uint32_to_string x) 0 = x) /\
  (uint16 x -> uint16 y -> uint16_to_string x = uint16_to_string y -> x = y) /\
  (uint32 x -> uint32 y -> uint32_to_string x = uint32_to_string y -> x = y).
Proof.
  assert (H16 : forall z, uint16 z -> load_u16 (uint16_to_string z) 0 = z).
  { intros z Hz. apply (load_store_u16 z [] [] Hz). }
  assert (H32 : forall z, uint32 z -> load_u32 (uint32_to_string z) 0 = z).
  { intros z Hz. apply (load_store_u32 z [] [] Hz). }
  repeat split; auto.
  - intros Hx Hy E. rewrite <- (H16 x Hx), <- (H16 y Hy), E. reflexivity.
  - intros Hx Hy E. rewrite <- (H32 x Hx), <- (H32 y Hy), E. reflexivity.
Qed.


(** ** What no operation undoes *)

Lemma keeps_ret (R : World -> World -> Prop) {A : Type} (a : A) :
  (forall w, R w w) -> keeps R (mret a).
Proof. intros Hrefl w. apply Hrefl. Qed.

Lemma keeps_get (R : World -> World -> Prop) :
  (forall w, R w w) -> keeps R get_world.
Proof. intros Hrefl w. apply Hrefl. Qed.

Lemma keeps_crash (R : World -> World -> Prop) {A : Type} (f : Fault) :
  (forall w, R w w) -> keeps R (@crash A f).
Proof. intros Hrefl w. apply Hrefl. Qed.

Lemma keeps_assert (R : World -> World -> Prop) (b : bool) :
  (forall w, R w w) -> keeps R (assert b).
Proof. intros Hrefl. destruct b; [apply keeps_ret | apply keeps_crash]; auto. Qed.

Lemma keeps_bind (R : World -> World -> Prop) {A B : Type} (m : M A)
    (k : A -> M B) :
  (forall w1 w2 w3, R w1 w2 -> R w2 w3 -> R w1 w3) ->
  keeps R m -> (forall a, keeps R (k a)) -> keeps R (m ≫= k).
Proof.
  intros Htrans Hm Hk w.
  destruct (world_of_bind m k w) as [E | (a & w' & Hr & E)]; rewrite E;
    [apply Hm|].
  eapply Htrans; [|apply Hk]. specialize (Hm w). now rewrite Hr in Hm.
Qed.

Lemma keeps_modify (R : World -> World -> Prop) (f : World -> World) :
  (forall w, R w (f w)) -> keeps R (modify f).
Proof. intros H w. apply H. Qed.

Lemma keeps_call (R : World -> World -> Prop) {Req Rep : Type}
    (stub : list Event -> Req -> Reply Rep) (ev : Req -> Reply Rep -> Event)
    (req : Req) :
  (forall w, R w (emit (ev req (stub (log w) req)) w)) ->
  keeps R (call stub ev req).
Proof. intros H w. apply H. Qed.

Lemma keeps_for_each (R : World -> World -> Prop) {A : Type}
    (f : A -> M unit) (l : list A) :
  (forall w, R w w) ->
  (forall w1 w2 w3, R w1 w2 -> R w2 w3 -> R w1 w3) ->
  (forall x, keeps R (f x)) -> keeps R (for_each f l).
Proof.
  intros Hrefl Htrans Hf. induction l as [|x l IH]; cbn [for_each].
  - now apply keeps_ret.
  - apply keeps_bind; auto.
Qed.

(** Splits a computation into its primitives; [leaf] proves [R w (f w)] for
    the single steps. *)
Ltac keeps_with refl trans leaf :=
  repeat first
    [ apply (keeps_ret _ _ refl)
    | apply (keeps_get _ refl)
    | apply (keeps_crash _ _ refl)
    | apply (keeps_assert _ _ refl)
    | apply (keeps_bind _ _ _ trans); [|intro]
    | apply keeps_for_each; [exact refl | exact trans | intro]
    | apply keeps_modify; intro; leaf
    | apply keeps_call; intro; leaf
    | match goal with
      | |- keeps _ (match ?x with _ => _ end) => destruct x
      | |- keeps _ (if ?x then _ else _) => destruct x
      end ].

Ltac unfold_ops :=
  unfold run_op, ignore, PacketHandler, handle_ip, handle_arp,
    handle_arp_request, handle_arp_reply, reinject, next_hops_at,
    send_arp_request, send_packetout, assign, send_init, recv_packet_in,
    add_route, add_iface,
    static_config, static_config_, add_route_, add_iface_, assign_mac_addr,
    add_arp_entry, set_default_entries, query_counter, CounterQueryHandler,
    query_counter_, update_config, update_config_, add_one_entry.

Lemma extends_refl (w : World) : extends w w.
Proof.
  repeat split; auto; exists []; now rewrite app_nil_r.
Qed.

Lemma extends_trans (w1 w2 w3 : World) :
  extends w1 w2 -> extends w2 w3 -> extends w1 w3.
Proof.
  intros (Hd & Ha & [l Hl] & Hn & [e He]) (Hd' & Ha' & [l' Hl'] & Hn' & [e' He']).
  split; [congruence|]. split; [congruence|]. split; [|split].
  - exists (l ++ l'). rewrite Hl', Hl. now rewrite app_assoc.
  - auto.
  - exists (e ++ e'). rewrite He', He. now rewrite app_assoc.
Qed.

Ltac extends_leaf :=
  split; [reflexivity|]; split; [reflexivity|]; split; [|split];
  [ first [ exists []; cbn; now rewrite app_nil_r
          | eexists; cbn; reflexivity ]
  | cbn; intros k' Hk';
    first [ exact Hk'
          | match goal with
            | |- is_Some (<[?k := _]> _ !! _) =>
                destruct (decide (k = k')) as [->|];
                [rewrite lookup_insert_eq; eauto
                | now rewrite lookup_insert_ne]
            end ]
  | first [ exists []; cbn; now rewrite app_nil_r
          | eexists; cbn; reflexivity ] ].

Lemma run_op_extends (op : Op) : keeps extends (run_op op).
Proof.
  destruct op; unfold_ops;
    keeps_with extends_refl extends_trans extends_leaf.
Qed.

(** Whatever the operation and however it ends, the device id and the
    [assigned] flag are unchanged, the interfaces that were there are still
    there, in place, every next hop still has an entry, and the log has only
    grown. *)
Theorem nothing_is_taken_back (op : Op) (w : World) :
  extends w (world_of (run_op op w)).
Proof. apply run_op_extends. Qed.


(** ** assign *)

(** [assign] tests the [assigned] flag and never sets it, so from a manager
    that is not assigned every call sends [DeviceAssign] again and, when the
    call goes through, announces the session on the packet stream again.
    What follows depends on the receive thread.  When it was not started
    yet, [recv_packet_in] starts it and [assign] returns the code of the
    reply.  When it was, the assignment to the joinable thread ends the
    process in [std::terminate].  Either way the manager is still not
    assigned afterwards; so once [assign] has returned, the next call of it
    does not return. *)
Theorem assign_always_sends (w : World) :
  let req := MkDeviceAssign (dev_id w) (p4info w)
               [("port", "9090");
                ("notifications", "ipc:///tmp/bmv2-0-notifications.ipc");
                ("cpu_iface", "veth251")]%string in
  let r := DeviceAssign dev (log w) req in
  let w1 := emit (EvDeviceAssign req r) w in
  let w2 := emit (EvPacketInit (dev_id w)) w1 in
  assigned w = false ->
  assign w =
    (if status_ok r
     then if recv_thread w then Crash Terminated w2
          else Ret (rep r) (set_recv_thread true w2)
     else Crash AssertFailed w1) /\
  assigned (world_of (assign w)) = false /\
  (forall rc w', assign w = Ret rc w' ->
   forall rc' w'', assign w' <> Ret rc' w'').
Proof.
  assert (E : forall v, assigned v = false ->
    assign v =
    let req := MkDeviceAssign (dev_id v) (p4info v)
                 [("port", "9090");
                  ("notifications", "ipc:///tmp/bmv2-0-notifications.ipc");
                  ("cpu_iface", "veth251")]%string in
    let r := DeviceAssign dev (log v) req in
    if status_ok r
    then if recv_thread v
         then Crash Terminated
                (emit (EvPacketInit (dev_id v)) (emit (EvDeviceAssign req r) v))
         else Ret (rep r)
                (set_recv_thread true
                   (emit (EvPacketInit (dev_id v))
                      (emit (EvDeviceAssign req r) v)))
    else Crash AssertFailed (emit (EvDeviceAssign req r) v)).
  { intros v Hv. unfold assign. run. rewrite Hv. cbv zeta.
    destruct (status_ok _); [|reflexivity]. proj.
    destruct (recv_thread v); reflexivity. }
  intros req r w1 w2 Ha. pose proof (E w Ha) as Ew. cbv zeta in Ew.
  fold req r in Ew. fold w1 in Ew. fold w2 in Ew.
  split; [exact Ew|]. split.
  - rewrite Ew. destruct (status_ok r); [destruct (recv_thread w)|];
      exact Ha.
  - intros rc w' Hret rc' w'' Hret'. rewrite Ew in Hret.
    destruct (status_ok r); [|discriminate].
    destruct (recv_thread w); [discriminate|].
    injection Hret as _ <-.
    rewrite E in Hret' by exact Ha. cbv zeta in Hret'. proj.
    revert Hret'. proj.
    destruct (status_ok _); discriminate.
Qed.

(** ** Calls of the public interface send no packet *)

Lemma packets_out_app (evs1 evs2 : list Event) :
  packets_out (evs1 ++ evs2) = packets_out evs1 ++ packets_out evs2.
Proof.
  induction evs1 as [|[] evs1 IH]; cbn; congruence.
Qed.

Lemma table_writes_app (evs1 evs2 : list Event) :
  table_writes (evs1 ++ evs2) = table_writes evs1 ++ table_writes evs2.
Proof.
  induction evs1 as [|[] evs1 IH]; cbn; congruence.
Qed.

Lemma no_packet_refl (w : World) : no_packet w w.
Proof. split; [reflexivity|]. exists []. now rewrite app_nil_r. Qed.

Lemma no_packet_trans (w1 w2 w3 : World) :
  no_packet w1 w2 -> no_packet w2 w3 -> no_packet w1 w3.
Proof.
  intros (Hq & e & He & Hp) (Hq' & e' & He' & Hp').
  split; [congruence|]. exists (e ++ e'). split.
  - rewrite He', He. now rewrite app_assoc.
  - rewrite packets_out_app, Hp, Hp'. reflexivity.
Qed.

Ltac no_packet_leaf :=
  split; [reflexivity|];
  first [ exists []; split; [cbn; now rewrite app_nil_r | reflexivity]
        | eexists; split; [cbn; reflexivity | reflexivity] ].

(** A call of the public interface (assign, add_route, add_iface,
    set_default_entries, static_config, query_counter, update_config),
    however it ends, sends no packet on the packet stream and leaves the
    pending queues as they are: packets leave only while a punted packet is
    handled. *)
Theorem interface_calls_send_no_packet (op : Op) (w : World) :
  (forall pkt, op <> OpPacket pkt) ->
  packet_queues (world_of (run_op op w)) = packet_queues w /\
  exists evs, log (world_of (run_op op w)) = log w ++ evs /\
              packets_out evs = [].
Proof.
  intros Hop. change (no_packet w (world_of (run_op op w))).
  revert w. change (keeps no_packet (run_op op)).
  destruct op; [destruct (Hop pkt eq_refl)| | | | | | |]; unfold_ops;
    keeps_with no_packet_refl no_packet_trans no_packet_leaf.
Qed.


(** ** Misses and unsolicited replies *)

Lemma handle_arp_request_run (arp_header : arp_header_t) (w : World) :
  handle_arp_request arp_header w =
  Ret tt match find (fun iface => ip_addr iface =? proto_dst_addr arp_header)
                    (ifaces w) with
         | Some iface => emit (EvPacketOut (arp_reply_packet iface arp_header)) w
         | None => w
         end.
Proof.
  unfold handle_arp_request, send_packetout. run.
  destruct (find _ (ifaces w)); reflexivity.
Qed.

(** A punted packet with reason NO_ARP_ENTRY whose destination has no
    next-hop entry is dropped: no queue is created, no ARP request is sent,
    nothing changes. *)
Theorem miss_without_route_is_dropped (pkt : Packet) (w : World) :
  is_size_t (Z.of_nat (length pkt)) = true ->
  malformed pkt = false ->
  load_u16 pkt 8 = NO_ARP_ENTRY ->
  next_hops w !! load_ipv4_dst_addr pkt 26 = None ->
  PacketHandler pkt w = Ret tt w.
Proof.
  intros Hfit Hm Hreason Hnh.
  rewrite (PacketHandler_shape pkt Hfit), Hm, Hreason, Z.eqb_refl.
  now rewrite handle_ip_run, Hnh.
Qed.

(** The first miss for a destination with a next hop creates its queue,
    holding just that packet.  The ARP request leaves only if an interface
    has the next hop's port: when none has, the packet is queued all the
    same and nothing is sent. *)
Theorem first_miss_creates_queue (pkt : Packet) (w : World) (port : Z) :
  let dst := load_ipv4_dst_addr pkt 26 in
  is_size_t (Z.of_nat (length pkt)) = true ->
  malformed pkt = false ->
  load_u16 pkt 8 = NO_ARP_ENTRY ->
  next_hops w !! dst = Some port ->
  packet_queues w !! dst = None ->
  PacketHandler pkt w =
    Ret tt (emit_all
              match find (fun iface => port_num iface =? port) (ifaces w)
              with
              | Some iface => [EvPacketOut (arp_request_packet iface port dst)]
              | None => []
              end
              (set_packet_queues (<[dst := [pkt]]> (packet_queues w)) w)) /\
  ((forall iface, In iface (ifaces w) -> port_num iface <> port) ->
   PacketHandler pkt w =
     Ret tt (set_packet_queues (<[dst := [pkt]]> (packet_queues w)) w)).
Proof.
  intros dst Hfit Hm Hreason Hnh Hq.
  assert (Hrun : PacketHandler pkt w =
    Ret tt (emit_all
              match find (fun iface => port_num iface =? port) (ifaces w)
              with
              | Some iface => [EvPacketOut (arp_request_packet iface port dst)]
              | None => []
              end
              (set_packet_queues (<[dst := [pkt]]> (packet_queues w)) w))).
  { rewrite (PacketHandler_shape pkt Hfit), Hm, Hreason, Z.eqb_refl.
    fold dst. rewrite handle_ip_run, Hnh, Hq, send_arp_request_run.
    cbn [default app]. proj. f_equal.
    destruct (find _ (ifaces w)); [reflexivity|]. now rewrite emit_all_nil. }
  split; [exact Hrun|]. intros Hnone. rewrite Hrun.
  destruct (find _ (ifaces w)) as [iface|] eqn:Hfind.
  - apply find_some in Hfind. destruct Hfind as [Hin Hp].
    apply Z.eqb_eq in Hp. destruct (Hnone _ Hin Hp).
  - now rewrite emit_all_nil.
Qed.

(** An ARP reply (opcode 2) from a sender nobody waits for, whether or not
    the sender is a next hop: the entry [sender IP -> sender MAC] is written
    to the device all the same, the error count of the write is not looked
    at, no packet is sent and the manager's state is unchanged. *)
Theorem unsolicited_arp_reply_installs_entry (pkt : Packet) (w : World) :
  let arp_header := load_arp_header pkt 26 in
  let req := MkTableWrite (dev_id w) INSERT
               (arp_entry (p4info w) (proto_src_addr arp_header)
                          (hw_src_addr arp_header)) in
  let r := TableWrite dev (log w) req in
  is_size_t (Z.of_nat (length pkt)) = true ->
  malformed pkt = false ->
  load_u16 pkt 8 = ARP_MSG ->
  opcode arp_header = 2 ->
  packet_queues w !! proto_src_addr arp_header = None ->
  status_ok r = true ->
  PacketHandler pkt w = Ret tt (emit (EvTableWrite req r) w).
Proof.
  intros arp_header req r Hfit Hm Hreason Hop Hq Hok.
  rewrite (PacketHandler_shape pkt Hfit), Hm, Hreason.
  change (ARP_MSG =? NO_ARP_ENTRY) with false. cbv iota. fold arp_header.
  unfold handle_arp. rewrite Hop. cbn [Z.eqb Pos.eqb].
  unfold handle_arp_reply, add_arp_entry. rewrite !bind_run.
  cbv [get_world]. rewrite add_one_entry_run. fold req r. rewrite Hok.
  rewrite bind_run. proj. rewrite Hq. reflexivity.
Qed.

(** In a reachable world the handling of a punted packet, whatever the
    packet and however the handling ends, leaves the configuration alone:
    device id, pipeline description, interfaces and next-hop table.  In
    particular [next_hops[dst_addr]] in the loop of [handle_arp_reply] never
    inserts an entry. *)
Theorem packets_leave_config_alone (pkt : Packet) (w : World) :
  is_size_t (Z.of_nat (length pkt)) = true ->
  reachable w ->
  same_config w (world_of (PacketHandler pkt w)).
Proof.
  intros Hfit Hr. pose proof (reachable_Inv w Hr) as HI.
  rewrite (PacketHandler_shape pkt Hfit).
  destruct (malformed pkt); [repeat split|].
  destruct (_ =? NO_ARP_ENTRY).
  - rewrite handle_ip_run. destruct (next_hops w !! _); [|repeat split].
    rewrite send_arp_request_run. destruct (find _ _); repeat split.
  - unfold handle_arp. destruct (_ =? 1).
    + rewrite handle_arp_request_run. destruct (find _ _); repeat split.
    + destruct (_ =? 2); [|repeat split].
      rewrite (handle_arp_reply_run _ w HI).
      destruct (status_ok _); [|repeat split].
      destruct (packet_queues w !! _); repeat split.
Qed.


(** ** What is on the wire *)

(** The ARP request of [send_arp_request] is 54 bytes: a CPU header with
    reason ARP_MSG and the egress port, an Ethernet header from the
    interface's MAC to the broadcast address with ethertype 0x0806, and an
    ARP header with opcode 1 asking, from the interface's MAC and IP, for
    the unresolved address. *)
Theorem arp_request_on_the_wire (iface : Iface) (port dst_addr : Z) :
  iface_ok iface -> uint16 port -> uint32 dst_addr ->
  length (arp_request_packet iface port dst_addr) = 54%nat /\
  load_cpu_header (arp_request_packet iface port dst_addr) 0 =
    CpuHeader ARP_MSG port /\
  load_eth_header (arp_request_packet iface port dst_addr) 12 =
    EthHeader broadcast_addr (mac_addr iface) 0x0806 /\
  load_arp_header (arp_request_packet iface port dst_addr) 26 =
    ArpHeader 1 0x800 6 4 1 (mac_addr iface) (ip_addr iface)
              broadcast_addr dst_addr.
Proof.
  intros [_ Hip] Hport Hdst. split; [reflexivity|].
  unfold arp_request_packet. split; [|split].
  - apply set_cpu_header_loads; [unfold uint16, ARP_MSG; lia | exact Hport].
  - unfold_headers. load_fields. destruct (mac_addr iface). reflexivity.
  - unfold_headers. load_fields.
    rewrite (u32_join _ Hip), (u32_join _ Hdst).
    destruct (mac_addr iface). reflexivity.
Qed.

(** A packet that [handle_arp_reply] sends on carries reason DATA_PKT and
    the egress port in its CPU header; should such a packet be punted back,
    [PacketHandler] drops it without any effect. *)
Theorem reinjected_is_data_packet (port : Z) (mac : mac_addr_t) (p : Packet)
    (w : World) :
  uint16 port ->
  is_size_t (Z.of_nat (length (reinjected port mac p))) = true ->
  load_cpu_header (reinjected port mac p) 0 = CpuHeader DATA_PKT port /\
  PacketHandler (reinjected port mac p) w = Ret tt w.
Proof.
  intros Hport Hfit.
  assert (Hcpu : load_cpu_header (reinjected port mac p) 0
                 = CpuHeader DATA_PKT port).
  { unfold reinjected.
    apply set_cpu_header_loads; [unfold uint16, DATA_PKT; lia | exact Hport]. }
  split; [exact Hcpu|].
  rewrite (PacketHandler_shape _ Hfit).
  assert (Hm : malformed (reinjected port mac p) = true).
  { unfold malformed.
    assert (Hreason : load_u16 (reinjected port mac p) 8 = DATA_PKT)
      by exact (f_equal reason Hcpu).
    rewrite Hreason. change (DATA_PKT =? NO_ARP_ENTRY) with false.
    change (DATA_PKT =? ARP_MSG) with false. cbv iota.
    now rewrite orb_true_r. }
  now rewrite Hm.
Qed.

(** ** What the pending queues hold *)

Lemma api_op_queues (op : Op) (w w' : World) :
  (forall pkt, op <> OpPacket pkt) -> well_typed op = true ->
  run_op op w = Ret tt w' -> packet_queues w' = packet_queues w.
Proof.
  intros Hop Hty Hrun. destruct op; cbn [run_op well_typed] in *.
  - destruct (Hop pkt eq_refl).
  - exact (quiet_queues_ret _ _ _ _ (quiet_ignore _ quiet_assign) Hrun).
  - exact (quiet_queues_ret _ _ _ _
             (quiet_ignore _ (quiet_add_route _ _ _ _)) Hrun).
  - apply andb_true_iff in Hty. destruct Hty as [Hp Ha].
    refine (quiet_queues_ret _ _ _ _ (quiet_add_iface' _ _ _ _) Hrun).
    unfold is_uint16, is_uint32 in *. unfold iface_ok, uint16, uint32. cbn.
    lia.
  - exact (quiet_queues_ret _ _ _ _
             (quiet_ignore _ quiet_set_default_entries) Hrun).
  - exact (quiet_queues_ret _ _ _ _
             (quiet_ignore _ quiet_static_config) Hrun).
  - exact (quiet_queues_ret _ _ _ _
             (quiet_ignore _ (quiet_query_counter _ _)) Hrun).
  - exact (quiet_queues_ret _ _ _ _
             (quiet_ignore _ (quiet_update_config _)) Hrun).
Qed.

Lemma PacketHandler_queue_change (pkt : Packet) (w : World) :
  is_size_t (Z.of_nat (length pkt)) = true ->
  let w' := world_of (PacketHandler pkt w) in
  let dst := load_ipv4_dst_addr pkt 26 in
  packet_queues w' = packet_queues w \/
  (queued_for dst pkt /\
   packet_queues w' =
   <[dst := default [] (packet_queues w !! dst) ++ [pkt]]>
     (packet_queues w)) \/
  (exists d, packet_queues w' = delete d (packet_queues w)).
Proof.
  intros Hfit. cbn zeta. rewrite (PacketHandler_shape pkt Hfit).
  destruct (malformed pkt) eqn:Hm; [now left|].
  destruct (Z.eqb_spec (load_u16 pkt 8) NO_ARP_ENTRY) as [E0|E0].
  - rewrite handle_ip_run.
    destruct (next_hops w !! _) as [port|] eqn:E; [|now left].
    right; left. split; [repeat split; assumption|].
    now rewrite (quiet_queues _ _ (quiet_send_arp_request _ _)).
  - unfold handle_arp. destruct (_ =? 1).
    { left. apply quiet_queues, quiet_handle_arp_request. }
    destruct (_ =? 2); [|now left].
    destruct (handle_arp_reply_queues (load_arp_header pkt 26) w); eauto.
Qed.

Lemma reachable_queued_for (w : World) :
  reachable w ->
  forall dst q p, packet_queues w !! dst = Some q -> In p q ->
                  queued_for dst p.
Proof.
  induction 1 as [d p0 | w op w' _ IH Hty Hrun]; intros dst q p Hq Hin.
  { cbn in Hq. now rewrite lookup_empty in Hq. }
  destruct op as [pkt| | | | | | |].
  2-8: (assert (Hs : packet_queues w' = packet_queues w)
          by (eapply api_op_queues; [|exact Hty|exact Hrun];
              intros ?; discriminate);
        rewrite Hs in Hq; eauto).
  cbn [run_op well_typed] in *.
  pose proof (PacketHandler_queue_change pkt w Hty) as H. cbn zeta in H.
  rewrite Hrun in H. cbn [world_of] in H.
  destruct H as [H | [[Hpkt H] | [d H]]]; rewrite H in Hq.
  - eauto.
  - destruct (decide (load_ipv4_dst_addr pkt 26 = dst)) as [Hd|Hd].
    + rewrite Hd, lookup_insert_eq in Hq. injection Hq as <-.
      apply in_app_or in Hin. destruct Hin as [Hin | [<- | []]].
      * destruct (packet_queues w !! dst) as [q0|] eqn:E; [|destruct Hin].
        eauto.
      * now rewrite <- Hd.
    + rewrite lookup_insert_ne in Hq by assumption. eauto.
  - apply lookup_delete_Some in Hq. destruct Hq as [_ Hq]. eauto.
Qed.

(** In every reachable world, each packet of a pending queue is a punted
    packet that passed the checks of [PacketHandler], has reason
    NO_ARP_ENTRY and has the key of its queue as IPv4 destination: a queue
    never holds a packet for another destination. *)
Theorem queued_packets_belong (w : World) :
  reachable w ->
  forall (dst : Z) (q : PacketQueue) (p : Packet),
    packet_queues w !! dst = Some q -> In p q ->
    malformed p = false /\ load_u16 p 8 = NO_ARP_ENTRY /\
    load_ipv4_dst_addr p 26 = dst.
Proof.
  intros Hr dst q p Hq Hin. exact (reachable_queued_for w Hr dst q p Hq Hin).
Qed.


(** ** The ARP reply that was waited for *)

(** C1: in a reachable world where the destination [dst] has a pending
    queue [q] (never empty there), handling an ARP reply (opcode 2) whose
    sender address is [dst], with the table write going through, writes the
    exact-match entry [dst -> sender MAC] to the device, then sends every
    packet of [q] exactly once and in queue order, each with its Ethernet
    destination replaced by the sender MAC (and a DATA_PKT CPU header naming
    the next hop's port), and leaves no queue for [dst].  The entry written
    is in table "forward": one exact match on the field
    "routing_metadata.nhop_ipv4" whose four bytes read back as [dst], and
    the action "set_dmac" with the one parameter "dmac" whose six bytes
    read back as the sender MAC. *)
Theorem arp_reply_drains_queue (arp_header : arp_header_t) (w : World)
    (q : PacketQueue) :
  let dst := proto_src_addr arp_header in
  let mac := hw_src_addr arp_header in
  let req := MkTableWrite (dev_id w) INSERT (arp_entry (p4info w) dst mac) in
  let r := TableWrite dev (log w) req in
  reachable w ->
  opcode arp_header = 2 ->
  packet_queues w !! dst = Some q ->
  status_ok r = true ->
  exists port,
    next_hops w !! dst = Some port /\ q <> [] /\
    handle_arp arp_header w =
      Ret tt (set_packet_queues (delete dst (packet_queues w))
                (emit_all
                   (EvTableWrite req r ::
                    map (fun p => EvPacketOut (reinjected port mac p)) q)
                   w)) /\
    packet_queues (world_of (handle_arp arp_header w)) !! dst = None /\
    (forall p, In p q ->
      length (reinjected port mac p) = length p /\
      load_mac (reinjected port mac p) 12 = mac /\
      skipn 18 (reinjected port mac p) = skipn 18 p) /\
    exists key dmac,
      tw_entry req =
        MkTableEntry
          (pi_p4info_table_id_from_name (p4info w) "forward")
          [Exact (pi_p4info_field_id_from_name (p4info w)
                    "routing_metadata.nhop_ipv4") key]
          (MkAction
             (pi_p4info_action_id_from_name (p4info w) "set_dmac")
             [Param (pi_p4info_action_param_id_from_name (p4info w)
                       (pi_p4info_action_id_from_name (p4info w) "set_dmac")
                       "dmac") dmac]) /\
      length key = 4%nat /\ load_u32 key 0 = dst /\
      length dmac = 6%nat /\ load_mac dmac 0 = mac.
Proof.
  intros dst mac req r Hr Hop Hq Hok.
  destruct (reachable_Inv w Hr) as (Hi & Hp & _).
  destruct (Hi _ _ Hq) as [[port Hnh] Hne].
  assert (Hlen : forall p, In p q -> (18 <= length p)%nat).
  { intros p Hin. pose proof (Hp _ _ _ Hq Hin). lia. }
  assert (Hdst : uint32 dst).
  { destruct q as [|p0 q0]; [contradiction|].
    destruct (reachable_queued_for w Hr dst (p0 :: q0) p0 Hq (or_introl eq_refl))
      as (_ & _ & <-).
    apply load_u32_range. }
  assert (Hrun : handle_arp arp_header w =
      Ret tt (set_packet_queues (delete dst (packet_queues w))
                (emit_all
                   (EvTableWrite req r ::
                    map (fun p => EvPacketOut (reinjected port mac p)) q)
                   w))).
  { unfold handle_arp. rewrite Hop. cbn [Z.eqb Pos.eqb].
    unfold handle_arp_reply, add_arp_entry. fold dst mac.
    rewrite !bind_run. cbv [get_world]. rewrite add_one_entry_run.
    fold req r. rewrite Hok, bind_run. proj. rewrite Hq.
    rewrite bind_run, (for_each_reinject _ _ port) by auto.
    rewrite emit_all_cons. reflexivity. }
  exists port. split; [exact Hnh|]. split; [exact Hne|].
  split; [exact Hrun|]. split; [|split].
  - rewrite Hrun. cbn. apply lookup_delete_eq.
  - intros p Hin. apply reinjected_spec; auto.
  - exists (uint32_to_string dst), (mac_bytes mac).
    split; [reflexivity|]. split; [reflexivity|]. split.
    + apply (load_store_u32 dst [] [] Hdst).
    + split; [reflexivity|]. apply (load_store_mac mac [] []).
Qed.

(** ** From the first miss to the delivery *)

Lemma miss_run (pkt : Packet) (w : World) (port : Z) :
  let dst := load_ipv4_dst_addr pkt 26 in
  is_size_t (Z.of_nat (length pkt)) = true ->
  malformed pkt = false ->
  load_u16 pkt 8 = NO_ARP_ENTRY ->
  next_hops w !! dst = Some port ->
  PacketHandler pkt w =
  Ret tt (emit_all
            match find (fun iface => port_num iface =? port) (ifaces w) with
            | Some iface => [EvPacketOut (arp_request_packet iface port dst)]
            | None => []
            end
            (set_packet_queues
               (<[dst := default [] (packet_queues w !! dst) ++ [pkt]]>
                  (packet_queues w)) w)).
Proof.
  intros dst Hfit Hm Hreason Hnh.
  rewrite (PacketHandler_shape pkt Hfit), Hm, Hreason, Z.eqb_refl.
  fold dst. rewrite handle_ip_run, Hnh, send_arp_request_run.
  proj. f_equal.
  destruct (find _ (ifaces w)); [reflexivity|]. now rewrite emit_all_nil.
Qed.

(** A destination with a next hop and no pending queue, in a reachable
    world, over a device whose calls go through: a miss for it followed by
    the ARP reply of that destination sends the ARP request (when an
    interface has the port) and then the packet itself, rewritten for the
    replying MAC; writes the one ARP entry; and leaves the pending queues
    exactly as they were before the miss. *)
Theorem miss_then_reply_delivers (pkt rp : Packet) (w : World) (port : Z) :
  let dst := load_ipv4_dst_addr pkt 26 in
  let arp_header := load_arp_header rp 26 in
  reliable -> reachable w ->
  is_size_t (Z.of_nat (length pkt)) = true ->
  malformed pkt = false -> load_u16 pkt 8 = NO_ARP_ENTRY ->
  next_hops w !! dst = Some port ->
  packet_queues w !! dst = None ->
  is_size_t (Z.of_nat (length rp)) = true ->
  malformed rp = false -> load_u16 rp 8 = ARP_MSG ->
  opcode arp_header = 2 -> proto_src_addr arp_header = dst ->
  exists w1 w2,
    PacketHandler pkt w = Ret tt w1 /\
    PacketHandler rp w1 = Ret tt w2 /\
    packet_queues w2 = packet_queues w /\
    packets_out (log w2) =
      packets_out (log w) ++
      match find (fun iface => port_num iface =? port) (ifaces w) with
      | Some iface => [arp_request_packet iface port dst]
      | None => []
      end ++ [reinjected port (hw_src_addr arp_header) pkt] /\
    table_writes (log w2) =
      table_writes (log w) ++
      [arp_entry (p4info w) dst (hw_src_addr arp_header)].
Proof.
  intros dst arp_header Hrel Hr Hfit Hm Hreason Hnh Hq Hfit' Hm' Hreason'
    Hop Hsrc.
  pose proof (miss_run pkt w port Hfit Hm Hreason Hnh) as H1.
  fold dst in H1. rewrite Hq in H1. cbn [default app] in H1.
  eexists _, _. split; [exact H1|].
  match type of H1 with _ = Ret tt ?x => set (w1 := x) in * end.
  assert (Hr1 : reachable w1).
  { apply (reachable_step w (OpPacket pkt) w1 Hr); [exact Hfit | exact H1]. }
  pose proof (reachable_Inv w1 Hr1) as HI1.
  assert (H2 : PacketHandler rp w1 = handle_arp_reply arp_header w1).
  { rewrite (PacketHandler_shape rp Hfit'), Hm', Hreason'.
    change (ARP_MSG =? NO_ARP_ENTRY) with false. cbv iota.
    fold arp_header. unfold handle_arp. now rewrite Hop. }
  rewrite H2, (handle_arp_reply_run arp_header w1 HI1), Hsrc.
  destruct Hrel as (_ & Htw & _). rewrite Htw.
  assert (Hq1 : packet_queues w1 !! dst = Some [pkt]).
  { subst w1. cbn. apply lookup_insert_eq. }
  assert (Hn1 : next_hops w1 !! dst = Some port) by exact Hnh.
  rewrite Hq1, Hn1. cbn [default map].
  split; [reflexivity|]. cbn [packet_queues set_packet_queues emit_all log].
  split; [|split].
  - subst w1. cbn. now apply delete_insert_id.
  - subst w1. cbn [log emit_all set_packet_queues].
    rewrite <- app_assoc, !packets_out_app.
    destruct (find _ (ifaces w)); reflexivity.
  - subst w1. cbn [log emit_all set_packet_queues p4info].
    rewrite <- app_assoc, !table_writes_app.
    destruct (find _ (ifaces w)); cbn; now rewrite ?app_nil_r.
Qed.


(** ** When the process aborts *)

(** Over a device whose calls all go through, from a reachable world and
    with arguments of their types, every operation returns, with two
    exceptions: a punted ARP message whose opcode is neither 1 nor 2, which
    fails the assertion of [handle_arp], and [assign] when the receive
    thread was started before, that is a second [assign], which ends in
    [std::terminate].  No other call of the public interface and no other
    packet stops the process in the code of this file, and no operation
    writes outside a queued packet.  The pipeline-description library is
    taken as the model has it, its lookups and its parser always returning:
    an abort inside that library is not covered. *)
Theorem reliable_device_never_aborts (op : Op) (w : World) :
  reliable -> reachable w -> well_typed op = true ->
  (exists w', run_op op w = Ret tt w') \/
  (exists pkt, op = OpPacket pkt /\ malformed pkt = false /\
               load_u16 pkt 8 = ARP_MSG /\
               opcode (load_arp_header pkt 26) <> 1 /\
               opcode (load_arp_header pkt 26) <> 2) \/
  (op = OpAssign /\ recv_thread w = true /\
   exists w', run_op op w = Crash Terminated w').
Proof.
  intros Hrel Hr Hty. pose proof (reachable_Inv w Hr) as HI.
  pose proof Hrel as (Has & Htw & Hcr & _).
  destruct op as [pkt| |prefix pLen nhop rport|iport ip mac| | |name index|buf];
    cbn [run_op well_typed] in *.
  - rewrite (PacketHandler_shape pkt Hty).
    destruct (malformed pkt) eqn:Hm; [left; eexists; reflexivity|].
    destruct (Z.eqb_spec (load_u16 pkt 8) NO_ARP_ENTRY) as [E0|E0].
    { left. rewrite handle_ip_run.
      destruct (next_hops w !! _); [|eexists; reflexivity].
      rewrite send_arp_request_run. eexists; reflexivity. }
    destruct (malformed_false_reason pkt Hm) as [E|Hreason]; [easy|].
    unfold handle_arp.
    destruct (Z.eqb_spec (opcode (load_arp_header pkt 26)) 1) as [E1|E1].
    { left. rewrite handle_arp_request_run. eexists; reflexivity. }
    destruct (Z.eqb_spec (opcode (load_arp_header pkt 26)) 2) as [E2|E2].
    + left. rewrite (handle_arp_reply_run _ w HI), Htw. eexists; reflexivity.
    + right. left. exists pkt. auto.
  - rewrite ignore_run. unfold assign. run.
    destruct (assigned w); [left; eexists; reflexivity|].
    rewrite Has. proj.
    destruct (recv_thread w) eqn:Hth.
    + right. right. split; [reflexivity|]. split; [reflexivity|].
      eexists; reflexivity.
    + left. eexists; reflexivity.
  - left. rewrite ignore_run. unfold add_route, add_route_. run.
    rewrite add_one_entry_run. proj. rewrite Htw. eexists; reflexivity.
  - left. unfold add_iface. rewrite bind_run.
    change (add_iface_ iport ip mac CONTROLLER_STATE w)
      with (Ret tt (set_ifaces (ifaces w ++ [MkIface iport ip mac]) w)).
    cbv beta iota. rewrite (add_iface_device_ok _ _ _ _ Hrel). eexists; reflexivity.
  - left. rewrite ignore_run, (set_default_entries_ok _ Hrel).
    eexists; reflexivity.
  - left. rewrite ignore_run. unfold static_config. rewrite bind_run.
    change (static_config_ CONTROLLER_STATE w) with
      (Ret 0
         (set_ifaces
            ((ifaces w ++ [MkIface 1 0x0a000001 hw1]) ++
             [MkIface 2 0x0a000101 hw2])
            (set_next_hops
               (<[0x0a00010a := 2]> (<[0x0a00000a := 1]> (next_hops w)))
               w))).
    cbv beta iota. rewrite bind_run, (static_config_device_ok _ Hrel).
    eexists; reflexivity.
  - left. rewrite ignore_run.
    unfold query_counter, CounterQueryHandler, query_counter_. run.
    destruct (_ =? PI_INVALID_ID); [eexists; reflexivity|].
    rewrite Hcr. destruct (find _ _) as [e|]; cbn [Z.eqb];
      [|eexists; reflexivity].
    destruct (packets (ce_data e) =? packets_max); eexists; reflexivity.
  - left. rewrite ignore_run. unfold update_config.
    rewrite (update_config_run _ _ Hrel).
    destruct (_ =? Code_OK); [|eexists; reflexivity].
    destruct (_ =? Code_OK); eexists; reflexivity.
Qed.


(** ** Reading a counter *)

(** For a known counter and a read that goes through, [query_counter]
    answers with the first entry of the reply whose counter id and index
    are the ones asked for: 0 with that entry's packets and bytes, or 1 when
    no entry matches (or when the packet count is the all-ones value).  One
    [CounterRead] is logged and nothing else changes. *)
Theorem query_counter_reads_first_match (counter_name : string) (index : Z)
    (w : World) :
  let counter_id := pi_p4info_counter_id_from_name (p4info w) counter_name in
  let req := MkCounterRead (dev_id w) [counter_id] in
  let r := CounterRead dev (log w) req in
  counter_id <> PI_INVALID_ID ->
  status_ok r = true ->
  query_counter counter_name index w =
  Ret match find (fun e => (ce_counter_id e mod 2 ^ 32 =? counter_id)
                           && (ce_index e mod 2 ^ 64 =? index)) (rep r) with
      | Some e =>
          if packets (ce_data e) =? 2 ^ 64 - 1 then (1, None)
          else (0, Some (packets (ce_data e), bytes (ce_data e)))
      | None => (1, None)
      end
      (emit (EvCounterRead req r) w).
Proof.
  intros counter_id req r Hid Hok.
  unfold query_counter, CounterQueryHandler, query_counter_. run.
  fold counter_id. apply Z.eqb_neq in Hid. rewrite Hid. fold req r.
  rewrite Hok. destruct (find _ (rep r)) as [e|]; cbn [Z.eqb].
  - destruct (ce_data e) as [pk bt]. cbn [packets bytes].
    change (2 ^ 64 - 1) with packets_max.
    destruct (pk =? packets_max); reflexivity.
  - reflexivity.
Qed.

(** ** More on the reload *)

(** When the device accepts [update_start] but answers [update_end] with
    another code than OK, the reload returns 1 although everything has been
    written again: the new description is installed and the default entry
    and the static configuration have been sent with its ids. *)
Theorem reload_end_refused (config_buffer : list byte) (w : World) :
  reliable ->
  rep (start_reply config_buffer w) = Code_OK ->
  rep (end_reply config_buffer w) <> Code_OK ->
  exists w' evs,
    update_config_ config_buffer w = Ret 1 w' /\
    p4info w' = pi_add_config config_buffer /\
    log w' = log w ++ evs /\
    table_writes evs =
      repushed_entries (pi_add_config config_buffer) (ifaces w).
Proof.
  intros Hrel Hs He. rewrite (update_config_run _ _ Hrel), Hs.
  apply Z.eqb_neq in He. rewrite He. cbn [Z.eqb Code_OK].
  exists (world_reloaded config_buffer w),
    ((EvUpdateStart (start_request config_buffer w)
                    (start_reply config_buffer w)
      :: write_events (log (world_started config_buffer w)) (dev_id w)
           (repushed_entries (pi_add_config config_buffer) (ifaces w)))
     ++ [EvUpdateEnd (dev_id w) (end_reply config_buffer w)]).
  repeat split.
  - cbn. now rewrite <- !app_assoc.
  - rewrite table_writes_app. cbn [table_writes]. rewrite app_nil_r.
    apply table_writes_write_events.
Qed.

(** Once a reload has returned, with 0 or with 1, every entry is built
    with the ids of the new description: a route added next is written with
    them, also when the device had refused the new pipeline. *)
Theorem entries_after_reload_use_new_ids (config_buffer : list byte)
    (w w' : World) (rc prefix pLen nhop port : Z) :
  reliable ->
  update_config_ config_buffer w = Ret rc w' ->
  table_writes (log (world_of (add_route prefix pLen nhop port w'))) =
  table_writes (log w') ++
  [route_entry (pi_add_config config_buffer) pLen nhop port].
Proof.
  intros Hrel Hrun. rewrite (update_config_run _ _ Hrel) in Hrun.
  assert (Hp : p4info w' = pi_add_config config_buffer).
  { destruct (_ =? Code_OK) in Hrun; [destruct (_ =? Code_OK) in Hrun|];
      injection Hrun as _ <-; reflexivity. }
  unfold add_route, add_route_. run. rewrite add_one_entry_run. proj.
  rewrite Hp. destruct (status_ok _); proj; rewrite table_writes_app;
    reflexivity.
Qed.

(** ** Routes and interfaces *)

(** [add_route] for a next hop that already has an entry overwrites the
    port in the next-hop table, and leaves every other next hop as it is;
    the device is sent a second INSERT for the same key, after the first. *)
Theorem add_route_overwrites (prefix1 pLen1 prefix2 pLen2 nhop port1 port2 : Z)
    (w : World) :
  (forall h q, status_ok (TableWrite dev h q) = true) ->
  exists rc1 rc2 w1 w2,
    add_route prefix1 pLen1 nhop port1 w = Ret rc1 w1 /\
    add_route prefix2 pLen2 nhop port2 w1 = Ret rc2 w2 /\
    next_hops w2 !! nhop = Some port2 /\
    (forall k, k <> nhop -> next_hops w2 !! k = next_hops w !! k) /\
    table_writes (log w2) =
      table_writes (log w) ++
      [route_entry (p4info w) pLen1 nhop port1;
       route_entry (p4info w) pLen2 nhop port2].
Proof.
  intros Htw.
  assert (Hrun : forall prefix pLen port w0,
    add_route prefix pLen nhop port w0 =
    Ret (Z.of_nat (length (tw_errors (rep
           (TableWrite dev (log w0)
              (MkTableWrite (dev_id w0) INSERT
                 (route_entry (p4info w0) pLen nhop port)))))))
        (emit (EvTableWrite
                 (MkTableWrite (dev_id w0) INSERT
                    (route_entry (p4info w0) pLen nhop port))
                 (TableWrite dev (log w0)
                    (MkTableWrite (dev_id w0) INSERT
                       (route_entry (p4info w0) pLen nhop port))))
              (set_next_hops (<[nhop := port]> (next_hops w0)) w0))).
  { intros prefix pLen port w0. unfold add_route, add_route_. run.
    rewrite add_one_entry_run. proj. now rewrite Htw. }
  eexists _, _, _, _. split; [apply Hrun|]. split; [apply Hrun|].
  proj. split; [apply lookup_insert_eq|]. split.
  - intros k Hk. now rewrite !lookup_insert_ne by auto.
  - rewrite !table_writes_app. cbn. now rewrite <- app_assoc.
Qed.

Lemma find_snoc {A : Type} (f : A -> bool) (l : list A) (x : A) :
  find f (l ++ [x]) =
  match find f l with
  | Some y => Some y
  | None => if f x then Some x else None
  end.
Proof.
  induction l as [|a l IH]; cbn; [reflexivity|]. now destruct (f a).
Qed.

(** [add_iface] appends the interface and then writes one source-MAC entry
    for its port.  The MAC written is the one of the first interface with
    that port: when the port was already configured, the device is sent the
    old MAC again and never learns the new one. *)
Theorem add_iface_programs_first_mac (port ip : Z) (mac : mac_addr_t)
    (w : World) :
  let first_mac :=
    match find (fun iface => port_num iface =? port) (ifaces w) with
    | Some old => mac_addr old
    | None => mac
    end in
  let req := MkTableWrite (dev_id w) INSERT
               (mac_entry (p4info w) port first_mac) in
  let r := TableWrite dev (log w) req in
  let o := add_iface port ip mac w in
  ifaces (world_of o) = ifaces w ++ [MkIface port ip mac] /\
  log (world_of o) = log w ++ [EvTableWrite req r] /\
  (status_ok r = true ->
   o = Ret tt (emit (EvTableWrite req r)
                 (set_ifaces (ifaces w ++ [MkIface port ip mac]) w))).
Proof.
  intros first_mac req r o. subst o.
  unfold add_iface, add_iface_, assign_mac_addr. run. proj.
  rewrite find_snoc. cbn [port_num]. rewrite Z.eqb_refl.
  subst first_mac.
  destruct (find (fun iface => port_num iface =? port) (ifaces w))
    as [old|] eqn:Hfind.
  - rewrite add_one_entry_run. proj. fold req r.
    destruct (status_ok r); proj; repeat split; discriminate.
  - rewrite add_one_entry_run. proj. cbn [mac_addr]. fold req r.
    destruct (status_ok r); proj; repeat split; discriminate.
Qed.

Lemma bind_ret_inv {A B : Type} (m : M A) (k : A -> M B) (w w' : World)
    (b : B) :
  (m ≫= k) w = Ret b w' ->
  exists a w1, m w = Ret a w1 /\ k a w1 = Ret b w'.
Proof.
  rewrite bind_run. destruct (m w) as [a w1|]; [eauto | discriminate].
Qed.

Lemma static_config__returns_zero (mode : UpdateMode) (w w' : World)
    (rc : Z) :
  static_config_ mode w = Ret rc w' -> rc = 0.
Proof.
  unfold static_config_. intros H.
  apply bind_ret_inv in H. destruct H as (? & ? & _ & H).
  apply bind_ret_inv in H. destruct H as (? & ? & _ & H).
  apply bind_ret_inv in H. destruct H as (? & ? & _ & H).
  apply bind_ret_inv in H. destruct H as (? & ? & _ & H).
  now injection H as <- _.
Qed.

(** [static_config] returns 0 whenever it returns: the results of its four
    table writes are dropped on the way.  Over a device whose calls go
    through it does return, whatever error counts the writes report. *)
Theorem static_config_reports_no_error (w : World) :
  (forall rc w', static_config w = Ret rc w' -> rc = 0) /\
  (reliable -> exists w', static_config w = Ret 0 w').
Proof.
  split.
  - intros rc w' H. unfold static_config in H.
    apply bind_ret_inv in H. destruct H as (r1 & w1 & H1 & H).
    apply bind_ret_inv in H. destruct H as (r2 & w2 & H2 & H).
    apply static_config__returns_zero in H1, H2. subst r1 r2.
    now injection H as <- _.
  - intros Hrel. unfold static_config. rewrite bind_run.
    change (static_config_ CONTROLLER_STATE w) with
      (Ret 0
         (set_ifaces
            ((ifaces w ++ [MkIface 1 0x0a000001 hw1]) ++
             [MkIface 2 0x0a000101 hw2])
            (set_next_hops
               (<[0x0a00010a := 2]> (<[0x0a00000a := 1]> (next_hops w)))
               w))).
    cbv beta iota. rewrite bind_run, (static_config_device_ok _ Hrel).
    eexists; reflexivity.
Qed.


(** ** What the ARP engine does not look at *)

(** [handle_arp] looks at the opcode, the sender's MAC and IP and the
    target IP only: hardware type, protocol type, the two address lengths
    and the target MAC of an ARP message are not validated, whatever they
    are the message is handled the same. *)
Theorem handle_arp_reads_four_fields (h1 h2 : arp_header_t) (w : World) :
  opcode h1 = opcode h2 ->
  hw_src_addr h1 = hw_src_addr h2 ->
  proto_src_addr h1 = proto_src_addr h2 ->
  proto_dst_addr h1 = proto_dst_addr h2 ->
  handle_arp h1 w = handle_arp h2 w.
Proof.
  destruct h1, h2. cbn. intros -> -> -> ->.
  unfold handle_arp, handle_arp_request, handle_arp_reply, reinject,
    arp_reply_packet. reflexivity.
Qed.

(** ** Table entries and their keys *)

Lemma mac_bytes_inj (m1 m2 : mac_addr_t) :
  mac_bytes m1 = mac_bytes m2 -> m1 = m2.
Proof. destruct m1, m2. cbn. intros [= -> -> -> -> -> ->]. reflexivity. Qed.

Lemma store_u32_inj (x y : Z) :
  uint32 x -> uint32 y -> store_u32 x = store_u32 y -> x = y.
Proof.
  intros Hx Hy E.
  rewrite <- (load_store_u32 x [] [] Hx), <- (load_store_u32 y [] [] Hy).
  cbn [app]. now rewrite E.
Qed.

Lemma store_u16_inj (x y : Z) :
  uint16 x -> uint16 y -> store_u16 x = store_u16 y -> x = y.
Proof.
  intros Hx Hy E.
  rewrite <- (load_store_u16 x [] [] Hx), <- (load_store_u16 y [] [] Hy).
  cbn [app]. now rewrite E.
Qed.

(** Under one pipeline description, the entries the manager builds tell
    their arguments apart: two ARP entries are equal only for the same
    address and MAC, two route entries only for the same next hop, port and
    prefix length, two source-MAC entries only for the same port and MAC. *)
Theorem entries_tell_keys_apart (p : pi_p4info_t) :
  (forall a1 a2 m1 m2, uint32 a1 -> uint32 a2 ->
     arp_entry p a1 m1 = arp_entry p a2 m2 -> a1 = a2 /\ m1 = m2) /\
  (forall l1 l2 n1 n2 p1 p2, uint32 n1 -> uint32 n2 ->
     uint16 p1 -> uint16 p2 ->
     route_entry p l1 n1 p1 = route_entry p l2 n2 p2 ->
     l1 = l2 /\ n1 = n2 /\ p1 = p2) /\
  (forall p1 p2 m1 m2, uint16 p1 -> uint16 p2 ->
     mac_entry p p1 m1 = mac_entry p p2 m2 -> p1 = p2 /\ m1 = m2).
Proof.
  split; [|split].
  - intros a1 a2 m1 m2 H1 H2 E. unfold arp_entry in E.
    assert (Ea : uint32_to_string a1 = uint32_to_string a2) by congruence.
    assert (Em : mac_bytes m1 = mac_bytes m2) by congruence.
    split; [now apply store_u32_inj | now apply mac_bytes_inj].
  - intros l1 l2 n1 n2 p1 p2 Hn1 Hn2 Hp1 Hp2 E. unfold route_entry in E.
    assert (El : l1 = l2) by congruence.
    assert (En : uint32_to_string n1 = uint32_to_string n2) by congruence.
    assert (Ep : uint16_to_string p1 = uint16_to_string p2) by congruence.
    split; [exact El|].
    split; [now apply store_u32_inj | now apply store_u16_inj].
  - intros p1 p2 m1 m2 H1 H2 E. unfold mac_entry in E.
    assert (Ep : uint16_to_string p1 = uint16_to_string p2) by congruence.
    assert (Em : mac_bytes m1 = mac_bytes m2) by congruence.
    split; [now apply store_u16_inj | now apply mac_bytes_inj].
Qed.


(** [add_route] never looks at [prefix]: two calls that differ in the prefix
    only do the same, and the LPM key of the entry written to the device is
    the address of the next hop, with the prefix length given. *)
Theorem add_route_ignores_prefix (prefix1 prefix2 pLen nhop port : Z)
    (w : World) :
  add_route prefix1 pLen nhop port w = add_route prefix2 pLen nhop port w /\
  exists e,
    table_writes (log (world_of (add_route prefix1 pLen nhop port w))) =
      table_writes (log w) ++ [e] /\
    matches e =
      [Lpm (pi_p4info_field_id_from_name (p4info w) "ipv4.dstAddr")
           (uint32_to_string nhop) pLen].
Proof.
  split; [reflexivity|].
  exists (route_entry (p4info w) pLen nhop port). split; [|reflexivity].
  unfold add_route, add_route_. run. rewrite add_one_entry_run. proj.
  destruct (status_ok _); proj; now rewrite table_writes_app.
Qed.

End Manager.

(** * The model at work

    The properties above, applied to concrete devices, pipelines and
    packets. *)

Lemma dev_ok_reliable : reliable dev_ok.
Proof. repeat split. Qed.

Lemma dev_start_refused_reliable : reliable dev_start_refused.
Proof. repeat split. Qed.

(** Worlds reached from a fresh manager over the device [dev_ok]. *)
Ltac reached ops :=
  apply (run_ops_reachable dev_ok parse1 0 16 ops (SimpleRouterMgr 0 p4info0));
  [apply reachable_init | vm_compute; reflexivity].

Example store_u16_ethertype : store_u16 0x0806 = [x08; x06].
Proof. reflexivity. Qed.

Example uint32_to_string_nhop :
  uint32_to_string 0x0a00000a = [x0a; x00; x00; x0a].
Proof. reflexivity. Qed.

Example ip_packet_dst :
  load_ipv4_dst_addr 16 (ip_packet 0x0a00000a x2a) 26 = 0x0a00000a.
Proof. reflexivity. Qed.

(** A destination without next hop: no ARP request, no queue. *)
Example no_route_no_request :
  PacketHandler dev_ok 16 (ip_packet 0x0a00000a x2a)
                (SimpleRouterMgr 0 p4info0)
  = Ret tt (SimpleRouterMgr 0 p4info0).
Proof. vm_compute. reflexivity. Qed.

(** The scenario of the specification: interface at port 1, route to
    10.0.0.10 via port 1, a punted packet for 10.0.0.10 makes one ARP request
    leave from port 1; the ARP reply of 10.0.0.10 installs its MAC and sends
    the packet on. *)
Example scenario :
  exists w,
    run_ops dev_ok parse1 0 16
      [OpAddIface 1 0x0a000001 hw1;
       OpAddRoute 0x0a00000a 32 0x0a00000a 1;
       OpPacket (ip_packet 0x0a00000a x2a);
       OpPacket (arp_packet 2 host_mac 0x0a00000a hw1 0x0a000001)]
      (SimpleRouterMgr 0 p4info0) = Some w /\
    packets_out (log w) =
      [arp_request_packet (MkIface 1 0x0a000001 hw1) 1 0x0a00000a;
       reinjected 1 host_mac (ip_packet 0x0a00000a x2a)] /\
    table_writes (log w) =
      [mac_entry p4info0 1 hw1;
       route_entry p4info0 32 0x0a00000a 1;
       arp_entry p4info0 0x0a00000a host_mac] /\
    packet_queues w !! 0x0a00000a = None.
Proof.
  eexists. split; [vm_compute; reflexivity|].
  repeat split; vm_compute; reflexivity.
Qed.

(** Two packets wait for 10.0.0.10; its ARP reply sends both, in order. *)
Lemma arp_reply_drains_queue_witness :
  exists w,
    run_ops dev_ok parse1 0 16
      [OpStaticConfig;
       OpPacket (ip_packet 0x0a00000a x01);
       OpPacket (ip_packet 0x0a00000a x02)]
      (SimpleRouterMgr 0 p4info0) = Some w /\
    exists w',
      handle_arp dev_ok (ArpHeader 1 0x800 6 4 2 host_mac 0x0a00000a
                                   hw1 0x0a000001) w = Ret tt w' /\
      packets_out (log w') =
        packets_out (log w) ++
        [reinjected 1 host_mac (ip_packet 0x0a00000a x01);
         reinjected 1 host_mac (ip_packet 0x0a00000a x02)] /\
      packet_queues w' !! 0x0a00000a = None /\
      table_writes (log w') =
        table_writes (log w) ++
        [MkTableEntry
           (pi_p4info_table_id_from_name p4info0 "forward")
           [Exact (pi_p4info_field_id_from_name p4info0
                     "routing_metadata.nhop_ipv4")
                  [x0a; x00; x00; x0a]]
           (MkAction
              (pi_p4info_action_id_from_name p4info0 "set_dmac")
              [Param (pi_p4info_action_param_id_from_name p4info0
                        (pi_p4info_action_id_from_name p4info0 "set_dmac")
                        "dmac")
                     (mac_bytes host_mac)])].
Proof.
  eexists. split; [vm_compute; reflexivity|].
  match goal with |- exists w', handle_arp _ ?h ?w = _ /\ _ =>
    destruct (arp_reply_drains_queue dev_ok parse1 0 16 h w
                [ip_packet 0x0a00000a x01; ip_packet 0x0a00000a x02])
      as (port & Hnh & _ & Hrun & Hnone & _)
  end.
  - reached [OpStaticConfig; OpPacket (ip_packet 0x0a00000a x01);
             OpPacket (ip_packet 0x0a00000a x02)].
  - reflexivity.
  - vm_compute. reflexivity.
  - reflexivity.
  - eexists. split; [exact Hrun|]. split; [|split].
    + vm_compute in Hnh. injection Hnh as <-. vm_compute. reflexivity.
    + rewrite Hrun in Hnone. exact Hnone.
    + vm_compute. reflexivity.
Defined.

(** A second miss for 10.0.0.10 joins the queue and asks again. *)
Lemma repeated_miss_enqueues_witness :
  exists w,
    run_ops dev_ok parse1 0 16
      [OpStaticConfig; OpPacket (ip_packet 0x0a00000a x01)]
      (SimpleRouterMgr 0 p4info0) = Some w /\
    PacketHandler dev_ok 16 (ip_packet 0x0a00000a x02) w =
    Ret tt (emit_all
              [EvPacketOut (arp_request_packet (MkIface 1 0x0a000001 hw1)
                                               1 0x0a00000a)]
              (set_packet_queues
                 (<[0x0a00000a := [ip_packet 0x0a00000a x01;
                                   ip_packet 0x0a00000a x02]]>
                    (packet_queues w)) w)).
Proof.
  eexists. split; [vm_compute; reflexivity|].
  etransitivity.
  - apply (proj1 (repeated_miss_enqueues dev_ok parse1 0 16 0x0a00000a)
             (ip_packet 0x0a00000a x02) _ 1 [ip_packet 0x0a00000a x01]);
      vm_compute; reflexivity.
  - vm_compute. reflexivity.
Defined.

(** C2, counterexample: 10.0.0.10 is already being resolved (one packet
    queued, one ARP request sent); the next miss for it does not just join
    the queue, a second ARP request goes out. *)
Lemma second_miss_asks_again :
  exists w w',
    run_ops dev_ok parse1 0 16
      [OpStaticConfig; OpPacket (ip_packet 0x0a00000a x01)]
      (SimpleRouterMgr 0 p4info0) = Some w /\
    next_hops w !! 0x0a00000a = Some 1 /\
    packet_queues w !! 0x0a00000a = Some [ip_packet 0x0a00000a x01] /\
    packets_out (log w) =
      [arp_request_packet (MkIface 1 0x0a000001 hw1) 1 0x0a00000a] /\
    PacketHandler dev_ok 16 (ip_packet 0x0a00000a x02) w = Ret tt w' /\
    packet_queues w' !! 0x0a00000a =
      Some [ip_packet 0x0a00000a x01; ip_packet 0x0a00000a x02] /\
    packets_out (log w') =
      [arp_request_packet (MkIface 1 0x0a000001 hw1) 1 0x0a00000a;
       arp_request_packet (MkIface 1 0x0a000001 hw1) 1 0x0a00000a].
Proof.
  eexists _, _. split; [vm_compute; reflexivity|].
  repeat split; vm_compute; reflexivity.
Qed.

(** A reload after the static configuration writes it again, with the ids
    of the new pipeline. *)
Lemma reload_repushes_static_config_witness :
  exists w,
    run_ops dev_ok parse1 0 16 [OpStaticConfig] (SimpleRouterMgr 0 p4info0)
    = Some w /\
    exists w' evs,
      update_config_ dev_ok parse1 [x7b; x7d] w = Ret 0 w' /\
      log w' = log w ++ evs /\
      table_writes evs =
        [default_entry p4info1;
         route_entry p4info1 32 0x0a00000a 1;
         route_entry p4info1 32 0x0a00010a 2;
         mac_entry p4info1 1 hw1;
         mac_entry p4info1 2 hw2].
Proof.
  eexists. split; [vm_compute; reflexivity|].
  match goal with |- exists w' evs, update_config_ _ _ ?b ?w = _ /\ _ =>
    destruct (reload_repushes_static_config dev_ok parse1 b w)
      as (w' & evs & Hrun & _ & _ & _ & _ & Hlog & Hwr)
  end.
  - apply dev_ok_reliable.
  - reflexivity.
  - reflexivity.
  - exists w', evs. split; [exact Hrun|]. split; [exact Hlog|].
    rewrite Hwr. vm_compute. reflexivity.
Defined.

(** C3, counterexample: a route to 10.0.2.10 via port 3 and an interface at
    port 3 are added after the static configuration.  A reload that succeeds
    writes the default entry and the four static entries, and nothing for
    the added route or the added interface. *)
Lemma reload_forgets_added_route :
  exists w w',
    run_ops dev_ok parse1 0 16
      [OpStaticConfig;
       OpAddIface 3 0x0a000201 host_mac;
       OpAddRoute 0x0a00020a 32 0x0a00020a 3]
      (SimpleRouterMgr 0 p4info0) = Some w /\
    next_hops w !! 0x0a00020a = Some 3 /\
    In (MkIface 3 0x0a000201 host_mac) (ifaces w) /\
    update_config_ dev_ok parse1 [x7b; x7d] w = Ret 0 w' /\
    table_writes (skipn (length (log w)) (log w')) =
      [default_entry p4info1;
       route_entry p4info1 32 0x0a00000a 1;
       route_entry p4info1 32 0x0a00010a 2;
       mac_entry p4info1 1 hw1;
       mac_entry p4info1 2 hw2] /\
    ~ In (route_entry p4info1 32 0x0a00020a 3)
         (table_writes (skipn (length (log w)) (log w'))) /\
    ~ In (mac_entry p4info1 3 host_mac)
         (table_writes (skipn (length (log w)) (log w'))).
Proof.
  eexists _, _. split; [vm_compute; reflexivity|].
  split; [vm_compute; reflexivity|].
  split; [vm_compute; tauto|].
  split; [vm_compute; reflexivity|].
  split; [vm_compute; reflexivity|].
  split; vm_compute; intros H; repeat destruct H as [H|H]; try discriminate H;
    exact H.
Qed.

(** A two-byte packet is dropped. *)
Lemma punted_packet_outcome_witness :
  exists w,
    run_ops dev_ok parse1 0 16 [OpStaticConfig] (SimpleRouterMgr 0 p4info0)
    = Some w /\
    PacketHandler dev_ok 16 [x00; x01] w = Ret tt w.
Proof.
  eexists. split; [vm_compute; reflexivity|].
  match goal with |- PacketHandler _ _ ?p ?w = _ =>
    apply (punted_packet_outcome dev_ok parse1 0 16 p w)
  end.
  - reflexivity.
  - reached [OpStaticConfig].
  - reflexivity.
Defined.

(** C4: the code does not drop every packet with an unexpected field
    value.  A well-formed punted ARP message with opcode 3 (54 bytes: CPU
    header with reason ARP_MSG, Ethernet header, ARP header) reaches the
    [default: assert(0)] of [handle_arp]: with assertions compiled in, the
    handler does not return and the process aborts (here on a freshly
    constructed manager). *)
Lemma unknown_arp_opcode_aborts :
  PacketHandler dev_ok 16 (arp_packet 3 host_mac 0x0a00000a hw1 0x0a000001)
                (SimpleRouterMgr 0 p4info0)
  = Crash AssertFailed (SimpleRouterMgr 0 p4info0).
Proof. vm_compute. reflexivity. Qed.

(** The device refuses [update_start]: the reload returns 1, the pipeline
    description is the new one and nothing was written. *)
Lemma reload_succeeds_iff_witness :
  exists rc w',
    update_config_ dev_start_refused parse1 [x7b; x7d]
                   (SimpleRouterMgr 0 p4info0) = Ret rc w' /\
    rc = 1 /\ p4info w' = p4info1 /\ table_writes (log w') = [].
Proof.
  destruct (reload_succeeds_iff dev_start_refused parse1 [x7b; x7d]
              (SimpleRouterMgr 0 p4info0) dev_start_refused_reliable)
    as (rc & w' & Hrun & _ & Hfail).
  destruct Hfail as (Hrc & Hp & Hlog); [vm_compute; discriminate|].
  exists rc, w'. split; [exact Hrun|]. split; [exact Hrc|].
  split; [exact Hp|]. rewrite Hlog. reflexivity.
Defined.

(** An ARP request for 10.0.0.1, the address of the interface at port 1. *)
Lemma arp_request_answered_witness :
  exists w,
    run_ops dev_ok parse1 0 16 [OpStaticConfig] (SimpleRouterMgr 0 p4info0)
    = Some w /\
    exists reply,
      PacketHandler dev_ok 16
        (arp_packet 1 host_mac 0x0a00000a broadcast_addr 0x0a000001) w
      = Ret tt (emit (EvPacketOut reply) w)
      /\ load_cpu_header reply 0 = CpuHeader ARP_MSG 1
      /\ load_arp_header reply 26 =
           ArpHeader 1 0x800 6 4 2 hw1 0x0a000001 host_mac 0x0a00000a.
Proof.
  eexists. split; [vm_compute; reflexivity|].
  match goal with |- exists reply, PacketHandler _ _ ?p ?w = _ /\ _ =>
    destruct (arp_request_answered dev_ok parse1 0 16 p w) as [Hyes _]
  end.
  - reached [OpStaticConfig].
  - reflexivity.
  - reflexivity.
  - reflexivity.
  - reflexivity.
  - destruct Hyes as (iface & reply & Hin & Hip & Hrun & _ & Hcpu & _ & Harp).
    + eexists. split; [left; reflexivity | reflexivity].
    + exists reply. split; [exact Hrun|].
      destruct Hin as [<- | [<- | []]].
      * split; [exact Hcpu | exact Harp].
      * vm_compute in Hip. discriminate Hip.
Defined.

(** One packet waits for 10.0.0.10, which has a next hop. *)
Lemma pending_queue_invariant_witness :
  exists w,
    run_ops dev_ok parse1 0 16
      [OpStaticConfig; OpPacket (ip_packet 0x0a00000a x01)]
      (SimpleRouterMgr 0 p4info0) = Some w /\
    packet_queues w !! 0x0a00000a = Some [ip_packet 0x0a00000a x01] /\
    is_Some (next_hops w !! 0x0a00000a).
Proof.
  eexists. split; [vm_compute; reflexivity|].
  split; [vm_compute; reflexivity|].
  match goal with |- is_Some (next_hops ?w !! _) =>
    destruct (pending_queue_invariant dev_ok parse1 0 16 w) as [Hinv _]
  end.
  - reached [OpStaticConfig; OpPacket (ip_packet 0x0a00000a x01)].
  - apply (Hinv 0x0a00000a [ip_packet 0x0a00000a x01]).
    vm_compute. reflexivity.
Defined.

(** Counter [rx] has exactly [2^64 - 1] packets: the query fails. *)
Lemma query_counter_sentinel_witness :
  query_counter dev_counter_max 0 "rx" 0 (SimpleRouterMgr 0 p4info0) =
  Ret (1, None)
      (emit (EvCounterRead (MkCounterRead 0 [7])
               (MkReply true
                  [MkCounterEntry 7 0 (MkCounterData (2 ^ 64 - 1) 640)]))
            (SimpleRouterMgr 0 p4info0)).
Proof.
  apply (query_counter_sentinel dev_counter_max 0 "rx" 0
           (SimpleRouterMgr 0 p4info0)
           (MkCounterEntry 7 0 (MkCounterData (2 ^ 64 - 1) 640))).
  - vm_compute. discriminate.
  - reflexivity.
  - reflexivity.
  - reflexivity.
Defined.

(** C8, at the failing input: the device reports an error for the write of
    the default entry, and [set_default_entries] still returns 0. *)
Theorem set_default_entries_hides_error :
  set_default_entries dev_write_error (SimpleRouterMgr 0 p4info0) =
  Ret 0 (emit (EvTableWrite (MkTableWrite 0 INSERT (default_entry p4info0))
                            (MkReply true (MkTableWriteRep [13])))
              (SimpleRouterMgr 0 p4info0)) /\
  add_one_entry dev_write_error (default_entry p4info0)
                (SimpleRouterMgr 0 p4info0) =
  Ret 1 (emit (EvTableWrite (MkTableWrite 0 INSERT (default_entry p4info0))
                            (MkReply true (MkTableWriteRep [13])))
              (SimpleRouterMgr 0 p4info0)).
Proof. split; vm_compute; reflexivity. Qed.


(** * The further properties at work *)

Lemma dev_write_error_reliable : reliable dev_write_error.
Proof. repeat split. Qed.

Lemma dev_end_refused_reliable : reliable dev_end_refused.
Proof. repeat split. Qed.

Lemma cpu_header_round_trip_witness :
  load_cpu_header (set_cpu_header ARP_MSG 2 ++ [x2a]) 0 = CpuHeader ARP_MSG 2.
Proof.
  apply (cpu_header_round_trip ARP_MSG 2 [x2a]);
    unfold uint16, ARP_MSG; lia.
Defined.

Lemma eth_header_round_trip_witness :
  load_eth_header (set_eth_header broadcast_addr hw1 0x0806 ++ [x2a]) 0 =
  EthHeader broadcast_addr hw1 0x0806.
Proof.
  apply (eth_header_round_trip broadcast_addr hw1 0x0806 [x2a]).
  unfold uint16. lia.
Defined.

Lemma arp_header_round_trip_witness :
  load_arp_header
    (set_arp_header 2 host_mac 0x0a00000a hw1 0x0a000001 ++ []) 0 =
  ArpHeader 1 0x800 6 4 2 host_mac 0x0a00000a hw1 0x0a000001.
Proof.
  apply (arp_header_round_trip 2 host_mac 0x0a00000a hw1 0x0a000001 []);
    unfold uint16, uint32; lia.
Defined.

Lemma uint_to_string_round_trip_witness :
  load_u32 (uint32_to_string 0x0a00010a) 0 = 0x0a00010a /\
  load_u16 (uint16_to_string 64) 0 = 64.
Proof.
  destruct (uint_to_string_round_trip 0x0a00010a 0) as (_ & H32 & _).
  destruct (uint_to_string_round_trip 64 0) as (H16 & _).
  split.
  - apply H32. unfold uint32. lia.
  - apply H16. unfold uint16. lia.
Defined.

(** After a first [assign] the manager is still not assigned, and the
    second [assign] sends both messages again and terminates. *)
Lemma assign_always_sends_witness :
  exists w,
    run_ops dev_ok parse1 0 16 [OpAssign] (SimpleRouterMgr 0 p4info0)
    = Some w /\
    assigned w = false /\
    assign dev_ok w =
      Crash Terminated
        (emit (EvPacketInit 0)
           (emit (EvDeviceAssign
                    (MkDeviceAssign 0 p4info0
                       [("port", "9090");
                        ("notifications",
                         "ipc:///tmp/bmv2-0-notifications.ipc");
                        ("cpu_iface", "veth251")]%string)
                    (MkReply true 0)) w)).
Proof.
  eexists. split; [vm_compute; reflexivity|]. split; [reflexivity|].
  match goal with |- assign _ ?w = _ =>
    destruct (assign_always_sends dev_ok w) as (E & _); [reflexivity|]
  end.
  rewrite E. reflexivity.
Defined.

Lemma interface_calls_send_no_packet_witness :
  packet_queues
    (world_of (run_op dev_ok parse1 0 16 OpStaticConfig
                      (SimpleRouterMgr 0 p4info0)))
  = packet_queues (SimpleRouterMgr 0 p4info0).
Proof.
  apply (interface_calls_send_no_packet dev_ok parse1 0 16 OpStaticConfig
           (SimpleRouterMgr 0 p4info0)).
  intros pkt. discriminate.
Defined.

(** 10.0.3.10 has no next hop. *)
Lemma miss_without_route_is_dropped_witness :
  exists w,
    run_ops dev_ok parse1 0 16 [OpStaticConfig] (SimpleRouterMgr 0 p4info0)
    = Some w /\
    PacketHandler dev_ok 16 (ip_packet 0x0a00030a x01) w = Ret tt w.
Proof.
  eexists. split; [vm_compute; reflexivity|].
  apply (miss_without_route_is_dropped dev_ok 16); vm_compute; reflexivity.
Defined.

(** A route through port 3, where no interface is: the packet is queued and
    no ARP request leaves. *)
Lemma first_miss_creates_queue_witness :
  exists w,
    run_ops dev_ok parse1 0 16
      [OpStaticConfig; OpAddRoute 0x0a00030a 32 0x0a00030a 3]
      (SimpleRouterMgr 0 p4info0) = Some w /\
    PacketHandler dev_ok 16 (ip_packet 0x0a00030a x01) w =
    Ret tt (set_packet_queues
              (<[load_ipv4_dst_addr 16 (ip_packet 0x0a00030a x01) 26
                 := [ip_packet 0x0a00030a x01]]> (packet_queues w)) w).
Proof.
  eexists. split; [vm_compute; reflexivity|].
  match goal with |- PacketHandler _ _ ?p ?w = _ =>
    apply (first_miss_creates_queue dev_ok 16 p w 3)
  end; try (vm_compute; reflexivity).
  intros iface [<- | [<- | []]]; discriminate.
Defined.

(** A reply from 10.0.9.9, which is not even a next hop. *)
Lemma unsolicited_arp_reply_installs_entry_witness :
  table_writes
    (log (world_of
            (PacketHandler dev_ok 16
               (arp_packet 2 host_mac 0x0a000909 hw1 0x0a000001)
               (SimpleRouterMgr 0 p4info0))))
  = [arp_entry p4info0 0x0a000909 host_mac].
Proof.
  rewrite (unsolicited_arp_reply_installs_entry dev_ok 16
             (arp_packet 2 host_mac 0x0a000909 hw1 0x0a000001)
             (SimpleRouterMgr 0 p4info0));
    vm_compute; reflexivity.
Defined.

Lemma packets_leave_config_alone_witness :
  exists w,
    run_ops dev_ok parse1 0 16
      [OpStaticConfig; OpPacket (ip_packet 0x0a00000a x01)]
      (SimpleRouterMgr 0 p4info0) = Some w /\
    next_hops
      (world_of (PacketHandler dev_ok 16
                   (arp_packet 2 host_mac 0x0a00000a hw1 0x0a000001) w))
    = next_hops w.
Proof.
  eexists. split; [vm_compute; reflexivity|].
  match goal with |- next_hops (world_of (PacketHandler _ _ ?p ?w)) = _ =>
    apply (packets_leave_config_alone dev_ok parse1 0 16 p w)
  end.
  - reflexivity.
  - reached [OpStaticConfig; OpPacket (ip_packet 0x0a00000a x01)].
Defined.

Lemma arp_request_on_the_wire_witness :
  load_arp_header
    (arp_request_packet (MkIface 1 0x0a000001 hw1) 1 0x0a00000a) 26 =
  ArpHeader 1 0x800 6 4 1 hw1 0x0a000001 broadcast_addr 0x0a00000a.
Proof.
  apply (arp_request_on_the_wire (MkIface 1 0x0a000001 hw1) 1 0x0a00000a);
    unfold iface_ok, uint16, uint32; cbn; lia.
Defined.

Lemma reinjected_is_data_packet_witness :
  PacketHandler dev_ok 16
    (reinjected 1 host_mac (ip_packet 0x0a00000a x01))
    (SimpleRouterMgr 0 p4info0)
  = Ret tt (SimpleRouterMgr 0 p4info0).
Proof.
  apply (reinjected_is_data_packet dev_ok 16 1 host_mac
           (ip_packet 0x0a00000a x01) (SimpleRouterMgr 0 p4info0)).
  - unfold uint16. lia.
  - reflexivity.
Defined.

Lemma queued_packets_belong_witness :
  exists w,
    run_ops dev_ok parse1 0 16
      [OpStaticConfig; OpPacket (ip_packet 0x0a00000a x01);
       OpPacket (ip_packet 0x0a00010a x02)]
      (SimpleRouterMgr 0 p4info0) = Some w /\
    packet_queues w !! 0x0a00010a = Some [ip_packet 0x0a00010a x02] /\
    load_ipv4_dst_addr 16 (ip_packet 0x0a00010a x02) 26 = 0x0a00010a.
Proof.
  eexists. split; [vm_compute; reflexivity|].
  split; [vm_compute; reflexivity|].
  match goal with |- _ =>
    eapply (fun w H =>
              queued_packets_belong dev_ok parse1 0 16 w H 0x0a00010a
                [ip_packet 0x0a00010a x02] (ip_packet 0x0a00010a x02))
  end.
  - reached [OpStaticConfig; OpPacket (ip_packet 0x0a00000a x01);
             OpPacket (ip_packet 0x0a00010a x02)].
  - vm_compute. reflexivity.
  - left. reflexivity.
Defined.

Lemma miss_then_reply_delivers_witness :
  exists w w1 w2,
    run_ops dev_ok parse1 0 16 [OpStaticConfig] (SimpleRouterMgr 0 p4info0)
    = Some w /\
    PacketHandler dev_ok 16 (ip_packet 0x0a00010a x07) w = Ret tt w1 /\
    PacketHandler dev_ok 16
      (arp_packet 2 host_mac 0x0a00010a hw2 0x0a000101) w1 = Ret tt w2 /\
    packet_queues w2 = packet_queues w.
Proof.
  eexists. 
  match goal with |- exists w1 w2, ?R = Some ?w /\ _ =>
    assert (Hw : R = Some w) by (vm_compute; reflexivity)
  end.
  match type of Hw with _ = Some ?w =>
    destruct (miss_then_reply_delivers dev_ok parse1 0 16
                (ip_packet 0x0a00010a x07)
                (arp_packet 2 host_mac 0x0a00010a hw2 0x0a000101) w 2)
      as (w1 & w2 & H1 & H2 & Hq & _)
  end; try (vm_compute; reflexivity).
  - apply dev_ok_reliable.
  - reached [OpStaticConfig].
  - exists w1, w2. auto.
Defined.

(** The second [assign] is the one call of the public interface that
    stops the process. *)
Lemma reliable_device_never_aborts_witness :
  exists w,
    run_ops dev_ok parse1 0 16 [OpAssign; OpStaticConfig]
            (SimpleRouterMgr 0 p4info0) = Some w /\
    recv_thread w = true /\
    exists w', run_op dev_ok parse1 0 16 OpAssign w = Crash Terminated w'.
Proof.
  eexists. split; [vm_compute; reflexivity|].
  match goal with |- recv_thread ?w = _ /\ _ =>
    destruct (reliable_device_never_aborts dev_ok parse1 0 16 OpAssign w)
      as [[w' H] | [(pkt & Hop & _) | (_ & Hth & H)]]
  end.
  - apply dev_ok_reliable.
  - reached [OpAssign; OpStaticConfig].
  - reflexivity.
  - vm_compute in H. discriminate H.
  - discriminate Hop.
  - split; [exact Hth | exact H].
Defined.

(** The first entry for counter 7, index 0 is the one returned. *)
Lemma query_counter_reads_first_match_witness :
  exists w',
    query_counter dev_counters 0 "rx" 0 (SimpleRouterMgr 0 p4info0)
    = Ret (0, Some (5, 640)) w'.
Proof.
  eexists.
  etransitivity.
  - apply (query_counter_reads_first_match dev_counters 0 "rx" 0
             (SimpleRouterMgr 0 p4info0)).
    + vm_compute. discriminate.
    + reflexivity.
  - vm_compute. reflexivity.
Defined.

Lemma reload_end_refused_witness :
  exists w' evs,
    update_config_ dev_end_refused parse1 [x7b; x7d]
                   (SimpleRouterMgr 0 p4info0) = Ret 1 w' /\
    log w' = evs /\
    table_writes evs =
      [default_entry p4info1;
       route_entry p4info1 32 0x0a00000a 1;
       route_entry p4info1 32 0x0a00010a 2].
Proof.
  destruct (reload_end_refused dev_end_refused parse1 [x7b; x7d]
              (SimpleRouterMgr 0 p4info0))
    as (w' & evs & Hrun & _ & Hlog & Hwr).
  - apply dev_end_refused_reliable.
  - reflexivity.
  - vm_compute. discriminate.
  - exists w', evs. split; [exact Hrun|]. split; [exact Hlog|].
    rewrite Hwr. reflexivity.
Defined.

(** The device refuses the new pipeline; the next route is written with its
    ids all the same. *)
Lemma entries_after_reload_use_new_ids_witness :
  exists w',
    update_config_ dev_start_refused parse1 [x7b; x7d]
                   (SimpleRouterMgr 0 p4info0) = Ret 1 w' /\
    table_writes
      (log (world_of (add_route dev_start_refused 0x0a00030a 32 0x0a00030a 3
                                w')))
    = table_writes (log w') ++ [route_entry p4info1 32 0x0a00030a 3].
Proof.
  eexists. split; [vm_compute; reflexivity|].
  match goal with |- table_writes (log (world_of (add_route _ _ _ _ _ ?w))) = _ =>
    apply (entries_after_reload_use_new_ids dev_start_refused parse1
             [x7b; x7d] (SimpleRouterMgr 0 p4info0) w 1)
  end.
  - apply dev_start_refused_reliable.
  - vm_compute. reflexivity.
Defined.

Lemma add_route_overwrites_witness :
  exists rc1 rc2 w1 w2,
    add_route dev_ok 0x0a00000a 32 0x0a00000a 1 (SimpleRouterMgr 0 p4info0)
    = Ret rc1 w1 /\
    add_route dev_ok 0x0a00000a 32 0x0a00000a 2 w1 = Ret rc2 w2 /\
    next_hops w2 !! 0x0a00000a = Some 2.
Proof.
  destruct (add_route_overwrites dev_ok 0x0a00000a 32 0x0a00000a 32
              0x0a00000a 1 2 (SimpleRouterMgr 0 p4info0))
    as (rc1 & rc2 & w1 & w2 & H1 & H2 & Hn & _).
  - intros h q. reflexivity.
  - exists rc1, rc2, w1, w2. auto.
Defined.

(** Port 1 is configured a second time, with another MAC: the device is
    sent the first MAC. *)
Lemma add_iface_programs_first_mac_witness :
  exists w,
    run_ops dev_ok parse1 0 16 [OpAddIface 1 0x0a000001 hw1]
            (SimpleRouterMgr 0 p4info0) = Some w /\
    table_writes (log (world_of (add_iface dev_ok 1 0x0a000063 host_mac w)))
    = [mac_entry p4info0 1 hw1; mac_entry p4info0 1 hw1].
Proof.
  eexists. split; [vm_compute; reflexivity|].
  match goal with |- table_writes (log (world_of (add_iface _ ?p ?i ?m ?w))) = _ =>
    destruct (add_iface_programs_first_mac dev_ok p i m w) as (_ & Hlog & _)
  end.
  rewrite Hlog. vm_compute. reflexivity.
Defined.

(** Every write reports an error, and [static_config] returns 0. *)
Lemma static_config_reports_no_error_witness :
  exists w',
    static_config dev_write_error (SimpleRouterMgr 0 p4info0) = Ret 0 w'.
Proof.
  apply (static_config_reports_no_error dev_write_error
           (SimpleRouterMgr 0 p4info0)).
  apply dev_write_error_reliable.
Defined.

(** A reply that claims hardware type 9 and address lengths 0 is handled
    like a proper one. *)
Lemma handle_arp_reads_four_fields_witness :
  handle_arp dev_ok (ArpHeader 9 0 0 0 2 host_mac 0x0a00000a hw1 0x0a000001)
             (SimpleRouterMgr 0 p4info0)
  = handle_arp dev_ok
      (ArpHeader 1 0x800 6 4 2 host_mac 0x0a00000a hw2 0x0a000001)
      (SimpleRouterMgr 0 p4info0).
Proof.
  apply (handle_arp_reads_four_fields dev_ok); reflexivity.
Defined.

Lemma entries_tell_keys_apart_witness :
  arp_entry p4info0 0x0a00000a host_mac <> arp_entry p4info0 0x0a00010a host_mac.
Proof.
  intros E.
  apply (entries_tell_keys_apart p4info0) in E;
    [destruct E as [E _]; discriminate E | | ]; unfold uint32; lia.
Defined.
